(** * create-revite: the scaffolding CLI of [bin/cli.js]

    A shallow embedding of the command-line tool: the template catalog
    ([generateAppTemplate]), the build-config patch and the other file edits
    of [installTailwind], the two process wrappers ([createViteProject],
    [runCommand]) and the orchestration in [createProject], followed by the
    properties of the tool.

    JavaScript strings are modelled by [string] (the UTF-8 bytes of the
    text, which is what reaches the files); every pattern the tool searches
    for is plain ASCII. *)

From Stdlib Require Import ZArith List Bool Ascii String DecimalString.
From stdpp Require Import base option gmap strings fin_maps.

Local Open Scope string_scope.
Local Open Scope list_scope.
Local Open Scope Z_scope.

(** ** Text primitives *)

(** The double-quote character, written out once. *)
Definition dq : string := String (ascii_of_nat 34) EmptyString.

(** [String.prototype.startsWith]. *)
Fixpoint startsWith (pat s : string) : bool :=
  match pat, s with
  | EmptyString, _ => true
  | String a pat', String b s' => if Ascii.eqb a b then startsWith pat' s' else false
  | String _ _, EmptyString => false
  end.

(** [String.prototype.includes]: [pat] occurs somewhere in [s]. *)
Fixpoint str_includes (pat s : string) : bool :=
  if startsWith pat s then true
  else match s with
       | EmptyString => false
       | String _ s' => str_includes pat s'
       end.

(** Drop the first [n] characters. *)
Fixpoint str_drop (n : nat) (s : string) : string :=
  match n, s with
  | O, _ => s
  | S n', String _ s' => str_drop n' s'
  | S _, EmptyString => EmptyString
  end.

(** [String.prototype.replace] with a string pattern and a replacement text
    free of [$]: the first occurrence of [pat] is replaced, later ones are
    kept, and a text without [pat] is returned as it is. *)
Fixpoint replace (pat rep s : string) : string :=
  if startsWith pat s then rep +:+ str_drop (String.length pat) s
  else match s with
       | EmptyString => EmptyString
       | String c s' => String c (replace pat rep s')
       end.

(** [Array.prototype.includes] on an array of strings. *)
Definition arr_includes (xs : list string) (x : string) : bool :=
  existsb (String.eqb x) xs.

(** ** The template catalog *)

Definition basic_blob : string :=
  String.concat dq ["import reactLogo from './assets/react.svg'
import viteLogo from '/vite.svg'

function App() {
  return (
    <div className="; "min-h-screen bg-gray-100 flex items-center justify-center"; ">
      <div className="; "text-center"; ">
        <div className="; "flex justify-center space-x-4 mb-8"; ">
          <a href="; "https://vitejs.dev"; " target="; "_blank"; " rel="; "noopener noreferrer"; ">
            <img src={viteLogo} className="; "h-16 w-16 hover:animate-spin"; " alt="; "Vite logo"; " />
          </a>
          <a href="; "https://react.dev"; " target="; "_blank"; " rel="; "noopener noreferrer"; ">
            <img src={reactLogo} className="; "h-16 w-16 hover:animate-spin"; " alt="; "React logo"; " />
          </a>
        </div>
        <h1 className="; "text-4xl font-bold text-gray-900 mb-4"; ">
          Welcome to <span className="; "text-blue-600"; ">ReVite</span>
        </h1>
        <p className="; "text-lg text-gray-600 mb-8"; ">
          React + Vite + Tailwind CSS
        </p>
        <div className="; "space-x-4"; ">
          <button className="; "bg-blue-600 hover:bg-blue-700 text-white font-bold py-2 px-4 rounded transition duration-200"; ">
            Get Started
          </button>
          <button className="; "bg-gray-200 hover:bg-gray-300 text-gray-800 font-bold py-2 px-4 rounded transition duration-200"; ">
            Learn More
          </button>
        </div>
      </div>
    </div>
  )
}

export default App"].

Definition dashboard_blob : string :=
  String.concat dq ["function App() {
  return (
    <div className="; "min-h-screen bg-gray-50"; ">
      {/* Header */}
      <header className="; "bg-white shadow-sm border-b border-gray-200"; ">
        <div className="; "max-w-7xl mx-auto px-4 sm:px-6 lg:px-8"; ">
          <div className="; "flex justify-between items-center py-6"; ">
            <div className="; "flex items-center"; ">
              <h1 className="; "text-2xl font-bold text-gray-900"; ">Dashboard</h1>
            </div>
            <div className="; "flex items-center space-x-4"; ">
              <button className="; "bg-blue-600 hover:bg-blue-700 text-white px-4 py-2 rounded-md text-sm font-medium"; ">
                New Project
              </button>
            </div>
          </div>
        </div>
      </header>

      {/* Main Content */}
      <main className="; "max-w-7xl mx-auto py-6 sm:px-6 lg:px-8"; ">
        {/* Stats */}
        <div className="; "grid grid-cols-1 gap-5 sm:grid-cols-2 lg:grid-cols-3 mb-8"; ">
          <div className="; "bg-white overflow-hidden shadow rounded-lg"; ">
            <div className="; "p-5"; ">
              <div className="; "flex items-center"; ">
                <div className="; "flex-shrink-0"; ">
                  <div className="; "w-8 h-8 bg-blue-500 rounded-md flex items-center justify-center"; ">
                    <span className="; "text-white font-bold"; ">P</span>
                  </div>
                </div>
                <div className="; "ml-5 w-0 flex-1"; ">
                  <dl>
                    <dt className="; "text-sm font-medium text-gray-500 truncate"; ">Total Projects</dt>
                    <dd className="; "text-lg font-medium text-gray-900"; ">12</dd>
                  </dl>
                </div>
              </div>
            </div>
          </div>
          <div className="; "bg-white overflow-hidden shadow rounded-lg"; ">
            <div className="; "p-5"; ">
              <div className="; "flex items-center"; ">
                <div className="; "flex-shrink-0"; ">
                  <div className="; "w-8 h-8 bg-green-500 rounded-md flex items-center justify-center"; ">
                    <span className="; "text-white font-bold"; ">A</span>
                  </div>
                </div>
                <div className="; "ml-5 w-0 flex-1"; ">
                  <dl>
                    <dt className="; "text-sm font-medium text-gray-500 truncate"; ">Active</dt>
                    <dd className="; "text-lg font-medium text-gray-900"; ">8</dd>
                  </dl>
                </div>
              </div>
            </div>
          </div>
          <div className="; "bg-white overflow-hidden shadow rounded-lg"; ">
            <div className="; "p-5"; ">
              <div className="; "flex items-center"; ">
                <div className="; "flex-shrink-0"; ">
                  <div className="; "w-8 h-8 bg-yellow-500 rounded-md flex items-center justify-center"; ">
                    <span className="; "text-white font-bold"; ">C</span>
                  </div>
                </div>
                <div className="; "ml-5 w-0 flex-1"; ">
                  <dl>
                    <dt className="; "text-sm font-medium text-gray-500 truncate"; ">Completed</dt>
                    <dd className="; "text-lg font-medium text-gray-900"; ">4</dd>
                  </dl>
                </div>
              </div>
            </div>
          </div>
        </div>

        {/* Content Area */}
        <div className="; "bg-white shadow rounded-lg"; ">
          <div className="; "px-4 py-5 sm:p-6"; ">
            <h3 className="; "text-lg leading-6 font-medium text-gray-900 mb-4"; ">Recent Activity</h3>
            <div className="; "space-y-4"; ">
              <div className="; "flex items-center justify-between p-4 bg-gray-50 rounded-lg"; ">
                <div>
                  <p className="; "text-sm font-medium text-gray-900"; ">Project Alpha</p>
                  <p className="; "text-sm text-gray-500"; ">Updated 2 hours ago</p>
                </div>
                <span className="; "inline-flex items-center px-2.5 py-0.5 rounded-full text-xs font-medium bg-green-100 text-green-800"; ">
                  Active
                </span>
              </div>
              <div className="; "flex items-center justify-between p-4 bg-gray-50 rounded-lg"; ">
                <div>
                  <p className="; "text-sm font-medium text-gray-900"; ">Project Beta</p>
                  <p className="; "text-sm text-gray-500"; ">Updated 1 day ago</p>
                </div>
                <span className="; "inline-flex items-center px-2.5 py-0.5 rounded-full text-xs font-medium bg-yellow-100 text-yellow-800"; ">
                  In Progress
                </span>
              </div>
            </div>
          </div>
        </div>
      </main>
    </div>
  )
}

export default App"].

Definition landing_blob : string :=
  String.concat dq ["function App() {
  return (
    <div className="; "min-h-screen bg-white"; ">
      {/* Navigation */}
      <nav className="; "bg-white shadow-sm"; ">
        <div className="; "max-w-7xl mx-auto px-4 sm:px-6 lg:px-8"; ">
          <div className="; "flex justify-between items-center py-6"; ">
            <div className="; "flex items-center"; ">
              <span className="; "text-2xl font-bold text-blue-600"; ">ReVite</span>
            </div>
            <div className="; "hidden md:flex items-center space-x-8"; ">
              <a href="; "#features"; " className="; "text-gray-500 hover:text-gray-900"; ">Features</a>
              <a href="; "#pricing"; " className="; "text-gray-500 hover:text-gray-900"; ">Pricing</a>
              <a href="; "#about"; " className="; "text-gray-500 hover:text-gray-900"; ">About</a>
              <button className="; "bg-blue-600 hover:bg-blue-700 text-white px-4 py-2 rounded-md"; ">
                Get Started
              </button>
            </div>
          </div>
        </div>
      </nav>

      {/* Hero Section */}
      <section className="; "bg-gradient-to-br from-blue-50 to-indigo-100"; ">
        <div className="; "max-w-7xl mx-auto px-4 sm:px-6 lg:px-8 py-24"; ">
          <div className="; "text-center"; ">
            <h1 className="; "text-4xl tracking-tight font-extrabold text-gray-900 sm:text-5xl md:text-6xl"; ">
              <span className="; "block"; ">Build faster with</span>
              <span className="; "block text-blue-600"; ">React + Vite + Tailwind</span>
            </h1>
            <p className="; "mt-3 max-w-md mx-auto text-base text-gray-500 sm:text-lg md:mt-5 md:text-xl md:max-w-3xl"; ">
              Create modern React applications with the power of Vite and the beauty of Tailwind CSS. 
              Get started in seconds, not hours.
            </p>
            <div className="; "mt-5 max-w-md mx-auto sm:flex sm:justify-center md:mt-8"; ">
              <div className="; "rounded-md shadow"; ">
                <button className="; "w-full flex items-center justify-center px-8 py-3 border border-transparent text-base font-medium rounded-md text-white bg-blue-600 hover:bg-blue-700 md:py-4 md:text-lg md:px-10"; ">
                  Get Started
                </button>
              </div>
              <div className="; "mt-3 rounded-md shadow sm:mt-0 sm:ml-3"; ">
                <button className="; "w-full flex items-center justify-center px-8 py-3 border border-transparent text-base font-medium rounded-md text-blue-600 bg-white hover:bg-gray-50 md:py-4 md:text-lg md:px-10"; ">
                  Learn More
                </button>
              </div>
            </div>
          </div>
        </div>
      </section>

      {/* Features Section */}
      <section id="; "features"; " className="; "h-[45vh] flex items-center justify-center py-16 bg-white"; ">
        <div className="; "max-w-7xl mx-auto px-4 sm:px-6 lg:px-8"; ">
          <div className="; "text-center"; ">
            <h2 className="; "text-3xl font-extrabold text-gray-900"; ">Features</h2>
            <p className="; "mt-4 text-lg text-gray-500"; ">Everything you need to build modern web applications</p>
          </div>
          <div className="; "mt-12 grid grid-cols-1 gap-8 sm:grid-cols-2 lg:grid-cols-3"; ">
            <div className="; "text-center"; ">
              <div className="; "flex items-center justify-center h-12 w-12 rounded-md bg-blue-500 text-white mx-auto"; ">
                <span className="; "font-bold"; ">⚡</span>
              </div>
              <h3 className="; "mt-4 text-lg font-medium text-gray-900"; ">Lightning Fast</h3>
              <p className="; "mt-2 text-base text-gray-500"; ">Powered by Vite for instant hot reload and optimized builds</p>
            </div>
            <div className="; "text-center"; ">
              <div className="; "flex items-center justify-center h-12 w-12 rounded-md bg-blue-500 text-white mx-auto"; ">
                <span className="; "font-bold"; ">🎨</span>
              </div>
              <h3 className="; "mt-4 text-lg font-medium text-gray-900"; ">Beautiful Design</h3>
              <p className="; "mt-2 text-base text-gray-500"; ">Tailwind CSS for rapid UI development and consistent styling</p>
            </div>
            <div className="; "text-center"; ">
              <div className="; "flex items-center justify-center h-12 w-12 rounded-md bg-blue-500 text-white mx-auto"; ">
                <span className="; "font-bold"; ">⚛️</span>
              </div>
              <h3 className="; "mt-4 text-lg font-medium text-gray-900"; ">Modern React</h3>
              <p className="; "mt-2 text-base text-gray-500"; ">Latest React features with TypeScript support</p>
            </div>
          </div>
        </div>
      </section>

      {/* Footer */}
      <footer className="; "bg-gray-50 mt-2"; ">
        <div className="; "max-w-7xl mx-auto py-12 px-4 sm:px-6 lg:px-8"; ">
          <div className="; "text-center text-gray-500"; ">
            <p>&copy; 2024 ReVite. Built with React + Vite + Tailwind CSS.</p>
          </div>
        </div>
      </footer>
    </div>
  )
}

export default App"].

Definition blog_blob : string :=
  String.concat dq ["function App() {
  const posts = [
    {
      id: 1,
      title: "; "Getting Started with React + Vite + Tailwind"; ",
      excerpt: "; "Learn how to build modern web applications with this powerful combination of tools."; ",
      date: "; "Mar 16, 2024"; ",
      readTime: "; "5 min read"; "
    },
    {
      id: 2,
      title: "; "Advanced Tailwind CSS Techniques"; ",
      excerpt: "; "Discover advanced patterns and techniques for building beautiful UIs with Tailwind CSS."; ",
      date: "; "Mar 12, 2024"; ",
      readTime: "; "8 min read"; "
    },
    {
      id: 3,
      title: "; "Vite: The Next Generation Build Tool"; ",
      excerpt: "; "Why Vite is revolutionizing the way we build and develop web applications."; ",
      date: "; "Mar 8, 2024"; ",
      readTime: "; "6 min read"; "
    }
  ];

  return (
    <div className="; "min-h-screen bg-gray-50"; ">
      {/* Header */}
      <header className="; "bg-white shadow-sm"; ">
        <div className="; "max-w-4xl mx-auto h-[80px] flex items-center justify-between px-4 sm:px-6 lg:px-8 "; ">
          <div>
            <h1 className="; "text-3xl font-bold text-gray-900"; ">My Blog</h1>
          </div>
          <nav className="; "hidden md:flex space-x-8"; ">
            <a href="; "#"; " className="; "text-gray-500 hover:text-gray-900"; ">Home</a>
            <a href="; "#"; " className="; "text-gray-500 hover:text-gray-900"; ">About</a>
            <a href="; "#"; " className="; "text-gray-500 hover:text-gray-900"; ">Contact</a>
          </nav>
        </div>
      </header>

      {/* Main Content */}
      <main className="; "max-w-4xl mx-auto px-4 sm:px-6 lg:px-8 py-12 h-[calc(100vh-233px)]"; ">
        {/* Featured Post */}
        <article className="; "bg-white rounded-lg shadow-sm overflow-hidden mb-12"; ">
          <div className="; "p-8"; ">
            <div className="; "flex items-center text-sm text-gray-500 mb-4"; ">
              <span className="; "bg-blue-100 text-blue-800 px-2 py-1 rounded-full text-xs font-medium mr-3"; ">
                Featured
              </span>
              <span>Mar 16, 2024</span>
              <span className="; "mx-2"; ">•</span>
              <span>5 min read</span>
            </div>
            <h2 className="; "text-3xl font-bold text-gray-900 mb-4"; ">
              Getting Started with React + Vite + Tailwind
            </h2>
            <p className="; "text-gray-600 text-lg mb-6"; ">
              Learn how to build modern web applications with this powerful combination of tools. 
              We'll cover everything from setup to deployment, including best practices and common patterns.
            </p>
            <button className="; "text-blue-600 hover:text-blue-800 font-medium"; ">
              Read more →
            </button>
          </div>
        </article>

        {/* Blog Posts Grid */}
        <div className="; "grid gap-8 md:grid-cols-2"; ">
          {posts.slice(1).map((post) => (
            <article key={post.id} className="; "bg-white rounded-lg shadow-sm overflow-hidden"; ">
              <div className="; "p-6"; ">
                <div className="; "flex items-center text-sm text-gray-500 mb-3"; ">
                  <span>{post.date}</span>
                  <span className="; "mx-2"; ">•</span>
                  <span>{post.readTime}</span>
                </div>
                <h3 className="; "text-xl font-semibold text-gray-900 mb-3"; ">
                  {post.title}
                </h3>
                <p className="; "text-gray-600 mb-4"; ">
                  {post.excerpt}
                </p>
                <button className="; "text-blue-600 hover:text-blue-800 font-medium text-sm"; ">
                  Read more →
                </button>
              </div>
            </article>
          ))}
        </div>

        {/* Newsletter Signup */}
        <div className="; "bg-blue-50 rounded-lg p-8 mt-12 text-center"; ">
          <h3 className="; "text-2xl font-bold text-gray-900 mb-4"; ">Stay Updated</h3>
          <p className="; "text-gray-600 mb-6"; ">Get the latest posts delivered right to your inbox</p>
          <div className="; "max-w-md mx-auto flex gap-4"; ">
            <input
              type="; "email"; "
              placeholder="; "Enter your email"; "
              className="; "flex-1 px-4 py-2 border border-gray-300 rounded-md focus:outline-none focus:ring-2 focus:ring-blue-500"; "
            />
            <button className="; "bg-blue-600 hover:bg-blue-700 text-white px-6 py-2 rounded-md font-medium"; ">
              Subscribe
            </button>
          </div>
        </div>
      </main>

      {/* Footer */}
      <footer className="; "bg-white border-t border-gray-200 mt-16 h-[80px]"; ">
        <div className="; "max-w-4xl mx-auto px-4 sm:px-6 lg:px-8 py-8"; ">
          <div className="; "text-center text-gray-500"; ">
            <p>&copy; 2024 My Blog. Built with React + Vite + Tailwind CSS.</p>
          </div>
        </div>
      </footer>
    </div>
  )
}

export default App"].

(** A JavaScript value as the catalog lookup can produce it: a string, the
    [undefined] of a missing key, or one of the members that every object
    literal inherits from [Object.prototype] (functions, and the prototype
    object itself under [__proto__]), named by its key. *)
Inductive JsValue : Type :=
  | JsString (s : string)
  | JsUndefined
  | JsInherited (key : string).

(** The operand test of [||]. *)
Definition truthy (v : JsValue) : bool :=
  match v with
  | JsString EmptyString => false
  | JsString _ => true
  | JsUndefined => false
  | JsInherited _ => true
  end.

(** The own properties of the object literal [templates]. *)
Definition templates : gmap string string :=
  <["blog" := blog_blob]>
    (<["landing" := landing_blob]>
       (<["dashboard" := dashboard_blob]>
          (<["basic" := basic_blob]> ∅))).

(** The property names of [Object.prototype]. *)
Definition object_prototype_keys : list string :=
  [ "constructor"; "__defineGetter__"; "__defineSetter__"; "hasOwnProperty";
    "__lookupGetter__"; "__lookupSetter__"; "isPrototypeOf";
    "propertyIsEnumerable"; "toString"; "valueOf"; "__proto__";
    "toLocaleString" ].

(** Property read [templates[key]]: own properties first, then the
    prototype chain. *)
Definition templates_get (key : string) : JsValue :=
  match templates !! key with
  | Some blob => JsString blob
  | None =>
      if arr_includes object_prototype_keys key then JsInherited key
      else JsUndefined
  end.

(** [generateAppTemplate]: [templates[templateType] || templates.basic]. *)
Definition generateAppTemplate (templateType : string) : JsValue :=
  let v := templates_get templateType in
  if truthy v then v else templates_get "basic".

(** ** The host: file system, processes, terminal *)

(** An entry of the file system: a regular file with its text, or a
    directory. The disk maps absolute paths to entries. *)
Inductive node : Type :=
  | File (data : string)
  | Dir.

#[global] Instance node_eq_dec : EqDecision node.
Proof. solve_decision. Defined.

Abbreviation disk := (gmap string node).

(** The colours of [chalk] that the tool uses. *)
Inductive Color : Type := Red | Yellow | Blue | Green | Gray | Cyan.

(** The object returned by [validate-npm-package-name]; the [errors] and
    [warnings] keys are optional. *)
Record Validation : Type := {
  validForNewPackages : bool;
  errors : option (list string);
  warnings : option (list string)
}.

(** How a child process ends: the [close] event with its exit code ([null]
    when a signal ended it), or the [error] event with its message. *)
Inductive Outcome : Type :=
  | Closed (code : option Z)
  | SpawnError (message : string).

(** What the tool takes from Node and from its dependencies. [spawn] runs an
    external command in a working directory and gives its outcome together
    with the disk it leaves behind. [remove_fault] is the error with which
    the system refuses to remove an entry ([EACCES], [EPERM], [EBUSY]), if
    it does: the disk holds no permissions, so the host decides. *)
Class Platform : Type := {
  chalk : Color -> string -> string;
  validateProjectName : string -> Validation;
  path_basename : string -> string;
  path_dirname : string -> string;
  path_resolve : string -> string -> string;
  path_join : list string -> string;
  spawn : string -> list string -> string -> disk -> Outcome * disk;
  remove_fault : string -> disk -> option string
}.

(** The part of the environment that one invocation reads: [process.cwd()],
    the answer given at the confirmation prompt ([None] when the prompt is
    aborted and [response.continue] is [undefined]) and the disk.
    [process.cwd()] is read as a total function: a working directory that
    was deleted under the running process, where [process.cwd()] itself
    throws, is outside the model. *)
Record World : Type := {
  cwd : string;
  answer : option bool;
  initial_disk : disk
}.

(** The options object that commander hands to the action, as the tool
    reads it: [typescript] is the truth value of [options.typescript],
    [tailwind] is [options.tailwind !== false] (false under
    [--no-tailwind]) and [template] is any string the user gave. *)
Record Options : Type := {
  typescript : bool;
  tailwind : bool;
  template : string
}.

(** The calls on the [ora] spinner: [start], [succeed], [fail]. *)
Inductive SpinnerCall : Type := SpinStart | SpinSucceed | SpinFail.

(** The observable effects of a run, oldest first. *)
Inductive Event : Type :=
  | Stdout (line : string)
  | Stderr (line : string)
  | Spinner (call : SpinnerCall) (text : string)
  | Prompt (message : string)
  | Spawned (command : string) (args : list string) (dir : string) (result : Outcome)
  | Wrote (path : string) (data : string)
  | Removed (path : string).

(** The state that the tool threads through its steps: the disk and the
    trace of effects so far. *)
Record State : Type := {
  st_disk : disk;
  st_trace : list Event
}.

(** ** The monad of the asynchronous functions

    An [async] function either returns or throws an [Error], of which the
    tool only reads the [message]. *)
Inductive Result (A : Type) : Type :=
  | Ret (a : A)
  | Throw (message : string).
Arguments Ret {A} a.
Arguments Throw {A} message.

(** A computation of the tool: from a state to a result and a state. *)
Definition M (A : Type) : Type := State -> Result A * State.

Definition ret {A} (a : A) : M A := fun s => (Ret a, s).
Definition throw {A} (message : string) : M A := fun s => (Throw message, s).
Definition bind {A B} (m : M A) (k : A -> M B) : M B :=
  fun s => match m s with
           | (Ret a, s') => k a s'
           | (Throw e, s') => (Throw e, s')
           end.
(** [try { m } catch (error) { handler }]. *)
Definition try_catch {A} (m : M A) (handler : string -> M A) : M A :=
  fun s => match m s with
           | (Ret a, s') => (Ret a, s')
           | (Throw e, s') => handler e s'
           end.

Notation "'let*' x := m 'in' k" := (bind m (fun x => k))
  (at level 10, x name, m at level 100, k at level 200).
Notation "m ;; k" := (bind m (fun _ => k))
  (at level 100, k at level 200, right associativity).

(** Add one event to the trace. *)
Definition emit (e : Event) : M unit :=
  fun s => (Ret tt, {| st_disk := st_disk s; st_trace := st_trace s ++ [e] |}).

(** [Array.prototype.forEach] with an effectful callback. *)
Fixpoint forEach {A} (f : A -> M unit) (xs : list A) : M unit :=
  match xs with
  | [] => ret tt
  | x :: xs' => f x ;; forEach f xs'
  end.

(** [`${code}`]: a number in decimal, or [null]. *)
Definition show_code (code : option Z) : string :=
  match code with
  | Some z => NilZero.string_of_int (Z.to_int z)
  | None => "null"
  end.

(** Which events change the disk or start a process. *)
Definition is_mutation (e : Event) : bool :=
  match e with
  | Wrote _ _ | Removed _ => true
  | _ => false
  end.

Definition is_spawn (e : Event) : bool :=
  match e with
  | Spawned _ _ _ _ => true
  | _ => false
  end.

Definition is_prompt (e : Event) : bool :=
  match e with
  | Prompt _ => true
  | _ => false
  end.

Section Cli.

Context {P : Platform}.

(** *** Console and spinner *)

Definition console_log (line : string) : M unit := emit (Stdout line).
Definition console_error (line : string) : M unit := emit (Stderr line).
Definition spinner (call : SpinnerCall) (text : string) : M unit :=
  emit (Spinner call text).

(** *** File system ([fs-extra]) *)

(** [fs.readdir]: the names of the entries directly inside a directory. *)
Definition entries (d : disk) (p : string) : list string :=
  path_basename <$>
    List.filter (fun k => bool_decide (path_dirname k = p ∧ k ≠ p))
                (map_to_list d).*1.

(** The entry must be a directory. *)
Definition readdir (p : string) : M (list string) :=
  fun s => match st_disk s !! p with
           | Some Dir => (Ret (entries (st_disk s) p), s)
           | Some (File _) =>
               (Throw ("ENOTDIR: not a directory, scandir '" +:+ p +:+ "'"), s)
           | None =>
               (Throw ("ENOENT: no such file or directory, scandir '" +:+ p +:+ "'"), s)
           end.

(** [fs.pathExists]: never throws. *)
Definition pathExists (p : string) : M bool :=
  fun s => (Ret (bool_decide (is_Some (st_disk s !! p))), s).

(** [fs.readFile] with the [utf-8] encoding. *)
Definition readFile (p : string) : M string :=
  fun s => match st_disk s !! p with
           | Some (File data) => (Ret data, s)
           | Some Dir =>
               (Throw "EISDIR: illegal operation on a directory, read", s)
           | None =>
               (Throw ("ENOENT: no such file or directory, open '" +:+ p +:+ "'"), s)
           end.

(** [fs.writeFile] creates or truncates the file; it does not create the
    directory above it. *)
Definition writeFile (p data : string) : M unit :=
  fun s => match st_disk s !! p, st_disk s !! path_dirname p with
           | Some Dir, _ =>
               (Throw ("EISDIR: illegal operation on a directory, open '" +:+ p +:+ "'"), s)
           | _, Some Dir =>
               (Ret tt, {| st_disk := <[p := File data]> (st_disk s);
                           st_trace := st_trace s ++ [Wrote p data] |})
           | _, Some (File _) =>
               (Throw ("ENOTDIR: not a directory, open '" +:+ p +:+ "'"), s)
           | _, None =>
               (Throw ("ENOENT: no such file or directory, open '" +:+ p +:+ "'"), s)
           end.

(** How Node names a value that it refuses as an argument: a function by
    its name, an object by its constructor. Of the members of
    [Object.prototype], [constructor] is the function [Object], [__proto__]
    is an object and the others are functions named like their key. *)
Definition received (v : JsValue) : string :=
  match v with
  | JsString _ => "type string"
  | JsUndefined => "undefined"
  | JsInherited key =>
      if String.eqb key "__proto__" then "an instance of Object"
      else if String.eqb key "constructor" then "function Object"
      else "function " +:+ key
  end.

(** [fs.writeFile] with a value that need not be a string: Node refuses
    what is neither text nor a buffer. *)
Definition writeFile_value (p : string) (v : JsValue) : M unit :=
  match v with
  | JsString data => writeFile p data
  | _ => throw ("The " +:+ dq +:+ "data" +:+ dq +:+
                " argument must be of type string or an instance of Buffer, TypedArray, or DataView."
                +:+ " Received " +:+ received v)
  end.

(** [fs.remove]: unless the system refuses, the entry is gone afterwards,
    whether it was there or not. The disk follows the removal of a file or
    of a missing entry; a directory goes with everything below it, which
    the disk does not follow, so what is stated of the disk after a removal
    is stated for an entry that is no directory, apart from the absence of
    the entry itself. *)
Definition remove (p : string) : M unit :=
  fun s => match remove_fault p (st_disk s) with
           | Some message => (Throw message, s)
           | None =>
               (Ret tt, {| st_disk := delete p (st_disk s);
                           st_trace := st_trace s ++ [Removed p] |})
           end.

(** *** Child processes *)

(** [spawn]: the command runs to its end on the current disk. *)
Definition spawn_child (command : string) (args : list string) (dir : string)
  : M Outcome :=
  fun s => let '(o, d) := spawn command args dir (st_disk s) in
           (Ret o, {| st_disk := d;
                      st_trace := st_trace s ++ [Spawned command args dir o] |}).

(** [prompts] with a [confirm] question; the result is
    [response.continue]. *)
Definition prompt_confirm (w : World) (message : string) : M (option bool) :=
  emit (Prompt message) ;; ret (answer w).

(** [runCommand]. *)
Definition runCommand (command : string) (args : list string) (dir : string)
  : M unit :=
  let* o := spawn_child command args dir in
  match o with
  | Closed (Some 0) => ret tt
  | Closed code =>
      throw ("Command " +:+ dq +:+ command +:+ " " +:+ String.concat " " args
             +:+ dq +:+ " failed with exit code " +:+ show_code code)
  | SpawnError message => throw message
  end.

(** The argument list that [createViteProject] builds. *)
Definition viteArgs (w : World) (projectPath template projectName : string)
  : list string :=
  let targetName := if String.eqb projectPath (cwd w) then "." else projectName in
  [ "create-vite@latest"; targetName; "--template"; template; "--yes" ].

(** [createViteProject]. *)
Definition createViteProject (w : World) (projectPath template projectName : string)
  : M unit :=
  let* o := spawn_child "npx" (viteArgs w projectPath template projectName)
                   (path_dirname projectPath) in
  match o with
  | Closed (Some 0) => ret tt
  | Closed code =>
      throw ("Vite creation failed with exit code " +:+ show_code code +:+
             ". Please check your internet connection and try again.")
  | SpawnError message => throw message
  end.

(** [installDependencies]. *)
Definition installDependencies (projectPath : string) : M unit :=
  runCommand "npm" ["install"] projectPath.

(** *** The Tailwind stage *)

(** The anchors of the patch and their replacements. *)
Definition viteImport : string := "import { defineConfig } from 'vite'".
Definition viteImportPatched : string :=
  "import { defineConfig } from 'vite'
import tailwindcss from '@tailwindcss/vite'".
Definition pluginsLiteral : string := "plugins: [react()]".
Definition pluginsPatched : string := "plugins: [react(), tailwindcss()]".

(** The two substitutions that [installTailwind] applies to the text of the
    build configuration, in the order and with the branch of the source. *)
Definition patchViteConfig (isTypeScript : bool) (viteConfig : string) : string :=
  let viteConfig :=
    if isTypeScript then replace viteImport viteImportPatched viteConfig
    else replace viteImport viteImportPatched viteConfig in
  replace pluginsLiteral pluginsPatched viteConfig.

(** The file names that depend on the language variant. *)
Definition viteConfigFile (isTypeScript : bool) : string :=
  if isTypeScript then "vite.config.ts" else "vite.config.js".
Definition appFile (isTypeScript : bool) : string :=
  if isTypeScript then "App.tsx" else "App.jsx".

(** The four paths of the stage, each built by [path.join]. *)
Definition viteConfigPath (projectPath : string) (isTypeScript : bool) : string :=
  path_join [projectPath; viteConfigFile isTypeScript].
Definition cssPath (projectPath : string) : string :=
  path_join [projectPath; "src/index.css"].
Definition appPath (projectPath : string) (isTypeScript : bool) : string :=
  path_join [projectPath; "src"; appFile isTypeScript].
Definition appCssPath (projectPath : string) : string :=
  path_join [projectPath; "src/App.css"].

(** The new text of the entry stylesheet. *)
Definition tailwindImports : string := "@import " +:+ dq +:+ "tailwindcss" +:+ dq +:+ ";
".

(** [installTailwind]. *)
Definition installTailwind (projectPath : string) (isTypeScript : bool)
    (templateType : string) : M unit :=
  runCommand "npm" ["install"; "tailwindcss"; "@tailwindcss/vite"] projectPath ;;
  let* viteConfig := readFile (viteConfigPath projectPath isTypeScript) in
  writeFile (viteConfigPath projectPath isTypeScript)
            (patchViteConfig isTypeScript viteConfig) ;;
  writeFile (cssPath projectPath) tailwindImports ;;
  writeFile_value (appPath projectPath isTypeScript)
                  (generateAppTemplate templateType) ;;
  let* exists_ := pathExists (appCssPath projectPath) in
  if exists_ : bool then remove (appCssPath projectPath) else ret tt.

(** *** The orchestration *)

Definition validTemplates : list string :=
  ["basic"; "dashboard"; "landing"; "blog"].

(** [!projectDirectory || projectDirectory === '.']: the argument is
    missing, empty, or the dot. *)
Definition targetsCwd (projectDirectory : option string) : bool :=
  match projectDirectory with
  | None => true
  | Some d => String.eqb d EmptyString || String.eqb d "."
  end.

(** [validation.errors && validation.errors.forEach(...)]. *)
Definition forEach_opt (f : string -> M unit) (xs : option (list string)) : M unit :=
  match xs with
  | Some l => forEach f l
  | None => ret tt
  end.

(** The first half of [createProject], after the template check: the
    branch on the directory argument that fixes [projectName] and
    [projectPath]. [None] stands for the [return] statements of that
    branch. *)
Definition resolveTarget (w : World) (projectDirectory : option string)
  : M (option (string * string)) :=
  if targetsCwd projectDirectory then
    let projectName := path_basename (cwd w) in
    let projectPath := cwd w in
    let* files := readdir projectPath in
    let relevantFiles := List.filter (fun file => negb (startsWith "." file)) files in
    if (0 <? length relevantFiles)%nat then
      let* response := prompt_confirm w "Current directory is not empty. Continue anyway?" in
      match response with
      | Some true => ret (Some (projectName, projectPath))
      | _ => console_log (chalk Yellow "Operation cancelled.") ;; ret None
      end
    else ret (Some (projectName, projectPath))
  else
    let projectDirectory := default EmptyString projectDirectory in
    let validation := validateProjectName projectDirectory in
    if negb (validForNewPackages validation) then
      console_error (chalk Red "Invalid project name:") ;;
      forEach_opt (fun err => console_error (chalk Red ("  • " +:+ err)))
                  (errors validation) ;;
      forEach_opt (fun warn => console_error (chalk Yellow ("  • " +:+ warn)))
                  (warnings validation) ;;
      ret None
    else
      let projectPath := path_resolve (cwd w) projectDirectory in
      let* taken := pathExists projectPath in
      if taken : bool then
        console_error (chalk Red ("Directory " +:+ dq +:+ projectDirectory +:+ dq
                                  +:+ " already exists.")) ;;
        ret None
      else ret (Some (projectDirectory, projectPath)).

(** The closing report of a successful run. *)
Definition reportSuccess (projectDirectory : option string)
    (projectName projectPath : string) : M unit :=
  console_log EmptyString ;;
  console_log (chalk Green "Success! Created" +:+ " " +:+ chalk Cyan projectName
               +:+ " " +:+ chalk Green "at" +:+ " " +:+ chalk Cyan projectPath) ;;
  console_log EmptyString ;;
  console_log "Inside that directory, you can run several commands:" ;;
  console_log EmptyString ;;
  console_log (chalk Cyan "  npm run dev") ;;
  console_log "    Starts the development server." ;;
  console_log EmptyString ;;
  console_log (chalk Cyan "  npm run build") ;;
  console_log "    Bundles the app into static files for production." ;;
  console_log EmptyString ;;
  console_log (chalk Cyan "  npm run preview") ;;
  console_log "    Preview the production build locally." ;;
  console_log EmptyString ;;
  console_log "We suggest that you begin by typing:" ;;
  console_log EmptyString ;;
  (if negb (targetsCwd projectDirectory)
   then console_log (chalk Cyan ("  cd " +:+ projectName))
   else ret tt) ;;
  console_log (chalk Cyan "  npm run dev") ;;
  console_log EmptyString ;;
  console_log (chalk Blue "Happy coding! 🚀").

(** The body of the [try] block of [createProject]. *)
Definition materialize (w : World) (projectDirectory : option string)
    (options : Options) (projectName projectPath : string) : M unit :=
  let template_ := if typescript options then "react-ts" else "react" in
  let useTailwind := tailwind options in
  createViteProject w projectPath template_ projectName ;;
  spinner SpinSucceed "Vite project created" ;;
  (if useTailwind then
     spinner SpinStart "Installing Tailwind CSS..." ;;
     installTailwind projectPath (typescript options) (template options) ;;
     spinner SpinSucceed "Tailwind CSS installed"
   else ret tt) ;;
  spinner SpinStart "Installing dependencies..." ;;
  installDependencies projectPath ;;
  spinner SpinSucceed "Dependencies installed" ;;
  reportSuccess projectDirectory projectName projectPath.

(** The second half of [createProject]: the announcement, the spinner and
    the [try]/[catch] around the stages. *)
Definition build (w : World) (projectDirectory : option string)
    (options : Options) (projectName projectPath : string) : M unit :=
  console_log (chalk Blue ("Creating a new React + Vite + Tailwind app in "
                           +:+ chalk Green projectPath)) ;;
  console_log (chalk Gray ("Using template: " +:+ chalk Cyan (template options))) ;;
  console_log EmptyString ;;
  spinner SpinStart "Creating Vite project..." ;;
  try_catch
    (materialize w projectDirectory options projectName projectPath)
    (fun error => spinner SpinFail "Failed to create project" ;; throw error).

(** [createProject]. *)
Definition createProject (w : World) (projectDirectory : option string)
    (options : Options) : M unit :=
  if negb (arr_includes validTemplates (template options)) then
    console_error
      (chalk Red ("Invalid template " +:+ dq +:+ template options +:+ dq
                  +:+ ". Available templates: " +:+ String.concat ", " validTemplates))
  else
    let* target := resolveTarget w projectDirectory in
    match target with
    | None => ret tt
    | Some (projectName, projectPath) =>
        build w projectDirectory options projectName projectPath
    end.

(** The outcome of one invocation: the exit status of the process, the
    message of the error that reached the top level (if one did) and the
    final disk and trace. *)
Record Run : Type := {
  exit_status : Z;
  reported : option string;
  final : State
}.

(** The commander action: an error thrown by [createProject] is printed
    and ends the process with [process.exit(1)]; when the action returns,
    the process ends by itself with status 0. *)
Definition action (w : World) (projectDirectory : option string)
    (options : Options) : Run :=
  let s0 := {| st_disk := initial_disk w; st_trace := [] |} in
  match createProject w projectDirectory options s0 with
  | (Ret _, s) => {| exit_status := 0; reported := None; final := s |}
  | (Throw message, s) =>
      let '(_, s') :=
        console_error (chalk Red "Error creating project:" +:+ " " +:+ message) s in
      {| exit_status := 1; reported := Some message; final := s' |}
  end.

End Cli.

(** ** A concrete host for the examples

    A POSIX reading of the [path] functions on normalised absolute paths,
    colours switched off, a validator that knows the leading-period rule of
    npm names, and external commands that behave like [create-vite] and
    [npm] on a healthy machine, with the exit code of the generator as a
    parameter. *)
Module Demo.

(** The segments of a path. *)
Fixpoint split_slash (s : string) : list string :=
  match s with
  | EmptyString => [EmptyString]
  | String c s' =>
      if Ascii.eqb c "/"%char then EmptyString :: split_slash s'
      else match split_slash s' with
           | seg :: segs => String c seg :: segs
           | [] => [String c EmptyString]
           end
  end.

Definition basename (p : string) : string :=
  List.last (split_slash p) EmptyString.

Definition dirname (p : string) : string :=
  match String.concat "/" (List.removelast (split_slash p)) with
  | EmptyString => "/"
  | d => d
  end.

Definition join (parts : list string) : string := String.concat "/" parts.

Definition resolve (cwd d : string) : string := cwd +:+ "/" +:+ d.

(** The leading-period rule of npm names. *)
Definition validate (name : string) : Validation :=
  if startsWith "." name then
    {| validForNewPackages := false;
       errors := Some ["name cannot start with a period"];
       warnings := None |}
  else {| validForNewPackages := true; errors := None; warnings := None |}.

(** The build configuration that the generator writes. *)
Definition default_config : string :=
  "import { defineConfig } from 'vite'
import react from '@vitejs/plugin-react'

// https://vite.dev/config/
export default defineConfig({
  plugins: [react()],
})
".

(** The skeleton that the generator leaves in its target. *)
Definition scaffold (args : list string) (dir : string) (d : disk) : disk :=
  match args with
  | [_; target; _; variant; _] =>
      let root := if String.eqb target "." then dir else dir +:+ "/" +:+ target in
      let ts := String.eqb variant "react-ts" in
      <[root +:+ "/src/App.css" := File "#root { margin: 0 auto; }"]>
        (<[root +:+ "/src/" +:+ appFile ts := File "export default function App() { return null }"]>
           (<[root +:+ "/src/index.css" := File ":root { color: black; }"]>
              (<[root +:+ "/" +:+ viteConfigFile ts := File default_config]>
                 (<[root +:+ "/src" := Dir]> (<[root := Dir]> d)))))
  | _ => d
  end.

(** External commands: the generator exits with [generator_code] and
    scaffolds when that is 0; [npm] succeeds and leaves the disk alone. *)
Definition run (generator_code : Z) (command : string) (args : list string)
    (dir : string) (d : disk) : Outcome * disk :=
  if String.eqb command "npx" then
    if generator_code =? 0 then (Closed (Some 0), scaffold args dir d)
    else (Closed (Some generator_code), d)
  else (Closed (Some 0), d).

Definition host (generator_code : Z) : Platform :=
  {| chalk := fun _ text => text;
     validateProjectName := validate;
     path_basename := basename;
     path_dirname := dirname;
     path_resolve := resolve;
     path_join := join;
     spawn := run generator_code;
     remove_fault := fun _ _ => None |}.

(** A working directory with one visible file and one hidden directory. *)
Definition home : disk :=
  <["/home/dev/.git" := Dir]>
    (<["/home/dev/notes.txt" := File "todo"]>
       (<["/home/dev" := Dir]> (<["/home" := Dir]> ∅))).

(** A working directory with hidden entries only. *)
Definition bare : disk :=
  <["/home/dev/.git" := Dir]> (<["/home/dev" := Dir]> (<["/home" := Dir]> ∅)).

(** Worlds and options of the examples. *)
Definition world (a : option bool) (d : disk) : World :=
  {| cwd := "/home/dev"; answer := a; initial_disk := d |}.

Definition opts (ts tw : bool) (t : string) : Options :=
  {| typescript := ts; tailwind := tw; template := t |}.

(** Three option sets: an unknown template, the dashboard in JavaScript
    with Tailwind, and the basic template in TypeScript without Tailwind. *)
Definition fancy : Options := opts false true "fancy".

Definition dashboard_js : Options := opts false true "dashboard".

Definition plain_ts : Options := opts true false "basic".

(** The command line of the generator in the failing run. *)
Definition generator_args : list string :=
  ["create-vite@latest"; "my-app"; "--template"; "react"; "--yes"].

Definition generator_command_line : string :=
  "npx" +:+ " " +:+ String.concat " " generator_args.

(** The state in which the Tailwind stage starts: the skeleton of the
    generator in [/home/dev/my-app], in either language variant. *)
Definition scaffolded (ts : bool) : State :=
  {| st_disk := scaffold ["create-vite@latest"; "my-app"; "--template";
                          if ts then "react-ts" else "react"; "--yes"]
                         "/home/dev" bare;
     st_trace := [] |}.

(** The state in which the Tailwind stage ends. *)
Definition patched (ts : bool) : State :=
  (installTailwind (P := host 0) "/home/dev/my-app" ts "dashboard" (scaffolded ts)).2.

(** Three build configurations: without the import anchor, without the
    plugin anchor, without both. *)
Definition only_plugins : string := "export default { plugins: [react()] }".

Definition only_import : string := "import { defineConfig } from 'vite'
export default defineConfig({})".

Definition no_anchor : string := "export default {}".

End Demo.

(** What a run leaves: its trace and its disk, and the spawns and the
    mutations (writes and removals) of a trace. *)
Definition trace_of (r : Run) : list Event := st_trace (final r).
Definition disk_of (r : Run) : disk := st_disk (final r).
Definition spawns (tr : list Event) : list Event := List.filter is_spawn tr.
Definition mutations (tr : list Event) : list Event := List.filter is_mutation tr.

(** ** The vocabulary of the properties *)

Section Vocabulary.

Context {P : Platform}.

(** [along R m]: from any state, [m] ends in a state related to it by
    [R]. *)
Definition along (R : State -> State -> Prop) {A} (m : M A) : Prop :=
  forall s, R s (m s).2.

(** The trace grows by events that [ok] accepts. *)
Definition grows (ok : Event -> bool) (s s' : State) : Prop :=
  exists evs, st_trace s' = st_trace s ++ evs /\ forallb ok evs = true.

(** Classes of events. *)
Definition no_prompt (e : Event) : bool := negb (is_prompt e).

Definition passive (e : Event) : bool := negb (is_spawn e) && negb (is_mutation e).

(** A spawn of the package manager, or no spawn at all. *)
Definition no_generator (e : Event) : bool :=
  match e with
  | Spawned command _ _ _ => String.eqb command "npm"
  | _ => true
  end.

(** A spawn that did not end with exit code 0. *)
Definition failed_spawn (e : Event) : bool :=
  match e with
  | Spawned _ _ _ (Closed (Some 0)) => false
  | Spawned _ _ _ _ => true
  | _ => false
  end.

(** One external command, among those that [allowed] admits, turns the
    disk [d] into [d']. *)
Definition command_step (allowed : string -> list string -> bool) (d d' : disk) : Prop :=
  exists command args dir,
    allowed command args = true /\ d' = (spawn command args dir d).2.

(** The disk stays as it is. *)
Definition still (s s' : State) : Prop := st_disk s' = st_disk s.

(** The disk changes through external commands only. *)
Definition by_commands (allowed : string -> list string -> bool) (s s' : State) : Prop :=
  rtc (command_step allowed) (st_disk s) (st_disk s').

(** The state in which the action starts. *)
Definition start (w : World) : State :=
  {| st_disk := initial_disk w; st_trace := [] |}.

(** The lines that an invalid name puts on the error stream. *)
Definition name_errors (v : Validation) : list Event :=
  Stderr (chalk Red "Invalid project name:")
  :: List.map (fun err => Stderr (chalk Red ("  • " +:+ err))) (default [] (errors v))
  ++ List.map (fun warn => Stderr (chalk Yellow ("  • " +:+ warn))) (default [] (warnings v)).

(** The line for a target that already exists. *)
Definition taken_error (d : string) : Event :=
  Stderr (chalk Red ("Directory " +:+ dq +:+ d +:+ dq +:+ " already exists.")).

(** The line for an unknown template. *)
Definition template_error (o : Options) : Event :=
  Stderr (chalk Red ("Invalid template " +:+ dq +:+ template o +:+ dq
                     +:+ ". Available templates: " +:+ String.concat ", " validTemplates)).

(** The question of the confirmation prompt, and the notice that follows a
    refusal. *)
Definition confirm_question : Event :=
  Prompt "Current directory is not empty. Continue anyway?".

Definition cancelled_notice : Event :=
  Stdout (chalk Yellow "Operation cancelled.").

(** [log s evs]: the state [s] with [evs] added to its trace. *)
Definition log (s : State) (evs : list Event) : State :=
  {| st_disk := st_disk s; st_trace := st_trace s ++ evs |}.

(** The visible entries of the working directory. *)
Definition relevantFiles (d : disk) (dir : string) : list string :=
  List.filter (fun file => negb (startsWith "." file)) (entries d dir).

Definition is_stderr (e : Event) : bool :=
  match e with
  | Stderr _ => true
  | _ => false
  end.

(** The condition under which the prompt fires. *)
Definition asks (w : World) (pd : option string) (o : Options) : Prop :=
  arr_includes validTemplates (template o) = true
  /\ targetsCwd pd = true
  /\ initial_disk w !! cwd w = Some Dir
  /\ (0 <? length (relevantFiles (initial_disk w) (cwd w)))%nat = true.

(** The invocation is rejected for its input: the template is unknown, or a
    directory is named and the name is invalid or already taken. *)
Definition input_error (w : World) (pd : option string) (o : Options) : bool :=
  negb (arr_includes validTemplates (template o))
  || match pd with
     | Some d =>
         negb (targetsCwd pd)
         && (negb (validForNewPackages (validateProjectName d))
             || bool_decide (is_Some (initial_disk w !! path_resolve (cwd w) d)))
     | None => false
     end.

(** [emits okR okT m]: the events that [m] adds are accepted by [okR] when
    [m] returns and by [okT] when it throws. *)
Definition emits (okR okT : Event -> bool) {A} (m : M A) : Prop :=
  forall s, grows (match (m s).1 with Ret _ => okR | Throw _ => okT end) s (m s).2.

(** Predicates on events for [emits]. *)
Definition any_event (e : Event) : bool := true.

Definition spawn_ok (e : Event) : bool := negb (failed_spawn e).

(** The mark of the last stage, and every event but that mark. *)
Definition done_mark : Event := Spinner SpinSucceed "Dependencies installed".

Definition not_done (e : Event) : bool :=
  match e with
  | Spinner SpinSucceed text => negb (String.eqb text "Dependencies installed")
  | _ => true
  end.

(** [returns m]: [m] never throws. *)
Definition returns {A} (m : M A) : Prop := forall s, exists a, (m s).1 = Ret a.

(** The rest of the [try] block once the generator has returned. *)
Definition finish (w : World) (pd : option string) (o : Options)
    (projectName projectPath : string) : M unit :=
  spinner SpinSucceed "Vite project created" ;;
  (if tailwind o then
     spinner SpinStart "Installing Tailwind CSS..." ;;
     installTailwind projectPath (typescript o) (template o) ;;
     spinner SpinSucceed "Tailwind CSS installed"
   else ret tt) ;;
  spinner SpinStart "Installing dependencies..." ;;
  installDependencies projectPath ;;
  spinner SpinSucceed "Dependencies installed" ;;
  reportSuccess pd projectName projectPath.

(** The four lines that open the second half of [createProject]. *)
Definition announce (o : Options) (projectPath : string) : list Event :=
  [ Stdout (chalk Blue ("Creating a new React + Vite + Tailwind app in "
                        +:+ chalk Green projectPath));
    Stdout (chalk Gray ("Using template: " +:+ chalk Cyan (template o)));
    Stdout EmptyString;
    Spinner SpinStart "Creating Vite project..." ].

(** The template selector handed to the generator. *)
Definition variant (o : Options) : string :=
  if typescript o then "react-ts" else "react".

(** The message of the error with which [createViteProject] rejects. *)
Definition generator_error (r : Outcome) : string :=
  match r with
  | Closed code =>
      "Vite creation failed with exit code " +:+ show_code code +:+
      ". Please check your internet connection and try again."
  | SpawnError message => message
  end.

(** The [catch] clause of [createProject]. *)
Definition rethrow (error : string) : M unit :=
  spinner SpinFail "Failed to create project" ;; throw error.

(** The commands of a run that skips the Tailwind stage: the generator and
    the bare [npm install]. *)
Definition plain_command (command : string) (args : list string) : bool :=
  String.eqb command "npx"
  || (String.eqb command "npm" && bool_decide (args = ["install"])).

(** A spawn of the package manager that names [tailwindcss]. *)
Definition adds_tailwind (e : Event) : bool :=
  match e with
  | Spawned command args _ _ =>
      String.eqb command "npm" && existsb (String.eqb "tailwindcss") args
  | _ => false
  end.

(** Neither a mutation nor a request for [tailwindcss]. *)
Definition unpatched (e : Event) : bool :=
  negb (is_mutation e) && negb (adds_tailwind e).

(** The line that the patch inserts after the import of [vite]. *)
Definition tailwindImportLine : string := "
import tailwindcss from '@tailwindcss/vite'".

(** The arguments of the [npm] call that adds Tailwind. *)
Definition tailwindArgs : list string := ["install"; "tailwindcss"; "@tailwindcss/vite"].

(** What follows the build-config patch in [installTailwind]. *)
Definition overwrite_sources (p : string) (ts : bool) (t : string) : M unit :=
  writeFile (cssPath p) tailwindImports ;;
  writeFile_value (appPath p ts) (generateAppTemplate t) ;;
  let* exists_ := pathExists (appCssPath p) in
  if exists_ : bool then remove (appCssPath p) else ret tt.

(** The texts of the [Wrote] events, with their paths. *)
Definition writes (evs : list Event) : list (string * string) :=
  omap (fun e => match e with Wrote p data => Some (p, data) | _ => None end) evs.


(** The three shapes of a run without Tailwind, by its spawns and its
    final disk. *)
Definition plain_outcome (w : World) (tr : list Event) (d : disk) : Prop :=
  (spawns tr = [] /\ d = initial_disk w)
  \/ (exists args dir r,
        spawns tr = [Spawned "npx" args dir r]
        /\ r <> Closed (Some 0)
        /\ d = (spawn "npx" args dir (initial_disk w)).2)
  \/ (exists args dir p r,
        spawns tr = [ Spawned "npx" args dir (Closed (Some 0));
                      Spawned "npm" ["install"] p r ]
        /\ d = (spawn "npm" ["install"] p (spawn "npx" args dir (initial_disk w)).2).2).

End Vocabulary.

(** [only ok m]: whatever [m] does, every event it adds to the trace is
    accepted by [ok]. *)
Abbreviation only ok := (along (grows ok)).

(** ** Reasoning about runs *)

Section Logic.

Context {P : Platform}.

#[global] Instance grows_preorder ok : PreOrder (grows ok).
Proof.
  split.
  - intros s. exists []. simpl. by rewrite app_nil_r.
  - intros s1 s2 s3 (e1 & H1 & F1) (e2 & H2 & F2).
    exists (e1 ++ e2). by rewrite H2, H1, <- List.app_assoc, forallb_app, F1, F2.
Qed.

#[global] Instance still_preorder : PreOrder still.
Proof.
  split.
  - by intros s.
  - intros s1 s2 s3 H1 H2. unfold still in *. congruence.
Qed.

#[global] Instance by_commands_preorder allowed : PreOrder (by_commands allowed).
Proof.
  split.
  - intros s. apply rtc_refl.
  - intros s1 s2 s3 H1 H2. unfold by_commands in *. by etrans.
Qed.

Section Rules.

Context (R : State -> State -> Prop) `{!PreOrder R}.

Lemma along_ret {A} (a : A) : along R (ret a).
Proof. intros s. simpl. reflexivity. Qed.

Lemma along_throw {A} (e : string) : along R (@throw A e).
Proof. intros s. simpl. reflexivity. Qed.

Lemma along_bind {A B} (m : M A) (k : A -> M B) :
  along R m -> (forall a, along R (k a)) -> along R (bind m k).
Proof.
  intros Hm Hk s. unfold bind. specialize (Hm s).
  destruct (m s) as [[a | e] s1]; simpl in *; [| done].
  etrans; [exact Hm | apply Hk].
Qed.

Lemma along_try_catch {A} (m : M A) (h : string -> M A) :
  along R m -> (forall e, along R (h e)) -> along R (try_catch m h).
Proof.
  intros Hm Hh s. unfold try_catch. specialize (Hm s).
  destruct (m s) as [[a | e] s1]; simpl in *; [done |].
  etrans; [exact Hm | apply Hh].
Qed.

Lemma along_forEach {A} (f : A -> M unit) (xs : list A) :
  (forall x, along R (f x)) -> along R (forEach f xs).
Proof.
  intros Hf. induction xs as [| x xs IH]; simpl.
  - apply along_ret.
  - apply along_bind; [apply Hf | intros _; apply IH].
Qed.

(** Steps that read the state without changing it. *)
Lemma along_readdir p : along R (readdir p).
Proof.
  intros s. unfold readdir. destruct (st_disk s !! p) as [[] |]; simpl; reflexivity.
Qed.

Lemma along_pathExists p : along R (pathExists p).
Proof. intros s. simpl. reflexivity. Qed.

Lemma along_readFile p : along R (readFile p).
Proof.
  intros s. unfold readFile. destruct (st_disk s !! p) as [[] |]; simpl; reflexivity.
Qed.

End Rules.

Lemma only_emit ok (e : Event) : ok e = true -> only ok (emit e).
Proof. intros He s. exists [e]. simpl. by rewrite He. Qed.

Lemma only_writeFile ok p data :
  ok (Wrote p data) = true -> only ok (writeFile p data).
Proof.
  intros He s. unfold writeFile.
  destruct (st_disk s !! p) as [[] |]; destruct (st_disk s !! path_dirname p) as [[] |];
    simpl; first [ reflexivity | exists [Wrote p data]; simpl; by rewrite He ].
Qed.

Lemma only_remove ok p : ok (Removed p) = true -> only ok (remove p).
Proof.
  intros He s. unfold remove. destruct (remove_fault p (st_disk s)); [reflexivity |].
  exists [Removed p]. simpl. by rewrite He.
Qed.

Lemma only_spawn_child ok command args dir :
  (forall o, ok (Spawned command args dir o) = true) ->
  only ok (spawn_child command args dir).
Proof.
  intros He s. unfold spawn_child.
  destruct (spawn command args dir (st_disk s)) as [o d]. simpl.
  exists [Spawned command args dir o]. simpl. by rewrite He.
Qed.

Lemma still_emit (e : Event) : along still (emit e).
Proof. by intros s. Qed.

Lemma external_emit allowed (e : Event) : along (by_commands allowed) (emit e).
Proof. intros s. apply rtc_refl. Qed.

Lemma external_spawn_child allowed command args dir :
  allowed command args = true ->
  along (by_commands allowed) (spawn_child command args dir).
Proof.
  intros Ha s. unfold spawn_child, by_commands.
  destruct (spawn command args dir (st_disk s)) as [o d] eqn:E. simpl.
  apply rtc_once. exists command, args, dir. by rewrite E.
Qed.

End Logic.

(** One step of a syntax-directed proof of [along R m]; [leaf] closes the
    side conditions on single events and commands. *)
Ltac along_step leaf :=
  lazymatch goal with
  | |- along _ (bind _ _) => apply along_bind; [typeclasses eauto | | intros]
  | |- along _ (try_catch _ _) => apply along_try_catch; [typeclasses eauto | | intros]
  | |- along _ (ret _) => apply along_ret; typeclasses eauto
  | |- along _ (throw _) => apply along_throw; typeclasses eauto
  | |- along _ (forEach _ _) => apply along_forEach; [typeclasses eauto | intros]
  | |- along _ (readdir _) => apply along_readdir; typeclasses eauto
  | |- along _ (pathExists _) => apply along_pathExists; typeclasses eauto
  | |- along _ (readFile _) => apply along_readFile; typeclasses eauto
  | |- along _ (forEach_opt _ _) => unfold forEach_opt
  | |- along _ (prompt_confirm _ _) => unfold prompt_confirm
  | |- along _ (console_log _) => unfold console_log
  | |- along _ (console_error _) => unfold console_error
  | |- along _ (spinner _ _) => unfold spinner
  | |- along _ (if ?b then _ else _) => destruct b
  | |- along _ (match ?x with _ => _ end) => destruct x
  | |- along (grows _) (emit _) => apply only_emit; leaf
  | |- along (grows _) (writeFile _ _) => apply only_writeFile; leaf
  | |- along (grows _) (remove _) => apply only_remove; leaf
  | |- along (grows _) (spawn_child _ _ _) => apply only_spawn_child; intros; leaf
  | |- along still (emit _) => apply still_emit
  | |- along (by_commands _) (emit _) => apply external_emit
  | |- along (by_commands _) (spawn_child _ _ _) => apply external_spawn_child; leaf
  end.

Ltac along_auto := repeat (along_step ltac:(first [reflexivity | auto])).

(** ** Properties of the tool *)

Section Properties.

Context {P : Platform}.

(** *** Lists and traces *)

Lemma existsb_of_forallb_negb {A} (f : A -> bool) (l : list A) :
  forallb (fun x => negb (f x)) l = true -> existsb f l = false.
Proof.
  induction l as [| x l IH]; simpl; [done |].
  intros [Hx Hl]%andb_prop. apply negb_true_iff in Hx. rewrite Hx. simpl. by apply IH.
Qed.

Lemma filter_nil_of_forallb_negb {A} (f : A -> bool) (l : list A) :
  forallb (fun x => negb (f x)) l = true -> List.filter f l = [].
Proof.
  induction l as [| x l IH]; simpl; [done |].
  intros [Hx Hl]%andb_prop. apply negb_true_iff in Hx. rewrite Hx. by apply IH.
Qed.

Lemma forallb_weaken {A} (f g : A -> bool) (l : list A) :
  (forall x, f x = true -> g x = true) -> forallb f l = true -> forallb g l = true.
Proof.
  intros Hfg. induction l as [| x l IH]; simpl; [done |].
  intros [Hx Hl]%andb_prop. rewrite (Hfg _ Hx). simpl. by apply IH.
Qed.

(** The visible entries are non-empty exactly when some entry does not
    start with a period. *)
Lemma relevant_nonempty (files : list string) :
  (0 <? length (List.filter (fun file => negb (startsWith "." file)) files))%nat = true
  <-> exists name, In name files /\ startsWith "." name = false.
Proof.
  rewrite Nat.ltb_lt. induction files as [| f files IH].
  - simpl. split; [lia | intros (n & [] & _)].
  - cbn [List.filter In]. destruct (startsWith "." f) eqn:Hf; cbn [negb length].
    + split.
      * intros H. apply IH in H as (n & Hn & Hs). eauto.
      * intros (n & [-> | Hn] & Hs); [congruence |]. apply IH. eauto.
    + split; [| lia]. intros _. exists f. auto.
Qed.

(** *** The wrapper *)

Lemma action_ret w pd o a s :
  createProject w pd o (start w) = (Ret a, s) ->
  action w pd o = {| exit_status := 0; reported := None; final := s |}.
Proof. unfold action. fold (start w). by intros ->. Qed.

Lemma action_throw w pd o e s :
  createProject w pd o (start w) = (Throw e, s) ->
  action w pd o =
    {| exit_status := 1; reported := Some e;
       final := {| st_disk := st_disk s;
                   st_trace := st_trace s ++
                     [Stderr (chalk Red "Error creating project:" +:+ " " +:+ e)] |} |}.
Proof. unfold action. fold (start w). by intros ->. Qed.

(** *** What the stages can add to the trace *)

Lemma only_runCommand ok command args dir :
  (forall o, ok (Spawned command args dir o) = true) ->
  only ok (runCommand command args dir).
Proof.
  intros Hok. unfold runCommand.
  apply along_bind; [typeclasses eauto | by apply only_spawn_child |].
  intros o. along_auto.
Qed.

Lemma only_createViteProject ok w projectPath template_ projectName :
  (forall args dir o, ok (Spawned "npx" args dir o) = true) ->
  only ok (createViteProject w projectPath template_ projectName).
Proof.
  intros Hok. unfold createViteProject.
  apply along_bind; [typeclasses eauto | by apply only_spawn_child |].
  intros o. along_auto.
Qed.

Lemma only_reportSuccess ok pd projectName projectPath :
  (forall line, ok (Stdout line) = true) ->
  only ok (reportSuccess pd projectName projectPath).
Proof.
  intros Hok. unfold reportSuccess. along_auto.
Qed.

Lemma only_installTailwind ok projectPath isTypeScript templateType :
  (forall args dir o, ok (Spawned "npm" args dir o) = true) ->
  (forall p data, ok (Wrote p data) = true) ->
  (forall p, ok (Removed p) = true) ->
  only ok (installTailwind projectPath isTypeScript templateType).
Proof.
  intros Hs Hw Hr. unfold installTailwind, writeFile_value.
  apply along_bind; [typeclasses eauto | by apply only_runCommand |]. intros _.
  along_auto.
Qed.

Lemma only_materialize ok w pd o projectName projectPath :
  (forall c args dir r, ok (Spawned c args dir r) = true) ->
  (forall p data, ok (Wrote p data) = true) ->
  (forall p, ok (Removed p) = true) ->
  (forall line, ok (Stdout line) = true) ->
  (forall c text, ok (Spinner c text) = true) ->
  only ok (materialize w pd o projectName projectPath).
Proof.
  intros Hs Hw Hr Hl Hp. unfold materialize, installDependencies.
  repeat
    lazymatch goal with
    | |- only _ (createViteProject _ _ _ _) =>
        apply only_createViteProject; intros; apply Hs
    | |- only _ (installTailwind _ _ _) =>
        apply only_installTailwind; [intros; apply Hs | apply Hw | apply Hr]
    | |- only _ (runCommand _ _ _) => apply only_runCommand; intros; apply Hs
    | |- only _ (reportSuccess _ _ _) => apply only_reportSuccess; apply Hl
    | |- _ => along_step ltac:(auto)
    end.
Qed.

Lemma only_build ok w pd o projectName projectPath :
  (forall c args dir r, ok (Spawned c args dir r) = true) ->
  (forall p data, ok (Wrote p data) = true) ->
  (forall p, ok (Removed p) = true) ->
  (forall line, ok (Stdout line) = true) ->
  (forall c text, ok (Spinner c text) = true) ->
  only ok (build w pd o projectName projectPath).
Proof.
  intros Hs Hw Hr Hl Hp. unfold build.
  repeat
    lazymatch goal with
    | |- only _ (materialize _ _ _ _ _) => apply only_materialize; assumption
    | |- _ => along_step ltac:(auto)
    end.
Qed.

(** *** The branch on the directory argument *)

Lemma log_nil s : log s [] = s.
Proof. destruct s. unfold log. simpl. by rewrite app_nil_r. Qed.

Lemma log_log s e1 e2 : log (log s e1) e2 = log s (e1 ++ e2).
Proof. unfold log. simpl. by rewrite List.app_assoc. Qed.

Lemma emit_log e s : emit e s = (Ret tt, log s [e]).
Proof. reflexivity. Qed.

Lemma bind_ret_step {A B} (m : M A) (k : A -> M B) s a s1 :
  m s = (Ret a, s1) -> bind m k s = k a s1.
Proof. unfold bind. by intros ->. Qed.

Lemma forEach_stderr (f : string -> string) (xs : list string) s :
  forEach (fun x => console_error (f x)) xs s
  = (Ret tt, log s (List.map (fun x => Stderr (f x)) xs)).
Proof.
  revert s. induction xs as [| x xs IH]; intros s; simpl.
  - by rewrite log_nil.
  - erewrite bind_ret_step by apply emit_log. by rewrite IH, log_log.
Qed.

Lemma forEach_opt_stderr (f : string -> string) (xs : option (list string)) s :
  forEach_opt (fun x => console_error (f x)) xs s
  = (Ret tt, log s (List.map (fun x => Stderr (f x)) (default [] xs))).
Proof.
  destruct xs as [l |]; simpl; [apply forEach_stderr | by rewrite log_nil].
Qed.

Lemma resolveTarget_invalid_name w d s :
  targetsCwd (Some d) = false ->
  validForNewPackages (validateProjectName d) = false ->
  resolveTarget w (Some d) s = (Ret None, log s (name_errors (validateProjectName d))).
Proof.
  intros Hd Hv. unfold resolveTarget. rewrite Hd. cbv zeta.
  change (default EmptyString (Some d)) with d. rewrite Hv. cbn [negb].
  erewrite bind_ret_step by apply emit_log.
  erewrite bind_ret_step by apply forEach_opt_stderr.
  erewrite bind_ret_step by apply forEach_opt_stderr.
  unfold ret, name_errors. by rewrite !log_log.
Qed.

Lemma resolveTarget_taken w d s :
  targetsCwd (Some d) = false ->
  validForNewPackages (validateProjectName d) = true ->
  is_Some (st_disk s !! path_resolve (cwd w) d) ->
  resolveTarget w (Some d) s = (Ret None, log s [taken_error d]).
Proof.
  intros Hd Hv Hx. unfold resolveTarget. rewrite Hd. cbv zeta.
  change (default EmptyString (Some d)) with d. rewrite Hv. cbn [negb].
  unfold bind at 1. unfold pathExists. rewrite bool_decide_eq_true_2 by done.
  by erewrite bind_ret_step by apply emit_log.
Qed.

Lemma resolveTarget_fresh w d s :
  targetsCwd (Some d) = false ->
  validForNewPackages (validateProjectName d) = true ->
  st_disk s !! path_resolve (cwd w) d = None ->
  resolveTarget w (Some d) s = (Ret (Some (d, path_resolve (cwd w) d)), s).
Proof.
  intros Hd Hv Hx. unfold resolveTarget. rewrite Hd. cbv zeta.
  change (default EmptyString (Some d)) with d. rewrite Hv. cbn [negb].
  unfold bind at 1. unfold pathExists.
  rewrite bool_decide_eq_false_2; [done |]. rewrite Hx. by intros [? ?].
Qed.

Lemma resolveTarget_unreadable w pd s :
  targetsCwd pd = true ->
  st_disk s !! cwd w <> Some Dir ->
  exists e, resolveTarget w pd s = (Throw e, s).
Proof.
  intros Hd Hx. unfold resolveTarget. rewrite Hd. unfold bind at 1. unfold readdir.
  destruct (st_disk s !! cwd w) as [[data |] |]; [eauto | done | eauto].
Qed.

Lemma resolveTarget_hidden_only w pd s :
  targetsCwd pd = true ->
  st_disk s !! cwd w = Some Dir ->
  (0 <? length (relevantFiles (st_disk s) (cwd w)))%nat = false ->
  resolveTarget w pd s = (Ret (Some (path_basename (cwd w), cwd w)), s).
Proof.
  intros Hd Hx Hr. unfold resolveTarget. rewrite Hd. cbv zeta. unfold bind at 1. unfold readdir.
  rewrite Hx. fold (relevantFiles (st_disk s) (cwd w)). by rewrite Hr.
Qed.

Lemma resolveTarget_confirmed w pd s :
  targetsCwd pd = true ->
  st_disk s !! cwd w = Some Dir ->
  (0 <? length (relevantFiles (st_disk s) (cwd w)))%nat = true ->
  answer w = Some true ->
  resolveTarget w pd s
  = (Ret (Some (path_basename (cwd w), cwd w)), log s [confirm_question]).
Proof.
  intros Hd Hx Hr Ha. unfold resolveTarget. rewrite Hd. cbv zeta. unfold bind at 1. unfold readdir.
  rewrite Hx. fold (relevantFiles (st_disk s) (cwd w)). rewrite Hr.
  unfold prompt_confirm, bind, emit, ret. simpl. by rewrite Ha.
Qed.

Lemma resolveTarget_declined w pd s :
  targetsCwd pd = true ->
  st_disk s !! cwd w = Some Dir ->
  (0 <? length (relevantFiles (st_disk s) (cwd w)))%nat = true ->
  answer w <> Some true ->
  resolveTarget w pd s = (Ret None, log s [confirm_question; cancelled_notice]).
Proof.
  intros Hd Hx Hr Ha. unfold resolveTarget. rewrite Hd. cbv zeta. unfold bind at 1. unfold readdir.
  rewrite Hx. fold (relevantFiles (st_disk s) (cwd w)). rewrite Hr.
  unfold prompt_confirm, bind, emit, ret, console_log, log. simpl.
  destruct (answer w) as [[] |]; [done | |]; simpl; by rewrite <- List.app_assoc.
Qed.

Lemma createProject_invalid_template w pd o s :
  arr_includes validTemplates (template o) = false ->
  createProject w pd o s = (Ret tt, log s [template_error o]).
Proof. intros H. unfold createProject. by rewrite H. Qed.

Lemma createProject_valid_template w pd o s :
  arr_includes validTemplates (template o) = true ->
  createProject w pd o s
  = match resolveTarget w pd s with
    | (Ret (Some (projectName, projectPath)), s1) => build w pd o projectName projectPath s1
    | (Ret None, s1) => (Ret tt, s1)
    | (Throw e, s1) => (Throw e, s1)
    end.
Proof.
  intros H. unfold createProject. rewrite H. cbn [negb]. unfold bind.
  destruct (resolveTarget w pd s) as [[[[n p] |] | e] s1]; reflexivity.
Qed.

(** *** When the prompt fires *)

Lemma no_prompt_trace ok {A} (m : M A) s :
  (forall e, ok e = true -> no_prompt e = true) ->
  only ok m -> existsb is_prompt (st_trace s) = false ->
  existsb is_prompt (st_trace (m s).2) = false.
Proof.
  intros Hsub Hm Hs. destruct (Hm s) as (evs & -> & Hevs).
  rewrite existsb_app, Hs. simpl.
  apply existsb_of_forallb_negb. by apply (forallb_weaken ok).
Qed.

Lemma build_no_prompt w pd o n p : only no_prompt (build w pd o n p).
Proof. by apply only_build. Qed.

Lemma resolveTarget_named_no_prompt w pd :
  targetsCwd pd = false -> only no_prompt (resolveTarget w pd).
Proof. intros H. unfold resolveTarget. rewrite H. along_auto. Qed.

Lemma action_prompt w pd o :
  existsb is_prompt (trace_of (action w pd o))
  = existsb is_prompt (st_trace (createProject w pd o (start w)).2).
Proof.
  unfold action, trace_of. fold (start w).
  destruct (createProject w pd o (start w)) as [[a | e] s]; simpl; [done |].
  rewrite existsb_app. simpl. by rewrite !orb_false_r.
Qed.

Lemma prompt_fires_iff w pd o :
  existsb is_prompt (st_trace (createProject w pd o (start w)).2) = true
  <-> asks w pd o.
Proof.
  unfold asks.
  destruct (arr_includes validTemplates (template o)) eqn:Ht.
  2: { rewrite createProject_invalid_template by done. simpl. split; [done | by intros [? _]]. }
  rewrite createProject_valid_template by done.
  destruct (targetsCwd pd) eqn:Hd.
  2: { pose proof (no_prompt_trace no_prompt (resolveTarget w pd) (start w)
                     (fun e H => H) (resolveTarget_named_no_prompt w pd Hd) eq_refl) as H1.
       destruct (resolveTarget w pd (start w)) as [[[[n p] |] | e] s1]; simpl in H1 |- *.
       - rewrite (no_prompt_trace no_prompt (build w pd o n p) s1 (fun e H => H)
                    (build_no_prompt w pd o n p) H1).
         split; [done | by intros (_ & ? & _)].
       - rewrite H1. split; [done | by intros (_ & ? & _)].
       - rewrite H1. split; [done | by intros (_ & ? & _)]. }
  destruct (decide (initial_disk w !! cwd w = Some Dir)) as [Hx | Hx].
  2: { destruct (resolveTarget_unreadable w pd (start w) Hd Hx) as [e ->]. simpl.
       split; [done | by intros (_ & _ & ? & _)]. }
  destruct (0 <? length (relevantFiles (initial_disk w) (cwd w)))%nat eqn:Hr.
  2: { rewrite resolveTarget_hidden_only by done.
       rewrite (no_prompt_trace no_prompt (build w pd o _ _) (start w) (fun e H => H)
                  (build_no_prompt w pd o _ _) eq_refl).
       split; [done | by intros (_ & _ & _ & ?)]. }
  split; [done | intros _].
  destruct (decide (answer w = Some true)) as [Ha | Ha].
  - rewrite resolveTarget_confirmed by done.
    destruct (build_no_prompt w pd o (path_basename (cwd w)) (cwd w)
                (log (start w) [confirm_question])) as (evs & -> & _).
    reflexivity.
  - rewrite resolveTarget_declined by done. reflexivity.
Qed.

(** A run in which the prompt fired and was not confirmed. *)
Lemma declined_run w pd o :
  existsb is_prompt (trace_of (action w pd o)) = true ->
  answer w <> Some true ->
  createProject w pd o (start w)
  = (Ret tt, log (start w) [confirm_question; cancelled_notice]).
Proof.
  rewrite action_prompt, prompt_fires_iff. intros (Ht & Hd & Hx & Hr) Ha.
  rewrite createProject_valid_template by done.
  by rewrite resolveTarget_declined.
Qed.

(** *** Input errors *)

Lemma input_error_run w pd o :
  input_error w pd o = true ->
  exists evs,
    createProject w pd o (start w) = (Ret tt, log (start w) evs)
    /\ forallb is_stderr evs = true /\ evs <> [].
Proof.
  unfold input_error. intros H.
  destruct (arr_includes validTemplates (template o)) eqn:Ht.
  2: { exists [template_error o]. by rewrite createProject_invalid_template. }
  simpl in H. destruct pd as [d |]; [| done].
  apply andb_prop in H as [Hd Hbad]. apply negb_true_iff in Hd.
  rewrite createProject_valid_template by done.
  destruct (validForNewPackages (validateProjectName d)) eqn:Hv.
  - simpl in Hbad. apply bool_decide_eq_true_1 in Hbad.
    exists [taken_error d]. by rewrite resolveTarget_taken.
  - exists (name_errors (validateProjectName d)).
    rewrite resolveTarget_invalid_name by done.
    split; [done |]. split; [| done].
    unfold name_errors. simpl. rewrite forallb_app.
    apply andb_true_intro. split; apply forallb_forall; intros e (x & <- & _)%in_map_iff; done.
Qed.

Lemma stderr_only_is_passive (evs : list Event) :
  forallb is_stderr evs = true ->
  spawns evs = [] /\ mutations evs = [].
Proof.
  intros H. split; apply filter_nil_of_forallb_negb;
    apply (forallb_weaken is_stderr); try done; by intros [].
Qed.

(** C4. An invocation that fails input validation (unknown template,
    invalid project name, or a target path that already exists) is rejected
    before any external process is spawned and before any file is written
    or removed: its trace holds no spawn and no mutation, and the disk at
    the end is the disk at the start. *)
Theorem input_error_has_no_side_effect w pd o :
  input_error w pd o = true ->
  spawns (trace_of (action w pd o)) = []
  /\ mutations (trace_of (action w pd o)) = []
  /\ disk_of (action w pd o) = initial_disk w.
Proof.
  intros H. destruct (input_error_run w pd o H) as (evs & Hrun & Hevs & _).
  rewrite (action_ret _ _ _ _ _ Hrun). unfold trace_of, disk_of. simpl.
  destruct (stderr_only_is_passive evs Hevs) as [Hs Hm]. done.
Qed.

(** C5 (amended). When the target is the current working directory (the
    argument is omitted or is the dot) and the template option is one of the
    four valid ids, the confirmation prompt fires if and only if the working
    directory is a directory that holds at least one entry whose name does
    not start with a period. *)
Theorem prompt_iff_visible_entry w pd o :
  pd = None \/ pd = Some "." ->
  arr_includes validTemplates (template o) = true ->
  (existsb is_prompt (trace_of (action w pd o)) = true
   <-> initial_disk w !! cwd w = Some Dir
       /\ exists name, In name (entries (initial_disk w) (cwd w))
                       /\ startsWith "." name = false).
Proof.
  intros Hpd Ht. rewrite action_prompt, prompt_fires_iff. unfold asks.
  unfold relevantFiles. rewrite relevant_nonempty.
  assert (targetsCwd pd = true) by (by destruct Hpd as [-> | ->]).
  tauto.
Qed.

(** C6. When the user declines the confirmation prompt, the process ends
    with exit status 0 and no error; the trace is the question followed by
    the cancellation notice, so nothing was written, nothing was removed and
    no process was spawned, and the disk is unchanged. *)
Theorem declined_prompt_is_noop w pd o :
  existsb is_prompt (trace_of (action w pd o)) = true ->
  answer w <> Some true ->
  exit_status (action w pd o) = 0
  /\ reported (action w pd o) = None
  /\ trace_of (action w pd o) = [confirm_question; cancelled_notice]
  /\ mutations (trace_of (action w pd o)) = []
  /\ spawns (trace_of (action w pd o)) = []
  /\ disk_of (action w pd o) = initial_disk w.
Proof.
  intros Hp Ha. rewrite (action_ret _ _ _ _ _ (declined_run w pd o Hp Ha)).
  unfold trace_of, disk_of. simpl. done.
Qed.

(** *** Traces by outcome *)

Lemma grows_weaken (ok ok' : Event -> bool) s s' :
  (forall e, ok e = true -> ok' e = true) -> grows ok s s' -> grows ok' s s'.
Proof.
  intros Hsub (evs & H1 & H2). exists evs. split; [done |]. by apply (forallb_weaken ok).
Qed.

Lemma emits_only (ok okR okT : Event -> bool) {A} (m : M A) :
  (forall e, ok e = true -> okR e = true) ->
  (forall e, ok e = true -> okT e = true) ->
  only ok m -> emits okR okT m.
Proof.
  intros HR HT Hm s. specialize (Hm s).
  destruct (m s).1; by apply (grows_weaken ok).
Qed.

Lemma emits_bind (okR okT : Event -> bool) {A B} (m : M A) (k : A -> M B) :
  (forall e, okR e = true -> okT e = true) ->
  emits okR okT m -> (forall a, emits okR okT (k a)) -> emits okR okT (bind m k).
Proof.
  intros Hsub Hm Hk s. unfold bind. specialize (Hm s).
  destruct (m s) as [[a | e] s1]; simpl in *; [| done].
  specialize (Hk a s1). destruct (k a s1) as [[b | e] s2]; simpl in *.
  - by etrans.
  - etrans; [| exact Hk]. by apply (grows_weaken okR).
Qed.

Lemma emits_prefix (ok okR okT : Event -> bool) {A B} (m : M A) (k : A -> M B) :
  (forall e, ok e = true -> okR e = true) ->
  (forall e, ok e = true -> okT e = true) ->
  only ok m -> (forall a, emits okR okT (k a)) -> emits okR okT (bind m k).
Proof.
  intros HR HT Hm Hk s. unfold bind. specialize (Hm s).
  destruct (m s) as [[a | e] s1]; simpl in *.
  - specialize (Hk a s1). destruct (k a s1) as [[b | e] s2]; simpl in *;
      (etrans; [| exact Hk]); by apply (grows_weaken ok).
  - by apply (grows_weaken ok).
Qed.

Lemma emits_rethrow (okR okT : Event -> bool) {A} (m : M A) (text : string) :
  okT (Spinner SpinFail text) = true ->
  emits okR okT m ->
  emits okR okT (try_catch m (fun error => spinner SpinFail text ;; throw error)).
Proof.
  intros Hf Hm s. unfold try_catch. specialize (Hm s).
  destruct (m s) as [[a | e] s1]; simpl in *; [done |].
  etrans; [exact Hm |]. exists [Spinner SpinFail text]. simpl. by rewrite Hf.
Qed.

Lemma returns_ret {A} (a : A) : returns (ret a).
Proof. intros s. by exists a. Qed.

Lemma returns_emit e : returns (emit e).
Proof. intros s. by exists tt. Qed.

Lemma returns_bind {A B} (m : M A) (k : A -> M B) :
  returns m -> (forall a, returns (k a)) -> returns (bind m k).
Proof.
  intros Hm Hk s. unfold bind. destruct (Hm s) as [a Ha].
  destruct (m s) as [[a' | e] s1]; simpl in Ha; [| done].
  apply Hk.
Qed.

Lemma emits_returning (okR okT : Event -> bool) {A} (m : M A) :
  returns m -> only okR m -> emits okR okT m.
Proof. intros Hret Hm s. destruct (Hret s) as [a ->]. apply Hm. Qed.

Lemma emits_runCommand command args dir :
  emits spawn_ok any_event (runCommand command args dir).
Proof.
  intros s. unfold runCommand, bind, spawn_child.
  destruct (spawn command args dir (st_disk s)) as [o d].
  destruct o as [[[| c | c] |] | message]; simpl;
    (eexists; split; [reflexivity | reflexivity]).
Qed.

Lemma emits_createViteProject w projectPath template_ projectName :
  emits spawn_ok any_event (createViteProject w projectPath template_ projectName).
Proof.
  intros s. unfold createViteProject, bind, spawn_child.
  destruct (spawn "npx" _ _ (st_disk s)) as [o d].
  destruct o as [[[| c | c] |] | message]; simpl;
    (eexists; split; [reflexivity | reflexivity]).
Qed.

(** Stage by stage: the steps of the tool add only events that [ok]
    accepts, for an [ok] that computes. *)
Ltac only_stage :=
  lazymatch goal with
  | |- only _ (createViteProject _ _ _ _) =>
      apply only_createViteProject; intros; reflexivity
  | |- only _ (installTailwind _ _ _) =>
      apply only_installTailwind; intros; reflexivity
  | |- only _ (installDependencies _) => unfold installDependencies
  | |- only _ (runCommand _ _ _) => apply only_runCommand; intros; reflexivity
  | |- only _ (reportSuccess _ _ _) => apply only_reportSuccess; intros; reflexivity
  | |- only _ (materialize _ _ _ _ _) => apply only_materialize; intros; reflexivity
  | |- only _ (build _ _ _ _ _) => apply only_build; intros; reflexivity
  | |- _ => along_step ltac:(reflexivity)
  end.

Lemma only_resolveTarget ok w pd :
  (forall line, ok (Stderr line) = true) ->
  (forall line, ok (Stdout line) = true) ->
  (forall message, ok (Prompt message) = true) ->
  only ok (resolveTarget w pd).
Proof. intros H1 H2 H3. unfold resolveTarget. along_auto. Qed.

Lemma createProject_spawns_ok w pd o :
  emits spawn_ok any_event (createProject w pd o).
Proof.
  unfold createProject.
  destruct (negb (arr_includes validTemplates (template o))).
  { apply (emits_only spawn_ok); [done | done | repeat only_stage]. }
  apply (emits_prefix spawn_ok); [done | done | by apply only_resolveTarget |].
  intros [[n p] |]; [| apply (emits_only spawn_ok); [done | done | repeat only_stage]].
  unfold build.
  do 4 (apply (emits_prefix spawn_ok); [done | done | repeat only_stage | intros _]).
  apply emits_rethrow; [done |]. unfold materialize.
  apply emits_bind; [done | apply emits_createViteProject | intros _].
  apply (emits_prefix spawn_ok); [done | done | repeat only_stage | intros _].
  apply emits_bind; [done | | intros _].
  { destruct (tailwind o); [| apply (emits_only spawn_ok); [done | done | repeat only_stage]].
    apply (emits_prefix spawn_ok); [done | done | repeat only_stage | intros _].
    apply emits_bind; [done | | intros _;
      apply (emits_only spawn_ok); [done | done | repeat only_stage]].
    unfold installTailwind.
    apply emits_bind; [done | apply emits_runCommand | intros _].
    apply (emits_only spawn_ok); [done | done |].
    unfold writeFile_value. repeat only_stage. }
  apply (emits_prefix spawn_ok); [done | done | repeat only_stage | intros _].
  apply emits_bind; [done | apply emits_runCommand | intros _].
  apply (emits_only spawn_ok); [done | done | repeat only_stage].
Qed.

Lemma report_returns pd n p :
  returns (spinner SpinSucceed "Dependencies installed" ;; reportSuccess pd n p).
Proof.
  unfold reportSuccess.
  repeat lazymatch goal with
         | |- returns (bind _ _) => apply returns_bind; [| intros]
         | |- returns (ret _) => apply returns_ret
         | |- returns (spinner _ _) => apply returns_emit
         | |- returns (console_log _) => apply returns_emit
         | |- returns (if ?b then _ else _) => destruct b
         end.
Qed.

Lemma createProject_throws_before_done w pd o :
  emits any_event not_done (createProject w pd o).
Proof.
  unfold createProject.
  destruct (negb (arr_includes validTemplates (template o))).
  { apply (emits_only not_done); [done | done | repeat only_stage]. }
  apply (emits_prefix not_done); [done | done | by apply only_resolveTarget |].
  intros [[n p] |]; [| apply (emits_only not_done); [done | done | repeat only_stage]].
  unfold build.
  do 4 (apply (emits_prefix not_done); [done | done | repeat only_stage | intros _]).
  apply emits_rethrow; [done |]. unfold materialize.
  do 2 (apply (emits_prefix not_done); [done | done | repeat only_stage | intros _]).
  apply (emits_prefix not_done); [done | done | | intros _].
  { destruct (tailwind o); repeat only_stage. }
  do 2 (apply (emits_prefix not_done); [done | done | repeat only_stage | intros _]).
  apply emits_returning; [apply report_returns |].
  repeat only_stage.
Qed.

(** *** The generator step *)

Lemma build_generator w pd o n p s :
  build w pd o n p s
  = let '(r, d) := spawn "npx" (viteArgs w p (variant o) n) (path_dirname p) (st_disk s) in
    let launched := Spawned "npx" (viteArgs w p (variant o) n) (path_dirname p) r in
    match r with
    | Closed (Some 0) =>
        try_catch (finish w pd o n p) rethrow
          {| st_disk := d; st_trace := st_trace s ++ announce o p ++ [launched] |}
    | _ =>
        (Throw (generator_error r),
         {| st_disk := d;
            st_trace := st_trace s ++ announce o p
                        ++ [launched; Spinner SpinFail "Failed to create project"] |})
    end.
Proof.
  unfold build, materialize, createViteProject, spawn_child, announce, variant.
  unfold bind at 1 2 3 4, console_log, spinner, emit. simpl.
  unfold try_catch, bind at 1 2. simpl.
  destruct (spawn "npx" _ _ (st_disk s)) as [r d]. simpl.
  destruct r as [[[| c | c] |] | message]; simpl;
    rewrite <- ?List.app_assoc; simpl; try reflexivity;
    unfold bind, throw; simpl; rewrite <- ?List.app_assoc; reflexivity.
Qed.

Lemma finish_no_generator w pd o n p :
  only no_generator (try_catch (finish w pd o n p) rethrow).
Proof.
  unfold finish, rethrow.
  apply along_try_catch; [typeclasses eauto | | intros; repeat only_stage].
  repeat only_stage.
Qed.

Lemma In_forallb {A} (f : A -> bool) (l : list A) (x : A) :
  forallb f l = true -> In x l -> f x = true.
Proof. intros H Hx. by apply (proj1 (forallb_forall f l) H). Qed.

Lemma spawns_app (a b : list Event) : spawns (a ++ b) = spawns a ++ spawns b.
Proof. apply List.filter_app. Qed.

Lemma mutations_app (a b : list Event) : mutations (a ++ b) = mutations a ++ mutations b.
Proof. apply List.filter_app. Qed.

Lemma passive_no_spawns (evs : list Event) :
  forallb passive evs = true -> spawns evs = [] /\ mutations evs = [].
Proof.
  intros H. split; apply filter_nil_of_forallb_negb;
    apply (forallb_weaken passive); try done; intros e [? ?]%andb_prop; done.
Qed.

Lemma resolveTarget_passive w pd : only passive (resolveTarget w pd).
Proof. by apply only_resolveTarget. Qed.

Lemma In_rejected (ok : Event -> bool) (evs : list Event) (e : Event) :
  forallb ok evs = true -> ok e = false -> In e evs -> False.
Proof. intros H He Hin. rewrite (In_forallb ok evs e H Hin) in He. done. Qed.

Ltac rejected Hall Hin :=
  exfalso; eapply In_rejected; [exact Hall | | exact Hin]; reflexivity.

Lemma In_failing_trace (pre ann : list Event) (x y z e : Event) :
  In e ((pre ++ ann ++ [x; y]) ++ [z]) ->
  In e pre \/ In e ann \/ x = e \/ y = e \/ z = e.
Proof. rewrite !in_app_iff. simpl. tauto. Qed.

Lemma not_in_announce o p command args dir r :
  In (Spawned command args dir r) (announce o p) -> False.
Proof. unfold announce. simpl. intuition discriminate. Qed.

Lemma announce_passive o p : forallb passive (announce o p) = true.
Proof. reflexivity. Qed.

(** The run of an invocation whose generator closed with a code other
    than 0: nothing but passive events before the spawn, the failure mark
    of the spinner after it, and the error of [createViteProject] thrown. *)
Lemma generator_failure_run w pd o args dir code :
  In (Spawned "npx" args dir (Closed code)) (trace_of (action w pd o)) ->
  code <> Some 0 ->
  exists pre d,
    forallb passive pre = true
    /\ createProject w pd o (start w)
       = (Throw (generator_error (Closed code)),
          {| st_disk := d;
             st_trace := pre ++ [Spawned "npx" args dir (Closed code);
                                 Spinner SpinFail "Failed to create project"] |}).
Proof.
  intros Hin Hc.
  destruct (arr_includes validTemplates (template o)) eqn:Ht.
  2: { rewrite (action_ret _ _ _ _ _ (createProject_invalid_template w pd o _ Ht)) in Hin.
       unfold trace_of in Hin. simpl in Hin. destruct Hin as [Hin | []]. discriminate. }
  pose proof (createProject_valid_template w pd o (start w) Ht) as Hrun.
  destruct (resolveTarget_passive w pd (start w)) as (evs1 & Htr & Hp1).
  destruct (resolveTarget w pd (start w)) as [[[[n p] |] | e] s1]; simpl in Htr.
  - rewrite build_generator in Hrun.
    destruct (spawn "npx" _ _ (st_disk s1)) as [r d]. rewrite Htr in Hrun.
    assert (Hpre : forallb passive (evs1 ++ announce o p) = true)
      by (by rewrite forallb_app, Hp1, announce_passive).
    destruct r as [[[| c | c] |] | message]; cbv beta iota zeta in Hrun.
    + exfalso.
      destruct (finish_no_generator w pd o n p
                  {| st_disk := d;
                     st_trace := evs1 ++ announce o p ++
                       [Spawned "npx" (viteArgs w p (variant o) n) (path_dirname p)
                                (Closed (Some 0))] |}) as (evs2 & Htr2 & Hp2).
      cbn [st_trace] in Htr2.
      assert (Hbad : In (Spawned "npx" args dir (Closed code))
                        (st_trace (createProject w pd o (start w)).2)).
      { destruct (createProject w pd o (start w)) as [[a | e] s2] eqn:E.
        - by rewrite (action_ret _ _ _ _ _ E) in Hin.
        - rewrite (action_throw _ _ _ _ _ E) in Hin. unfold trace_of in Hin. simpl in Hin.
          apply in_app_or in Hin as [Hin | [Hin | []]]; [done | discriminate]. }
      rewrite Hrun, Htr2 in Hbad.
      apply in_app_or in Hbad as [Hbad | Hbad]; [| rejected Hp2 Hbad].
      apply in_app_or in Hbad as [Hbad | Hbad]; [rejected Hp1 Hbad |].
      apply in_app_or in Hbad as [Hbad | [Hbad | []]]; [by apply not_in_announce in Hbad |].
      injection Hbad as _ _ <-. done.
    + rewrite (action_throw _ _ _ _ _ Hrun) in Hin. unfold trace_of in Hin.
      cbn [final st_trace] in Hin.
      apply In_failing_trace in Hin as [Hin | [Hin | [Hin | [Hin | Hin]]]];
        [rejected Hp1 Hin | by apply not_in_announce in Hin | | discriminate | discriminate].
      injection Hin as <- <- <-.
      exists (evs1 ++ announce o p), d. split; [done |].
      rewrite Hrun. by rewrite <- List.app_assoc.
    + rewrite (action_throw _ _ _ _ _ Hrun) in Hin. unfold trace_of in Hin.
      cbn [final st_trace] in Hin.
      apply In_failing_trace in Hin as [Hin | [Hin | [Hin | [Hin | Hin]]]];
        [rejected Hp1 Hin | by apply not_in_announce in Hin | | discriminate | discriminate].
      injection Hin as <- <- <-.
      exists (evs1 ++ announce o p), d. split; [done |].
      rewrite Hrun. by rewrite <- List.app_assoc.
    + rewrite (action_throw _ _ _ _ _ Hrun) in Hin. unfold trace_of in Hin.
      cbn [final st_trace] in Hin.
      apply In_failing_trace in Hin as [Hin | [Hin | [Hin | [Hin | Hin]]]];
        [rejected Hp1 Hin | by apply not_in_announce in Hin | | discriminate | discriminate].
      injection Hin as <- <- <-.
      exists (evs1 ++ announce o p), d. split; [done |].
      rewrite Hrun. by rewrite <- List.app_assoc.
    + exfalso.
      rewrite (action_throw _ _ _ _ _ Hrun) in Hin. unfold trace_of in Hin.
      cbn [final st_trace] in Hin.
      apply In_failing_trace in Hin as [Hin | [Hin | [Hin | [Hin | Hin]]]];
        [rejected Hp1 Hin | by apply not_in_announce in Hin
        | discriminate | discriminate | discriminate].
  - exfalso. rewrite (action_ret _ _ _ _ _ Hrun) in Hin. unfold trace_of in Hin. simpl in Hin.
    rewrite Htr in Hin. rejected Hp1 Hin.
  - exfalso. rewrite (action_throw _ _ _ _ _ Hrun) in Hin. unfold trace_of in Hin. simpl in Hin.
    rewrite Htr in Hin.
    apply in_app_or in Hin as [Hin | [Hin | []]]; [| discriminate].
    rejected Hp1 Hin.
Qed.

(** C2 (amended). When the generator closes with a code other than 0, it
    is the only process of the run, nothing is written or removed (no patch,
    no install), the process exits with status 1, and the reported error is
    the message of [createViteProject], which carries the exit code and a
    fixed advice, not the command line. *)
Theorem generator_failure_aborts w pd o args dir code :
  In (Spawned "npx" args dir (Closed code)) (trace_of (action w pd o)) ->
  code <> Some 0 ->
  spawns (trace_of (action w pd o)) = [Spawned "npx" args dir (Closed code)]
  /\ mutations (trace_of (action w pd o)) = []
  /\ exit_status (action w pd o) = 1
  /\ reported (action w pd o)
     = Some ("Vite creation failed with exit code " +:+ show_code code +:+
             ". Please check your internet connection and try again.").
Proof.
  intros Hin Hc.
  destruct (generator_failure_run w pd o args dir code Hin Hc) as (pre & d & Hpre & Hrun).
  rewrite (action_throw _ _ _ _ _ Hrun). unfold trace_of. cbn [final st_trace exit_status reported].
  destruct (passive_no_spawns pre Hpre) as [Hs Hm].
  rewrite !spawns_app, !mutations_app, Hs, Hm. done.
Qed.

(** C1 (amended). An invocation rejected for its input (unknown template,
    invalid name, existing target) returns from [createProject] without
    throwing, so the process ends with exit status 0; an invocation in which
    a spawned process fails ends with exit status 1; an invocation that
    completes its last stage, and one cancelled at the confirmation prompt,
    end with exit status 0. *)
Theorem exit_status_by_outcome w pd o :
  (input_error w pd o = true -> exit_status (action w pd o) = 0)
  /\ (existsb failed_spawn (trace_of (action w pd o)) = true ->
      exit_status (action w pd o) = 1)
  /\ (In done_mark (trace_of (action w pd o)) -> exit_status (action w pd o) = 0)
  /\ (existsb is_prompt (trace_of (action w pd o)) = true ->
      answer w <> Some true -> exit_status (action w pd o) = 0).
Proof.
  repeat split.
  - intros H. destruct (input_error_run w pd o H) as (evs & Hrun & _).
    by rewrite (action_ret _ _ _ _ _ Hrun).
  - intros H. pose proof (createProject_spawns_ok w pd o (start w)) as Hok.
    destruct (createProject w pd o (start w)) as [[a | e] s] eqn:E.
    + rewrite (action_ret _ _ _ _ _ E) in H. unfold trace_of in H.
      destruct Hok as (evs & Htr & Hevs). simpl in Htr, Hevs, H.
      rewrite Htr, (existsb_of_forallb_negb failed_spawn evs Hevs) in H. done.
    + by rewrite (action_throw _ _ _ _ _ E).
  - intros H. pose proof (createProject_throws_before_done w pd o (start w)) as Hok.
    destruct (createProject w pd o (start w)) as [[a | e] s] eqn:E.
    + by rewrite (action_ret _ _ _ _ _ E).
    + exfalso. rewrite (action_throw _ _ _ _ _ E) in H. unfold trace_of in H.
      destruct Hok as (evs & Htr & Hevs). simpl in Htr, Hevs, H. rewrite Htr in H.
      apply in_app_or in H as [H | [H | []]]; [rejected Hevs H | discriminate].
  - intros Hp Ha. by rewrite (action_ret _ _ _ _ _ (declined_run w pd o Hp Ha)).
Qed.

(** *** Without Tailwind *)

Lemma createProject_unpatched w pd o :
  tailwind o = false -> only unpatched (createProject w pd o).
Proof.
  intros H. unfold createProject, resolveTarget, build, materialize. rewrite H.
  repeat only_stage.
Qed.

Lemma createProject_by_commands w pd o :
  tailwind o = false -> along (by_commands plain_command) (createProject w pd o).
Proof.
  intros H.
  unfold createProject, resolveTarget, build, materialize, createViteProject,
    installDependencies, runCommand, reportSuccess.
  rewrite H. along_auto.
Qed.

Lemma action_disk w pd o :
  disk_of (action w pd o) = st_disk (createProject w pd o (start w)).2.
Proof.
  unfold action, disk_of. fold (start w).
  by destruct (createProject w pd o (start w)) as [[a | e] s].
Qed.

Lemma action_trace w pd o :
  exists tail,
    trace_of (action w pd o) = st_trace (createProject w pd o (start w)).2 ++ tail
    /\ forallb is_stderr tail = true.
Proof.
  unfold action, trace_of. fold (start w).
  destruct (createProject w pd o (start w)) as [[a | e] s]; simpl.
  - exists []. by rewrite app_nil_r.
  - by eexists.
Qed.

Lemma resolveTarget_still w pd : along still (resolveTarget w pd).
Proof. unfold resolveTarget. along_auto. Qed.

Lemma report_tail pd n p :
  only passive (emit (Spinner SpinSucceed "Dependencies installed") ;; reportSuccess pd n p)
  /\ along still (emit (Spinner SpinSucceed "Dependencies installed") ;; reportSuccess pd n p).
Proof.
  split; [repeat only_stage |]. unfold reportSuccess. along_auto.
Qed.

(** Without Tailwind, what follows the generator is the bare [npm install]
    on the disk that the generator left, and passive events. *)
Lemma finish_plain_run w pd o n p s :
  tailwind o = false ->
  exists post,
    forallb passive post = true
    /\ (try_catch (finish w pd o n p) rethrow s).2
       = {| st_disk := (spawn "npm" ["install"] p (st_disk s)).2;
            st_trace := st_trace s ++
              [ Spinner SpinSucceed "Vite project created";
                Spinner SpinStart "Installing dependencies...";
                Spawned "npm" ["install"] p (spawn "npm" ["install"] p (st_disk s)).1 ]
              ++ post |}.
Proof.
  intros H. unfold finish, try_catch. rewrite H. unfold spinner.
  rewrite (bind_ret_step _ _ s tt _ (emit_log _ s)).
  rewrite (bind_ret_step _ _ _ tt _ eq_refl).
  rewrite (bind_ret_step _ _ _ tt _ (emit_log _ _)).
  unfold bind at 1. unfold installDependencies, runCommand, bind at 1, spawn_child.
  cbn [log st_disk st_trace].
  destruct (spawn "npm" ["install"] p (st_disk s)) as [r d]. cbn [fst snd].
  destruct (report_tail pd n p) as [Hpassive Hstill].
  set (s3 := {| st_disk := d;
                st_trace := ((st_trace s ++ [Spinner SpinSucceed "Vite project created"])
                             ++ [Spinner SpinStart "Installing dependencies..."])
                            ++ [Spawned "npm" ["install"] p r] |}).
  assert (Htr : st_trace s3
                = st_trace s ++ [ Spinner SpinSucceed "Vite project created";
                                  Spinner SpinStart "Installing dependencies...";
                                  Spawned "npm" ["install"] p r ])
    by (subst s3; cbn [st_trace]; by rewrite <- !List.app_assoc).
  destruct r as [[[| c | c] |] | message]; cbn [ret throw].
  1: { destruct (Hpassive s3) as (post & Hpost & Hok). specialize (Hstill s3).
       unfold still in Hstill.
       fold s3.
       destruct ((emit (Spinner SpinSucceed "Dependencies installed") ;; reportSuccess pd n p) s3)
         as [[[] | e] s4]; cbn [snd] in *.
       - exists post. split; [done |]. destruct s4 as [d4 t4]. cbn in *.
         rewrite Hstill, Hpost, Htr. by rewrite <- !List.app_assoc.
       - exists (post ++ [Spinner SpinFail "Failed to create project"]).
         split; [by rewrite forallb_app, Hok |].
         unfold rethrow, bind, spinner, emit, throw. destruct s4 as [d4 t4]. cbn in *.
         rewrite Hstill, Hpost, Htr. by rewrite <- !List.app_assoc. }
  all: exists [Spinner SpinFail "Failed to create project"]; split; [done |];
       unfold rethrow, bind, spinner, emit, throw; cbn [fst snd st_disk st_trace];
       fold s3; by rewrite Htr, <- !List.app_assoc.
Qed.

Lemma spawns_stderr (tr tail : list Event) :
  forallb is_stderr tail = true -> spawns (tr ++ tail) = spawns tr.
Proof.
  intros H. rewrite spawns_app.
  destruct (stderr_only_is_passive tail H) as [-> _]. by rewrite app_nil_r.
Qed.

Lemma createProject_plain_outcome w pd o :
  tailwind o = false ->
  plain_outcome w (st_trace (createProject w pd o (start w)).2)
                  (st_disk (createProject w pd o (start w)).2).
Proof.
  intros H. unfold plain_outcome.
  destruct (arr_includes validTemplates (template o)) eqn:Ht.
  2: { rewrite createProject_invalid_template by done. left. done. }
  rewrite createProject_valid_template by done.
  destruct (resolveTarget_passive w pd (start w)) as (evs1 & Htr & Hp1).
  pose proof (resolveTarget_still w pd (start w)) as Hd. unfold still in Hd.
  destruct (passive_no_spawns evs1 Hp1) as [Hs1 _].
  destruct (resolveTarget w pd (start w)) as [[[[n p] |] | e] s1];
    cbn [fst snd start st_disk st_trace] in *; rewrite app_nil_l in Htr.
  2, 3: left; by rewrite Htr, Hd.
  rewrite build_generator. rewrite Hd, Htr.
  destruct (spawn "npx" (viteArgs w p (variant o) n) (path_dirname p) (initial_disk w))
    as [r d] eqn:Hgen.
  assert (Hfail : spawns (evs1 ++ announce o p ++
                    [Spawned "npx" (viteArgs w p (variant o) n) (path_dirname p) r;
                     Spinner SpinFail "Failed to create project"])
                  = [Spawned "npx" (viteArgs w p (variant o) n) (path_dirname p) r])
    by (by rewrite !spawns_app, Hs1).
  destruct r as [[[| c | c] |] | message]; cbv beta iota zeta.
  1: { right. right.
       destruct (finish_plain_run w pd o n p
                   {| st_disk := d;
                      st_trace := evs1 ++ announce o p ++
                        [Spawned "npx" (viteArgs w p (variant o) n) (path_dirname p)
                                 (Closed (Some 0))] |} H) as (post & Hpost & ->).
       cbn [st_disk st_trace].
       exists (viteArgs w p (variant o) n), (path_dirname p), p, (spawn "npm" ["install"] p d).1.
       rewrite Hgen. split; [| done].
       destruct (passive_no_spawns post Hpost) as [Hs2 _].
       by rewrite !spawns_app, Hs1, Hs2. }
  all: right; left; eexists _, _, _; cbn [fst snd st_disk st_trace];
       rewrite Hgen; (split; [exact Hfail | split; [discriminate | done]]).
Qed.

(** C8. With the Tailwind flag disabled the patch stage does not run: the
    tool writes and removes nothing and never asks the package manager for
    [tailwindcss]; the only commands are the generator and the bare
    [npm install], and the install runs on the disk exactly as the generator
    left it, so the build configuration and the stylesheet are as the
    generator produced them. *)
Theorem no_tailwind_no_patch w pd o :
  tailwind o = false ->
  mutations (trace_of (action w pd o)) = []
  /\ List.filter adds_tailwind (trace_of (action w pd o)) = []
  /\ rtc (command_step plain_command) (initial_disk w) (disk_of (action w pd o))
  /\ plain_outcome w (trace_of (action w pd o)) (disk_of (action w pd o)).
Proof.
  intros H.
  pose proof (createProject_plain_outcome w pd o H) as Hshape.
  destruct (action_trace w pd o) as (tail & -> & Htail).
  destruct (createProject_unpatched w pd o H (start w)) as (evs & Htr & Hevs).
  simpl in Htr. rewrite action_disk.
  assert (Hall : forallb unpatched (st_trace (createProject w pd o (start w)).2 ++ tail) = true).
  { rewrite Htr, forallb_app, Hevs. simpl.
    apply (forallb_weaken is_stderr); [by intros [] | done]. }
  split; [| split; [| split]].
  - apply filter_nil_of_forallb_negb. apply (forallb_weaken unpatched); [| done].
    by intros e [? ?]%andb_prop.
  - apply filter_nil_of_forallb_negb. apply (forallb_weaken unpatched); [| done].
    by intros e [? ?]%andb_prop.
  - apply (createProject_by_commands w pd o H (start w)).
  - unfold plain_outcome in *. by rewrite (spawns_stderr _ tail Htail).
Qed.

End Properties.

(** ** The textual patch *)

Section Patch.

Lemma append_cons (a : ascii) (x y : string) : String a x +:+ y = String a (x +:+ y).
Proof. reflexivity. Qed.

Lemma append_assoc (x y z : string) : (x +:+ y) +:+ z = x +:+ (y +:+ z).
Proof. induction x as [| a x IH]; [done |]. by rewrite !append_cons, IH. Qed.

Lemma replace_absent (pat rep s : string) :
  str_includes pat s = false -> replace pat rep s = s.
Proof.
  induction s as [| a s IH]; simpl.
  - by destruct (startsWith pat EmptyString).
  - destruct (startsWith pat (String a s)); [done |].
    intros H. by rewrite IH.
Qed.

Lemma startsWith_split (pat s : string) :
  startsWith pat s = true -> s = pat +:+ str_drop (String.length pat) s.
Proof.
  revert s. induction pat as [| a pat IH]; intros [| b s]; simpl; try done.
  destruct (Ascii.eqb_spec a b) as [-> | _]; [| done].
  intros H. by rewrite append_cons, <- IH.
Qed.

(** A pattern no longer than [x] sees only [x] at the head of [x +:+ y]. *)
Lemma startsWith_app_short (q x y : string) :
  (String.length q <= String.length x)%nat ->
  startsWith q (x +:+ y) = startsWith q x.
Proof.
  revert x. induction q as [| a q IH]; intros [| b x]; simpl; try done; try lia.
  intros H. destruct (Ascii.eqb a b); [| done]. apply IH. lia.
Qed.

(** Inserting text right after the first occurrence of [pat] does not
    change how the text starts, up to the length of [pat]. *)
Lemma startsWith_replace_insert (pat ins s q : string) :
  (String.length q <= String.length pat)%nat ->
  startsWith q (replace pat (pat +:+ ins) s) = startsWith q s.
Proof.
  revert q. induction s as [| a s IH]; intros q Hq.
  - simpl. destruct (startsWith pat EmptyString) eqn:E; [| done].
    destruct pat; [| done]. destruct q; [done | simpl in Hq; lia].
  - cbn [replace]. destruct (startsWith pat (String a s)) eqn:E.
    + rewrite (startsWith_split _ _ E) at 2.
      rewrite append_assoc. by rewrite !startsWith_app_short.
    + destruct q as [| b q]; [done |]. simpl.
      destruct (Ascii.eqb b a); [| done]. apply IH. simpl in Hq. lia.
Qed.

Lemma viteImportPatched_eq : viteImportPatched = viteImport +:+ tailwindImportLine.
Proof. reflexivity. Qed.

Lemma plugins_after_import (rest : string) :
  str_includes pluginsLiteral (viteImport +:+ rest) = str_includes pluginsLiteral rest.
Proof. unfold viteImport. rewrite !append_cons. reflexivity. Qed.

Lemma plugins_after_patched_import (rest : string) :
  str_includes pluginsLiteral (viteImportPatched +:+ rest) = str_includes pluginsLiteral rest.
Proof. unfold viteImportPatched. rewrite !append_cons. reflexivity. Qed.

(** Neither replacement text holds a [$], so [String.prototype.replace]
    inserts them as they are. *)
Lemma replacements_are_literal :
  str_includes "$" viteImportPatched = false /\ str_includes "$" pluginsPatched = false.
Proof. by vm_compute. Qed.

(** The import substitution cannot create the plugin anchor. *)
Lemma import_patch_keeps_plugins_absent (c : string) :
  str_includes pluginsLiteral c = false ->
  str_includes pluginsLiteral (replace viteImport viteImportPatched c) = false.
Proof.
  induction c as [| a c IH]; [done |]. intros H.
  cbn [replace]. destruct (startsWith viteImport (String a c)) eqn:E.
  - rewrite (startsWith_split _ _ E), plugins_after_import in H.
    by rewrite plugins_after_patched_import.
  - pose proof (startsWith_replace_insert viteImport tailwindImportLine (String a c)
                  pluginsLiteral) as Hhead.
    rewrite <- viteImportPatched_eq in Hhead. cbn [replace] in Hhead. rewrite E in Hhead.
    cbn [str_includes] in H |- *.
    rewrite Hhead by (vm_compute; lia).
    destruct (startsWith pluginsLiteral (String a c)); [done |]. by apply IH.
Qed.

End Patch.

(** ** The Tailwind stage *)

Section Stage.

Context {P : Platform}.

Lemma bind_ret_inv {A B} (m : M A) (k : A -> M B) s b s' :
  bind m k s = (Ret b, s') -> exists a s1, m s = (Ret a, s1) /\ k a s1 = (Ret b, s').
Proof.
  unfold bind. destruct (m s) as [[a | e] s1]; [eauto | discriminate].
Qed.

Lemma readFile_ret p s c s' :
  readFile p s = (Ret c, s') -> s' = s /\ st_disk s !! p = Some (File c).
Proof.
  unfold readFile. destruct (st_disk s !! p) as [[data |] |]; intros [= <- <-] || intros [=]; done.
Qed.

Lemma writeFile_ret p data s s' :
  writeFile p data s = (Ret tt, s') ->
  s' = {| st_disk := <[p := File data]> (st_disk s); st_trace := st_trace s ++ [Wrote p data] |}.
Proof.
  unfold writeFile.
  destruct (st_disk s !! p) as [[] |]; destruct (st_disk s !! path_dirname p) as [[] |];
    intros [=]; done.
Qed.

Lemma writeFile_value_ret p v s s' :
  writeFile_value p v s = (Ret tt, s') ->
  exists blob, v = JsString blob /\ writeFile p blob s = (Ret tt, s').
Proof. destruct v; simpl; [eauto | discriminate | discriminate]. Qed.

Lemma runCommand_ret command args dir s s' :
  runCommand command args dir s = (Ret tt, s') ->
  exists d, spawn command args dir (st_disk s) = (Closed (Some 0), d)
            /\ s' = {| st_disk := d;
                       st_trace := st_trace s ++ [Spawned command args dir (Closed (Some 0))] |}.
Proof.
  unfold runCommand, bind, spawn_child.
  destruct (spawn command args dir (st_disk s)) as [o d].
  destruct o as [[[| c | c] |] | message]; simpl; intros [=]. subst. eauto.
Qed.

(** A completed Tailwind stage, step by step. *)
Lemma installTailwind_ret p ts t s s' :
  installTailwind p ts t s = (Ret tt, s') ->
  exists d1 c blob removal,
    spawn "npm" tailwindArgs p (st_disk s) = (Closed (Some 0), d1)
    /\ d1 !! viteConfigPath p ts = Some (File c)
    /\ generateAppTemplate t = JsString blob
    /\ st_disk s'
       = delete (appCssPath p)
           (<[appPath p ts := File blob]>
              (<[cssPath p := File tailwindImports]>
                 (<[viteConfigPath p ts := File (patchViteConfig ts c)]> d1)))
    /\ st_trace s'
       = st_trace s ++
         [ Spawned "npm" tailwindArgs p (Closed (Some 0));
           Wrote (viteConfigPath p ts) (patchViteConfig ts c);
           Wrote (cssPath p) tailwindImports;
           Wrote (appPath p ts) blob ] ++ removal
    /\ (removal = [] \/ removal = [Removed (appCssPath p)]).
Proof.
  intros H. unfold installTailwind in H.
  apply bind_ret_inv in H as ([] & s1 & H1 & H).
  apply runCommand_ret in H1 as (d1 & Hs & ->).
  apply bind_ret_inv in H as (c & s2 & H2 & H).
  apply readFile_ret in H2 as [-> Hc]. cbn [st_disk] in Hc.
  apply bind_ret_inv in H as ([] & s3 & H3 & H). apply writeFile_ret in H3 as ->.
  apply bind_ret_inv in H as ([] & s4 & H4 & H). apply writeFile_ret in H4 as ->.
  apply bind_ret_inv in H as ([] & s5 & H5 & H).
  apply writeFile_value_ret in H5 as (blob & Hblob & H5). apply writeFile_ret in H5 as ->.
  apply bind_ret_inv in H as (e & s6 & H6 & H).
  unfold pathExists in H6. injection H6 as <- <-.
  cbn [st_disk st_trace] in H.
  exists d1, c, blob.
  case_bool_decide as Hex.
  - exists [Removed (appCssPath p)]. unfold remove in H. cbn [st_disk] in H.
    destruct (remove_fault _ _); [discriminate H |]. injection H as <-.
    cbn [st_disk st_trace]. rewrite <- !List.app_assoc. simpl. eauto 10.
  - exists []. unfold ret in H. injection H as <-.
    cbn [st_disk st_trace]. rewrite <- !List.app_assoc. simpl.
    rewrite delete_id; [eauto 10 |].
    destruct (_ !! appCssPath p) eqn:E; [| done]. destruct Hex. eauto.
Qed.

Lemma installTailwind_writes_back p ts t s d1 c :
  spawn "npm" tailwindArgs p (st_disk s) = (Closed (Some 0), d1) ->
  d1 !! viteConfigPath p ts = Some (File c) ->
  d1 !! path_dirname (viteConfigPath p ts) = Some Dir ->
  patchViteConfig ts c = c ->
  installTailwind p ts t s
  = overwrite_sources p ts t
      {| st_disk := d1;
         st_trace := st_trace s ++
           [ Spawned "npm" tailwindArgs p (Closed (Some 0));
             Wrote (viteConfigPath p ts) c ] |}.
Proof.
  intros Hs Hc Hdir Hpatch. unfold installTailwind, overwrite_sources.
  unfold bind at 1. unfold runCommand, bind at 1, spawn_child.
  fold tailwindArgs. rewrite Hs. cbn [ret st_disk st_trace].
  unfold bind at 1. unfold readFile. cbn [st_disk]. rewrite Hc.
  unfold bind at 1. unfold writeFile at 1. cbn [st_disk st_trace]. rewrite Hc, Hdir, Hpatch.
  rewrite (insert_id d1 _ _ Hc). by rewrite <- List.app_assoc.
Qed.



(** C10. In the Tailwind stage the TypeScript flag changes file names only:
    two completed stages that read the same build configuration, one with
    the flag and one without, write the same three texts, the patched
    configuration to [vite.config.ts] or [vite.config.js] and the blob to
    [App.tsx] or [App.jsx], and the patched configuration is the same
    substitution of the text read. *)
Theorem typescript_flag_only_renames p t c s1 s2 s1' s2' :
  installTailwind p true t s1 = (Ret tt, s1') ->
  installTailwind p false t s2 = (Ret tt, s2') ->
  (spawn "npm" tailwindArgs p (st_disk s1)).2 !! viteConfigPath p true = Some (File c) ->
  (spawn "npm" tailwindArgs p (st_disk s2)).2 !! viteConfigPath p false = Some (File c) ->
  exists config app evs1 evs2,
    st_trace s1' = st_trace s1 ++ evs1
    /\ st_trace s2' = st_trace s2 ++ evs2
    /\ writes evs1 = [ (path_join [p; "vite.config.ts"], config);
                       (path_join [p; "src/index.css"], tailwindImports);
                       (path_join [p; "src"; "App.tsx"], app) ]
    /\ writes evs2 = [ (path_join [p; "vite.config.js"], config);
                       (path_join [p; "src/index.css"], tailwindImports);
                       (path_join [p; "src"; "App.jsx"], app) ]
    /\ config = replace pluginsLiteral pluginsPatched
                  (replace viteImport viteImportPatched c).
Proof.
  intros H1 H2 Hc1 Hc2.
  apply installTailwind_ret in H1 as (d1 & c1 & b1 & r1 & Hs1 & Hr1 & Hb1 & _ & Ht1 & Hrm1).
  apply installTailwind_ret in H2 as (d2 & c2 & b2 & r2 & Hs2 & Hr2 & Hb2 & _ & Ht2 & Hrm2).
  rewrite Hs1 in Hc1. rewrite Hs2 in Hc2. cbn [snd] in Hc1, Hc2.
  rewrite Hr1 in Hc1. rewrite Hr2 in Hc2. injection Hc1 as ->. injection Hc2 as ->.
  rewrite Hb1 in Hb2. injection Hb2 as <-.
  eexists _, b1, _, _. split; [exact Ht1 |]. split; [exact Ht2 |].
  repeat split.
  - by destruct Hrm1 as [-> | ->].
  - by destruct Hrm2 as [-> | ->].
Qed.

End Stage.

(** ** Paths on the POSIX host *)

Lemma append_inj_l (p a b : string) : p +:+ a = p +:+ b -> a = b.
Proof.
  induction p as [| c p IH]; [done |]. rewrite !append_cons. intros [= H]. by apply IH.
Qed.

(** With the POSIX [join] the three files of the Tailwind stage are
    distinct, whatever the project path. *)
Lemma posix_stage_paths_distinct (code : Z) (p : string) (ts : bool) :
  cssPath (P := Demo.host code) p <> appPath (P := Demo.host code) p ts
  /\ appCssPath (P := Demo.host code) p <> cssPath (P := Demo.host code) p
  /\ appCssPath (P := Demo.host code) p <> appPath (P := Demo.host code) p ts.
Proof.
  unfold cssPath, appPath, appCssPath, appFile. cbn [path_join Demo.host Demo.join].
  destruct ts; repeat split; intros H; apply append_inj_l in H; discriminate H.
Qed.

(** ** The catalog *)

Lemma catalog_entries_distinct :
  String.eqb basic_blob dashboard_blob = false
  /\ String.eqb basic_blob landing_blob = false
  /\ String.eqb basic_blob blog_blob = false
  /\ String.eqb dashboard_blob landing_blob = false
  /\ String.eqb dashboard_blob blog_blob = false
  /\ String.eqb landing_blob blog_blob = false.
Proof. vm_compute. done. Qed.

Lemma catalog_own_ids :
  generateAppTemplate "basic" = JsString basic_blob
  /\ generateAppTemplate "dashboard" = JsString dashboard_blob
  /\ generateAppTemplate "landing" = JsString landing_blob
  /\ generateAppTemplate "blog" = JsString blog_blob
  /\ forallb (fun blob => negb (String.eqb blob EmptyString))
             [basic_blob; dashboard_blob; landing_blob; blog_blob] = true.
Proof. vm_compute. done. Qed.



(** ** Runs on the concrete host *)

Module Examples.

Import Demo.

(** C1, as stated, fails: an unknown template, an invalid name and an
    existing target are input errors, and each ends with exit status 0. *)
Lemma input_errors_exit_zero :
  (input_error (P := host 0) (world None home) (Some "my-app") fancy = true
   /\ exit_status (action (P := host 0) (world None home) (Some "my-app") fancy) = 0)
  /\ (input_error (P := host 0) (world None home) (Some ".cache") dashboard_js = true
      /\ exit_status (action (P := host 0) (world None home) (Some ".cache") dashboard_js) = 0)
  /\ (input_error (P := host 0) (world None home) (Some "notes.txt") dashboard_js = true
      /\ exit_status (action (P := host 0) (world None home) (Some "notes.txt") dashboard_js) = 0).
Proof. vm_compute. done. Qed.

Lemma exit_status_by_outcome_witness :
  exit_status (action (P := host 0) (world None home) (Some "my-app") fancy) = 0
  /\ exit_status (action (P := host 1) (world None bare) (Some "my-app") dashboard_js) = 1
  /\ exit_status (action (P := host 0) (world None bare) (Some "my-app") dashboard_js) = 0
  /\ exit_status (action (P := host 0) (world (Some false) home) None dashboard_js) = 0.
Proof.
  split; [| split; [| split]].
  - apply (proj1 (exit_status_by_outcome (P := host 0) (world None home) (Some "my-app") fancy)).
    vm_compute. reflexivity.
  - apply (proj1 (proj2 (exit_status_by_outcome (P := host 1) (world None bare)
                           (Some "my-app") dashboard_js))).
    vm_compute. reflexivity.
  - apply (proj1 (proj2 (proj2 (exit_status_by_outcome (P := host 0) (world None bare)
                                  (Some "my-app") dashboard_js)))).
    vm_compute. repeat (first [left; reflexivity | right]).
  - apply (proj2 (proj2 (proj2 (exit_status_by_outcome (P := host 0)
                                  (world (Some false) home) None dashboard_js)))).
    + vm_compute. reflexivity.
    + discriminate.
Defined.

(** C2, as stated, fails in its last part: the reported error of a failing
    generator holds the exit code but neither the command line nor the name
    of the command. *)
Lemma generator_error_lacks_command_line :
  In (Spawned "npx" generator_args "/home/dev" (Closed (Some 1)))
     (trace_of (action (P := host 1) (world None bare) (Some "my-app") dashboard_js))
  /\ reported (action (P := host 1) (world None bare) (Some "my-app") dashboard_js)
     = Some "Vite creation failed with exit code 1. Please check your internet connection and try again."
  /\ str_includes generator_command_line
       "Vite creation failed with exit code 1. Please check your internet connection and try again."
     = false
  /\ str_includes "npx"
       "Vite creation failed with exit code 1. Please check your internet connection and try again."
     = false.
Proof.
  vm_compute. repeat split. repeat (first [left; reflexivity | right]).
Qed.

Lemma generator_failure_aborts_witness :
  spawns (trace_of (action (P := host 1) (world None bare) (Some "my-app") dashboard_js))
    = [Spawned "npx" generator_args "/home/dev" (Closed (Some 1))]
  /\ mutations (trace_of (action (P := host 1) (world None bare) (Some "my-app") dashboard_js)) = []
  /\ exit_status (action (P := host 1) (world None bare) (Some "my-app") dashboard_js) = 1
  /\ reported (action (P := host 1) (world None bare) (Some "my-app") dashboard_js)
     = Some ("Vite creation failed with exit code " +:+ show_code (Some 1) +:+
             ". Please check your internet connection and try again.").
Proof.
  apply (generator_failure_aborts (P := host 1)).
  - vm_compute. repeat (first [left; reflexivity | right]).
  - discriminate.
Defined.

Lemma input_error_has_no_side_effect_witness :
  spawns (trace_of (action (P := host 0) (world None home) (Some "notes.txt") dashboard_js)) = []
  /\ mutations (trace_of (action (P := host 0) (world None home) (Some "notes.txt") dashboard_js)) = []
  /\ disk_of (action (P := host 0) (world None home) (Some "notes.txt") dashboard_js)
     = initial_disk (world None home).
Proof.
  apply (input_error_has_no_side_effect (P := host 0)). vm_compute. reflexivity.
Defined.

(** C5, as stated, fails when the template check rejects the invocation
    first: the working directory holds the visible entry [notes.txt], the
    target is the dot, and no prompt fires. *)
Lemma visible_entry_without_prompt :
  In "notes.txt" (entries (P := host 0) home "/home/dev")
  /\ startsWith "." "notes.txt" = false
  /\ existsb is_prompt
       (trace_of (action (P := host 0) (world (Some true) home) (Some ".") fancy)) = false.
Proof. vm_compute. split; [by left | done]. Qed.

Lemma prompt_iff_visible_entry_witness :
  existsb is_prompt (trace_of (action (P := host 0) (world None home) (Some ".") plain_ts)) = true
  <-> initial_disk (world None home) !! cwd (world None home) = Some Dir
      /\ exists name, In name (entries (P := host 0) (initial_disk (world None home))
                                      (cwd (world None home)))
                      /\ startsWith "." name = false.
Proof.
  apply (prompt_iff_visible_entry (P := host 0) (world None home) (Some ".") plain_ts).
  - right. reflexivity.
  - reflexivity.
Defined.

Lemma declined_prompt_is_noop_witness :
  exit_status (action (P := host 0) (world None home) None dashboard_js) = 0
  /\ reported (action (P := host 0) (world None home) None dashboard_js) = None
  /\ trace_of (action (P := host 0) (world None home) None dashboard_js)
     = [confirm_question; cancelled_notice (P := host 0)]
  /\ mutations (trace_of (action (P := host 0) (world None home) None dashboard_js)) = []
  /\ spawns (trace_of (action (P := host 0) (world None home) None dashboard_js)) = []
  /\ disk_of (action (P := host 0) (world None home) None dashboard_js)
     = initial_disk (world None home).
Proof.
  apply (declined_prompt_is_noop (P := host 0) (world None home) None dashboard_js).
  - vm_compute. reflexivity.
  - discriminate.
Defined.

Lemma no_tailwind_no_patch_witness :
  mutations (trace_of (action (P := host 0) (world None bare) (Some ".") plain_ts)) = []
  /\ List.filter adds_tailwind
       (trace_of (action (P := host 0) (world None bare) (Some ".") plain_ts)) = []
  /\ rtc (command_step (P := host 0) plain_command) (initial_disk (world None bare))
         (disk_of (action (P := host 0) (world None bare) (Some ".") plain_ts))
  /\ plain_outcome (P := host 0) (world None bare)
       (trace_of (action (P := host 0) (world None bare) (Some ".") plain_ts))
       (disk_of (action (P := host 0) (world None bare) (Some ".") plain_ts)).
Proof.
  apply (no_tailwind_no_patch (P := host 0)). reflexivity.
Defined.


Lemma typescript_flag_only_renames_witness :
  exists config app evs1 evs2,
    st_trace (patched true) = st_trace (scaffolded true) ++ evs1
    /\ st_trace (patched false) = st_trace (scaffolded false) ++ evs2
    /\ writes evs1 = [ ("/home/dev/my-app/vite.config.ts", config);
                       ("/home/dev/my-app/src/index.css", tailwindImports);
                       ("/home/dev/my-app/src/App.tsx", app) ]
    /\ writes evs2 = [ ("/home/dev/my-app/vite.config.js", config);
                       ("/home/dev/my-app/src/index.css", tailwindImports);
                       ("/home/dev/my-app/src/App.jsx", app) ]
    /\ config = replace pluginsLiteral pluginsPatched
                  (replace viteImport viteImportPatched default_config).
Proof.
  apply (typescript_flag_only_renames (P := host 0) "/home/dev/my-app" "dashboard"
           default_config (scaffolded true) (scaffolded false) (patched true) (patched false)).
  - vm_compute. reflexivity.
  - vm_compute. reflexivity.
  - vm_compute. reflexivity.
  - vm_compute. reflexivity.
Defined.

End Examples.

(** * Further properties

    Beyond the statements above: what the two substitutions do when their
    anchors are present, how the process wrapper fails, in which order the
    stages run and what the tool never touches. *)

(** ** Vocabulary *)

Section MoreVocabulary.

Context {P : Platform}.

(** [clash q shared]: some non-empty suffix of [q] starts with [shared] or
    is a prefix of it. *)
Fixpoint clash (q shared : string) : bool :=
  match q with
  | EmptyString => false
  | String _ q' => (startsWith q shared || startsWith shared q) || clash q' shared
  end.

(** What the two texts of the plugin substitution have in common at their
    head. *)
Definition pluginsShared : string := "plugins: [react()".

(** The text that the plugin substitution adds to the array. *)
Definition pluginsAddition : string := ", tailwindcss()".

(** The command line as [runCommand] prints it. *)
Definition command_line (command : string) (args : list string) : string :=
  command +:+ " " +:+ String.concat " " args.

(** The message of the error with which [runCommand] rejects. *)
Definition command_error (command : string) (args : list string) (r : Outcome) : string :=
  match r with
  | Closed code =>
      "Command " +:+ dq +:+ command_line command args +:+ dq
      +:+ " failed with exit code " +:+ show_code code
  | SpawnError message => message
  end.

End MoreVocabulary.

(** ** The substitutions on a text that holds their anchors *)

Section Substitution.

Lemma append_nil_r (x : string) : x +:+ EmptyString = x.
Proof. induction x as [| a x IH]; [done |]. by rewrite append_cons, IH. Qed.

Lemma length_append (x y : string) :
  String.length (x +:+ y) = (String.length x + String.length y)%nat.
Proof. induction x as [| a x IH]; [done |]. rewrite append_cons. simpl. by rewrite IH. Qed.

Lemma startsWith_append (x y : string) : startsWith x (x +:+ y) = true.
Proof.
  induction x as [| a x IH]; [done |]. rewrite append_cons. simpl.
  by rewrite Ascii.eqb_refl.
Qed.

Lemma startsWith_prefix (x y s : string) :
  startsWith (x +:+ y) s = true -> startsWith x s = true.
Proof.
  revert s. induction x as [| a x IH]; intros s; [done |].
  rewrite append_cons. destruct s as [| b s]; simpl; [done |].
  destruct (Ascii.eqb a b); [apply IH | done].
Qed.

Lemma str_includes_head (x s : string) :
  startsWith x s = true -> str_includes x s = true.
Proof. intros H. destruct s; simpl; by rewrite H. Qed.

Lemma str_includes_cons (x : string) (a : ascii) (s : string) :
  str_includes x s = true -> str_includes x (String a s) = true.
Proof. intros H. simpl. rewrite H. by destruct (startsWith x (String a s)). Qed.

Lemma str_includes_append_r (x a b : string) :
  str_includes x b = true -> str_includes x (a +:+ b) = true.
Proof.
  intros H. induction a as [| c a IH]; [done |].
  rewrite append_cons. by apply str_includes_cons.
Qed.

Lemma str_includes_middle (x a b : string) : str_includes x (a +:+ x +:+ b) = true.
Proof. apply str_includes_append_r, str_includes_head, startsWith_append. Qed.

Lemma str_includes_prefix (x y s : string) :
  str_includes (x +:+ y) s = true -> str_includes x s = true.
Proof.
  induction s as [| a s IH]; simpl.
  - destruct (startsWith (x +:+ y) EmptyString) eqn:E; [| done].
    intros _. by rewrite (startsWith_prefix _ _ _ E).
  - destruct (startsWith (x +:+ y) (String a s)) eqn:E.
    + intros _. by rewrite (startsWith_prefix _ _ _ E).
    + intros H. rewrite (IH H). by destruct (startsWith x (String a s)).
Qed.

(** The text that replaces the first occurrence is in the result. *)
Lemma replace_present (pat rep s : string) :
  str_includes pat s = true -> str_includes rep (replace pat rep s) = true.
Proof.
  induction s as [| a s IH]; simpl.
  - destruct (startsWith pat EmptyString); [| done].
    intros _. apply str_includes_head, startsWith_append.
  - destruct (startsWith pat (String a s)).
    + intros _. apply str_includes_head, startsWith_append.
    + intros H. apply str_includes_cons. by apply IH.
Qed.

(** One replacement changes the length by the difference of the two
    texts. *)
Lemma replace_length (pat rep s : string) :
  str_includes pat s = true ->
  (String.length (replace pat rep s) + String.length pat
   = String.length s + String.length rep)%nat.
Proof.
  induction s as [| a s IH]; cbn [replace str_includes].
  - destruct (startsWith pat EmptyString) eqn:E; [| done].
    intros _. destruct pat; [| done]. simpl. rewrite append_nil_r. lia.
  - destruct (startsWith pat (String a s)) eqn:E.
    + intros _. rewrite (startsWith_split _ _ E) at 2.
      rewrite !length_append. lia.
    + intros H. cbn [String.length]. specialize (IH H). lia.
Qed.

Lemma replace_length_ge (pat rep s : string) :
  (String.length pat <= String.length rep)%nat ->
  (String.length s <= String.length (replace pat rep s))%nat.
Proof.
  intros Hle. destruct (str_includes pat s) eqn:E.
  - pose proof (replace_length pat rep s E). lia.
  - by rewrite replace_absent.
Qed.

(** A text that does not clash with [shared] at its head does not start
    a text that begins with [shared]. *)
Lemma startsWith_no_clash (q shared z : string) :
  startsWith q shared = false -> startsWith shared q = false ->
  startsWith q (shared +:+ z) = false.
Proof.
  revert shared. induction q as [| b q IH]; intros [| c shared]; simpl; try done.
  destruct (Ascii.eqb_spec b c) as [-> | Hne]; [| done].
  rewrite Ascii.eqb_refl. apply IH.
Qed.

(** A replacement whose two texts begin with [shared] does not change
    whether the text starts with [q], when no suffix of [q] clashes with
    [shared]. *)
Lemma startsWith_replace_shared (shared pat rep q y : string) :
  startsWith shared pat = true -> startsWith shared rep = true ->
  shared <> EmptyString ->
  clash q shared = false ->
  startsWith q (replace pat rep y) = startsWith q y.
Proof.
  intros Hpat Hrep Hne. revert q. induction y as [| a y IH]; intros q Hq.
  - simpl. destruct (startsWith pat EmptyString) eqn:E; [| done].
    destruct pat; [| done]. by destruct shared.
  - cbn [replace]. destruct (startsWith pat (String a y)) eqn:E.
    + destruct q as [| b q]; [done |].
      cbn [clash] in Hq. apply orb_false_elim in Hq as [Hq _].
      apply orb_false_elim in Hq as [Hq1 Hq2].
      rewrite (startsWith_split _ _ E) at 2.
      rewrite (startsWith_split _ _ Hpat), (startsWith_split _ _ Hrep), !append_assoc.
      by rewrite !startsWith_no_clash.
    + destruct q as [| b q]; [done |]. simpl.
      destruct (Ascii.eqb b a); [| done]. apply IH.
      cbn [clash] in Hq. by apply orb_false_elim in Hq as [_ Hq].
Qed.

Lemma import_after_plugins (rest : string) :
  str_includes viteImport (pluginsLiteral +:+ rest) = str_includes viteImport rest
  /\ str_includes viteImport (pluginsPatched +:+ rest) = str_includes viteImport rest.
Proof.
  unfold pluginsLiteral, pluginsPatched. rewrite !append_cons. split; reflexivity.
Qed.

Lemma patched_import_after_plugins (rest : string) :
  str_includes viteImportPatched (pluginsLiteral +:+ rest)
    = str_includes viteImportPatched rest
  /\ str_includes viteImportPatched (pluginsPatched +:+ rest)
     = str_includes viteImportPatched rest.
Proof.
  unfold pluginsLiteral, pluginsPatched. rewrite !append_cons. split; reflexivity.
Qed.

(** The plugin substitution neither creates nor destroys an occurrence of
    [q], for the two texts of the import substitution. *)
Lemma plugins_patch_keeps (q x : string) :
  clash q pluginsShared = false ->
  (forall rest,
      str_includes q (pluginsLiteral +:+ rest) = str_includes q rest
      /\ str_includes q (pluginsPatched +:+ rest) = str_includes q rest) ->
  str_includes q (replace pluginsLiteral pluginsPatched x) = str_includes q x.
Proof.
  intros Hq Hskip. induction x as [| a x IH]; [done |].
  pose proof (startsWith_replace_shared pluginsShared pluginsLiteral pluginsPatched q
                (String a x) eq_refl eq_refl ltac:(done) Hq) as Hhead.
  cbn [replace] in Hhead |- *.
  destruct (startsWith pluginsLiteral (String a x)) eqn:E.
  - rewrite (startsWith_split _ _ E) at 2.
    destruct (Hskip (str_drop (String.length pluginsLiteral) (String a x))) as [-> ->].
    done.
  - cbn [str_includes]. by rewrite Hhead, IH.
Qed.

(** The import substitution neither creates nor destroys the plugin
    anchor. *)
Lemma import_patch_keeps_plugins (c : string) :
  str_includes pluginsLiteral (replace viteImport viteImportPatched c)
  = str_includes pluginsLiteral c.
Proof.
  induction c as [| a c IH]; [done |].
  pose proof (startsWith_replace_insert viteImport tailwindImportLine (String a c)
                pluginsLiteral) as Hhead.
  rewrite <- viteImportPatched_eq in Hhead. cbn [replace] in Hhead |- *.
  destruct (startsWith viteImport (String a c)) eqn:E.
  - rewrite (startsWith_split _ _ E) at 2.
    by rewrite plugins_after_import, plugins_after_patched_import.
  - cbn [str_includes]. rewrite Hhead by (vm_compute; lia). by rewrite IH.
Qed.

End Substitution.

Section PatchResult.

Lemma anchor_lengths :
  String.length viteImportPatched
    = (String.length viteImport + String.length tailwindImportLine)%nat
  /\ String.length pluginsPatched
     = (String.length pluginsLiteral + String.length pluginsAddition)%nat
  /\ (String.length pluginsLiteral <= String.length pluginsPatched)%nat.
Proof. vm_compute. repeat split; lia. Qed.

Lemma patch_keeps_patched_import (ts : bool) (c : string) :
  str_includes viteImport c = true ->
  str_includes viteImportPatched (patchViteConfig ts c) = true.
Proof.
  intros H.
  assert (patchViteConfig ts c
          = replace pluginsLiteral pluginsPatched (replace viteImport viteImportPatched c))
    as -> by (by destruct ts).
  rewrite (plugins_patch_keeps viteImportPatched _ eq_refl patched_import_after_plugins).
  by apply replace_present.
Qed.

(** X1. A build configuration that holds the import anchor comes out of the
    patch with the Tailwind import directly after it; one that holds the
    plugin literal comes out with the extended plugin array; one that holds
    both grows by exactly the inserted line and the added call. *)
Theorem patch_adds_texts (ts : bool) (c : string) :
  (str_includes viteImport c = true ->
     str_includes viteImportPatched (patchViteConfig ts c) = true)
  /\ (str_includes pluginsLiteral c = true ->
      str_includes pluginsPatched (patchViteConfig ts c) = true)
  /\ (str_includes viteImport c = true ->
      str_includes pluginsLiteral c = true ->
      String.length (patchViteConfig ts c)
      = (String.length c + String.length tailwindImportLine
         + String.length pluginsAddition)%nat).
Proof.
  assert (Heq : patchViteConfig ts c
                = replace pluginsLiteral pluginsPatched
                    (replace viteImport viteImportPatched c)) by (by destruct ts).
  split; [apply patch_keeps_patched_import |]. rewrite Heq. split.
  - intros H. apply replace_present. by rewrite import_patch_keeps_plugins.
  - intros Hi Hp.
    pose proof (replace_length viteImport viteImportPatched c Hi) as H1.
    pose proof (replace_length pluginsLiteral pluginsPatched
                  (replace viteImport viteImportPatched c)) as H2.
    rewrite import_patch_keeps_plugins in H2. specialize (H2 Hp).
    destruct anchor_lengths as (L1 & L2 & _). lia.
Qed.

(** X2. The patch is not idempotent: applied to its own result it finds the
    import anchor again and inserts the Tailwind import once more. *)
Theorem patch_not_idempotent (ts : bool) (c : string) :
  str_includes viteImport c = true ->
  (String.length (patchViteConfig ts c) + String.length tailwindImportLine
   <= String.length (patchViteConfig ts (patchViteConfig ts c)))%nat
  /\ patchViteConfig ts (patchViteConfig ts c) <> patchViteConfig ts c.
Proof.
  intros H.
  pose proof (patch_keeps_patched_import ts c H) as Hin.
  rewrite viteImportPatched_eq in Hin. apply str_includes_prefix in Hin.
  assert (Hlen : (String.length (patchViteConfig ts c) + String.length tailwindImportLine
                  <= String.length (patchViteConfig ts (patchViteConfig ts c)))%nat).
  { assert (patchViteConfig ts (patchViteConfig ts c)
            = replace pluginsLiteral pluginsPatched
                (replace viteImport viteImportPatched (patchViteConfig ts c)))
      as -> by (by destruct ts).
    pose proof (replace_length viteImport viteImportPatched _ Hin) as H1.
    pose proof (replace_length_ge pluginsLiteral pluginsPatched
                  (replace viteImport viteImportPatched (patchViteConfig ts c))) as H2.
    destruct anchor_lengths as (L1 & L2 & L3). specialize (H2 L3). lia. }
  split; [done |]. intros Heq. rewrite Heq in Hlen.
  assert (0 < String.length tailwindImportLine)%nat by (vm_compute; lia). lia.
Qed.

End PatchResult.

(** ** The stages as a protocol *)

Section ProtocolVocabulary.

Context {P : Platform}.

(** [None] for a computation that returned, the message for one that
    threw. *)
Definition outcome {A} (r : Result A) : option string :=
  match r with
  | Ret _ => None
  | Throw message => Some message
  end.

(** [yields Q m]: the events that [m] adds satisfy [Q], together with the
    outcome of [m]. *)
Definition yields (Q : option string -> list Event -> Prop) {A} (m : M A) : Prop :=
  forall s, exists evs,
    st_trace (m s).2 = st_trace s ++ evs /\ Q (outcome (m s).1) evs.

(** The error that the tool throws for a spawn that failed: the one of
    [createViteProject] for the generator, the one of [runCommand] for the
    package manager. *)
Definition spawn_error (e : Event) : string :=
  match e with
  | Spawned command args _ r =>
      if String.eqb command "npx" then generator_error r
      else command_error command args r
  | _ => EmptyString
  end.

Definition is_fail_mark (e : Event) : bool :=
  match e with
  | Spinner SpinFail _ => true
  | _ => false
  end.

(** A failed spawn decides the outcome and is followed by failure marks of
    the spinner only. *)
Definition fails_fast (r : option string) (evs : list Event) : Prop :=
  forall pre e post,
    evs = pre ++ e :: post -> failed_spawn e = true ->
    r = Some (spawn_error e) /\ forallb is_fail_mark post = true.

(** The files of the project at [p] that the Tailwind stage writes, and
    the one it removes. *)
Definition touches (p : string) (e : Event) : bool :=
  match e with
  | Wrote q _ =>
      bool_decide (q ∈ [ viteConfigPath p true; viteConfigPath p false; cssPath p;
                         appPath p true; appPath p false ])
  | Removed q => bool_decide (q = appCssPath p)
  | _ => false
  end.

(** The package manager added the Tailwind packages to the project at
    [p]. *)
Definition tailwind_added (p : string) : Event :=
  Spawned "npm" tailwindArgs p (Closed (Some 0)).

(** Every write and every removal comes after the Tailwind packages were
    added to a project, and touches a file of that project. *)
Definition guarded (r : option string) (evs : list Event) : Prop :=
  forall pre e post,
    evs = pre ++ e :: post -> is_mutation e = true ->
    exists p, In (tailwind_added p) pre /\ touches p e = true.

(** An event that is neither a write nor a removal. *)
Definition no_mutation (e : Event) : bool := negb (is_mutation e).

(** An event that is no spawn, and one that is neither a spawn nor the
    mark of the last stage. *)
Definition no_spawn (e : Event) : bool := negb (is_spawn e).
Definition idle (e : Event) : bool := negb (is_spawn e) && not_done e.

(** A spawn without its result: command, arguments, working directory. *)
Definition key (e : Event) : option (string * list string * string) :=
  match e with
  | Spawned command args dir _ => Some (command, args, dir)
  | _ => None
  end.

Definition keys (evs : list Event) : list (string * list string * string) :=
  omap key evs.

(** [runs plan m]: the spawns of [m] are the commands of [plan] in order,
    up to the point where [m] stops; every spawn but the last one closed
    with 0, and when [m] returns the plan is complete and all closed
    with 0. *)
Definition runs (plan : list (string * list string * string)) {A} (m : M A) : Prop :=
  forall s, exists evs,
    st_trace (m s).2 = st_trace s ++ evs
    /\ keys evs `prefix_of` plan
    /\ forallb spawn_ok (removelast (spawns evs)) = true
    /\ (outcome (m s).1 = None ->
        keys evs = plan /\ forallb spawn_ok (spawns evs) = true).

(** The project name and path that [createProject] settles on. *)
Definition planned_target (w : World) (pd : option string) : string * string :=
  if targetsCwd pd then (path_basename (cwd w), cwd w)
  else (default EmptyString pd, path_resolve (cwd w) (default EmptyString pd)).

(** The commands of a complete run: the generator, the Tailwind packages
    when the flag is set, the bulk install. *)
Definition plan (w : World) (pd : option string) (o : Options)
  : list (string * list string * string) :=
  let '(projectName, projectPath) := planned_target w pd in
  [("npx", viteArgs w projectPath (variant o) projectName, path_dirname projectPath)]
  ++ (if tailwind o then [("npm", tailwindArgs, projectPath)] else [])
  ++ [("npm", ["install"], projectPath)].

(** The same for a given project name and path. *)
Definition plan_for (w : World) (o : Options) (projectName projectPath : string)
  : list (string * list string * string) :=
  [("npx", viteArgs w projectPath (variant o) projectName, path_dirname projectPath)]
  ++ (if tailwind o then [("npm", tailwindArgs, projectPath)] else [])
  ++ [("npm", ["install"], projectPath)].

(** What follows the package manager in [installTailwind]. *)
Definition patch_files (p : string) (ts : bool) (t : string) : M unit :=
  let* viteConfig := readFile (viteConfigPath p ts) in
  writeFile (viteConfigPath p ts) (patchViteConfig ts viteConfig) ;;
  overwrite_sources p ts t.

End ProtocolVocabulary.

(** The steps of the tool add only events that [ok] accepts, for an [ok]
    that computes: one step of the proof. *)
Ltac stage_step :=
  lazymatch goal with
  | |- only _ (createViteProject _ _ _ _) =>
      apply only_createViteProject; intros; reflexivity
  | |- only _ (installTailwind _ _ _) =>
      apply only_installTailwind; intros; reflexivity
  | |- only _ (installDependencies _) => unfold installDependencies
  | |- only _ (runCommand _ _ _) => apply only_runCommand; intros; reflexivity
  | |- only _ (reportSuccess _ _ _) => apply only_reportSuccess; intros; reflexivity
  | |- only _ (materialize _ _ _ _ _) => apply only_materialize; intros; reflexivity
  | |- only _ (build _ _ _ _ _) => apply only_build; intros; reflexivity
  | |- _ => along_step ltac:(reflexivity)
  end.

Class Sequential (Q : option string -> list Event -> Prop) : Prop := {
  seq_app : forall e1 e2 r, Q None e1 -> Q r e2 -> Q r (e1 ++ e2)
}.

Section Protocol.

Context {P : Platform}.

Lemma installTailwind_split p ts t :
  installTailwind p ts t = (runCommand "npm" tailwindArgs p ;; patch_files p ts t).
Proof. reflexivity. Qed.

Lemma runCommand_run command args dir s :
  runCommand command args dir s
  = (match (spawn command args dir (st_disk s)).1 with
     | Closed (Some 0) => Ret tt
     | r => Throw (command_error command args r)
     end,
     {| st_disk := (spawn command args dir (st_disk s)).2;
        st_trace := st_trace s ++
          [Spawned command args dir (spawn command args dir (st_disk s)).1] |}).
Proof.
  unfold runCommand, bind, spawn_child.
  destruct (spawn command args dir (st_disk s)) as [r d].
  destruct r as [[[| c | c] |] | message]; cbn [fst snd ret throw];
    unfold command_error, command_line; by rewrite ?append_assoc.
Qed.

Lemma createViteProject_run w p v n s :
  createViteProject w p v n s
  = (match (spawn "npx" (viteArgs w p v n) (path_dirname p) (st_disk s)).1 with
     | Closed (Some 0) => Ret tt
     | r => Throw (generator_error r)
     end,
     {| st_disk := (spawn "npx" (viteArgs w p v n) (path_dirname p) (st_disk s)).2;
        st_trace := st_trace s ++
          [Spawned "npx" (viteArgs w p v n) (path_dirname p)
                   (spawn "npx" (viteArgs w p v n) (path_dirname p) (st_disk s)).1] |}).
Proof.
  unfold createViteProject, bind, spawn_child.
  destruct (spawn "npx" _ _ (st_disk s)) as [r d].
  by destruct r as [[[| c | c] |] | message].
Qed.

(** *** Composition of [yields] *)

Section Yields.

Context (Q : option string -> list Event -> Prop) `{!Sequential Q}.

Lemma yields_only (ok : Event -> bool) {A} (m : M A) :
  (forall r evs, forallb ok evs = true -> Q r evs) ->
  only ok m -> yields Q m.
Proof.
  intros Hcalm Hm s. destruct (Hm s) as (evs & Htr & Hok). exists evs. eauto.
Qed.

Lemma yields_bind {A B} (m : M A) (k : A -> M B) :
  yields Q m -> (forall a, yields Q (k a)) -> yields Q (bind m k).
Proof.
  intros Hm Hk s. unfold bind. destruct (Hm s) as (e1 & H1 & Q1).
  destruct (m s) as [[a | e] s1]; cbn [fst snd outcome] in *.
  - destruct (Hk a s1) as (e2 & H2 & Q2). exists (e1 ++ e2).
    split; [by rewrite H2, H1, <- List.app_assoc |]. by apply seq_app.
  - by exists e1.
Qed.

Lemma yields_rethrow {A} (m : M A) (text : string) :
  (forall e evs, Q (Some e) evs -> Q (Some e) (evs ++ [Spinner SpinFail text])) ->
  yields Q m ->
  yields Q (try_catch m (fun error => spinner SpinFail text ;; throw error)).
Proof.
  intros Hmark Hm s. unfold try_catch. destruct (Hm s) as (e1 & H1 & Q1).
  destruct (m s) as [[a | e] s1]; cbn [fst snd outcome] in *.
  - by exists e1.
  - exists (e1 ++ [Spinner SpinFail text]). split; [| by apply Hmark].
    unfold bind, spinner, emit, throw. cbn [fst snd st_trace]. by rewrite H1, <- List.app_assoc.
Qed.

End Yields.

(** *** Splitting a trace at one event *)

Lemma split_app {A} (e1 e2 pre post : list A) (e : A) :
  e1 ++ e2 = pre ++ e :: post ->
  (exists post1, e1 = pre ++ e :: post1 /\ post = post1 ++ e2)
  \/ (exists pre2, pre = e1 ++ pre2 /\ e2 = pre2 ++ e :: post).
Proof.
  intros H. apply List.app_eq_app in H as (l & [[-> H] | [-> ->]]).
  - destruct l as [| x l]; simpl in H.
    + right. exists []. subst. by rewrite !app_nil_r.
    + injection H as <- ->. left. eauto.
  - right. eauto.
Qed.

Lemma split_one {A} (x e : A) (pre post : list A) :
  [x] = pre ++ e :: post -> pre = [] /\ e = x /\ post = [].
Proof.
  destruct pre as [| y pre]; simpl.
  - by intros [= -> <-].
  - intros [= _ H]. by destruct pre.
Qed.

(** *** A failed spawn ends the run *)

#[global] Instance fails_fast_sequential : Sequential fails_fast.
Proof.
  split. intros e1 e2 r H1 H2 pre e post Heq Hf.
  apply split_app in Heq as [(post1 & -> & ->) | (pre2 & -> & ->)].
  - by destruct (H1 pre e post1 eq_refl Hf) as [? _].
  - by apply (H2 pre2 e post).
Qed.

Lemma fails_fast_calm r (evs : list Event) :
  forallb spawn_ok evs = true -> fails_fast r evs.
Proof.
  intros Hok pre e post -> Hf. rewrite forallb_app in Hok.
  apply andb_prop in Hok as [_ Hok]. simpl in Hok. apply andb_prop in Hok as [Hok _].
  unfold spawn_ok in Hok. by rewrite Hf in Hok.
Qed.

Lemma fails_fast_mark e (evs : list Event) (text : string) :
  fails_fast (Some e) evs -> fails_fast (Some e) (evs ++ [Spinner SpinFail text]).
Proof.
  intros H pre x post Heq Hf.
  apply split_app in Heq as [(post1 & -> & ->) | (pre2 & -> & Heq)].
  - destruct (H pre x post1 eq_refl Hf) as [-> Hpost]. split; [done |].
    by rewrite forallb_app, Hpost.
  - apply split_one in Heq as (_ & -> & _). done.
Qed.

Lemma fails_fast_runCommand command args dir :
  String.eqb command "npx" = false ->
  yields fails_fast (runCommand command args dir).
Proof.
  intros Hc s. rewrite runCommand_run. cbn [fst snd st_trace].
  eexists. split; [reflexivity |].
  intros pre e post Heq Hf. apply split_one in Heq as (_ & -> & ->).
  split; [| done]. cbn [spawn_error]. rewrite Hc.
  by destruct (spawn command args dir (st_disk s)).1 as [[[| c | c] |] | message].
Qed.

Lemma fails_fast_createViteProject w p v n :
  yields fails_fast (createViteProject w p v n).
Proof.
  intros s. rewrite createViteProject_run. cbn [fst snd st_trace].
  eexists. split; [reflexivity |].
  intros pre e post Heq Hf. apply split_one in Heq as (_ & -> & ->).
  split; [| done]. cbn [spawn_error String.eqb].
  by destruct (spawn "npx" _ _ (st_disk s)).1 as [[[| c | c] |] | message].
Qed.

Ltac calm Q ok Hcalm :=
  apply (yields_only Q ok); [apply Hcalm | repeat stage_step].

Lemma fails_fast_createProject w pd o : yields fails_fast (createProject w pd o).
Proof.
  unfold createProject.
  destruct (negb (arr_includes validTemplates (template o)));
    [calm fails_fast spawn_ok fails_fast_calm |].
  apply yields_bind; [typeclasses eauto | | ].
  { apply (yields_only fails_fast spawn_ok); [apply fails_fast_calm |].
    by apply only_resolveTarget. }
  intros [[n p] |]; [| calm fails_fast spawn_ok fails_fast_calm].
  unfold build.
  do 4 (apply yields_bind;
        [typeclasses eauto | calm fails_fast spawn_ok fails_fast_calm | intros _]).
  apply yields_rethrow; [intros e evs; apply fails_fast_mark |]. unfold materialize.
  apply yields_bind; [typeclasses eauto | apply fails_fast_createViteProject | intros _].
  apply yields_bind;
    [typeclasses eauto | calm fails_fast spawn_ok fails_fast_calm | intros _].
  apply yields_bind; [typeclasses eauto | | intros _].
  { destruct (tailwind o); [| calm fails_fast spawn_ok fails_fast_calm].
    apply yields_bind;
      [typeclasses eauto | calm fails_fast spawn_ok fails_fast_calm | intros _].
    apply yields_bind;
      [typeclasses eauto | | intros _; calm fails_fast spawn_ok fails_fast_calm].
    rewrite installTailwind_split.
    apply yields_bind;
      [typeclasses eauto | by apply fails_fast_runCommand | intros _].
    apply (yields_only fails_fast spawn_ok); [apply fails_fast_calm |].
    unfold patch_files, overwrite_sources, writeFile_value. repeat stage_step. }
  apply yields_bind;
    [typeclasses eauto | calm fails_fast spawn_ok fails_fast_calm | intros _].
  apply yields_bind; [typeclasses eauto | by apply fails_fast_runCommand | intros _].
  calm fails_fast spawn_ok fails_fast_calm.
Qed.

(** *** Writes are guarded by the package manager *)

#[global] Instance guarded_sequential : Sequential guarded.
Proof.
  split. intros e1 e2 r H1 H2 pre e post Heq Hm.
  apply split_app in Heq as [(post1 & -> & ->) | (pre2 & -> & ->)].
  - by apply (H1 pre e post1).
  - destruct (H2 pre2 e post eq_refl Hm) as (p & Hin & Ht).
    exists p. split; [| done]. apply in_or_app. by right.
Qed.

Lemma guarded_calm r (evs : list Event) :
  forallb no_mutation evs = true -> guarded r evs.
Proof.
  intros Hok pre e post -> Hm. rewrite forallb_app in Hok.
  apply andb_prop in Hok as [_ Hok]. simpl in Hok. apply andb_prop in Hok as [Hok _].
  unfold no_mutation in Hok. by rewrite Hm in Hok.
Qed.

Lemma guarded_mark e (evs : list Event) (text : string) :
  guarded (Some e) evs -> guarded (Some e) (evs ++ [Spinner SpinFail text]).
Proof.
  intros H pre x post Heq Hm.
  apply split_app in Heq as [(post1 & -> & ->) | (pre2 & -> & Heq)].
  - by apply (H pre x post1).
  - apply split_one in Heq as (_ & -> & _). done.
Qed.

Lemma only_patch_files p ts t : only (touches p) (patch_files p ts t).
Proof.
  unfold patch_files, overwrite_sources, writeFile_value.
  destruct ts;
    repeat along_step ltac:(apply bool_decide_eq_true_2;
                            first [reflexivity | apply list_elem_of_In; simpl; auto 10]).
Qed.

(** The trace of the Tailwind stage: the package manager first, then, if
    it closed with 0, writes and a removal inside the project. *)
Lemma installTailwind_trace p ts t s :
  exists rest,
    st_trace (installTailwind p ts t s).2
    = st_trace s ++ Spawned "npm" tailwindArgs p (spawn "npm" tailwindArgs p (st_disk s)).1
                    :: rest
    /\ forallb (touches p) rest = true
    /\ ((spawn "npm" tailwindArgs p (st_disk s)).1 <> Closed (Some 0) -> rest = []).
Proof.
  rewrite installTailwind_split. unfold bind. rewrite runCommand_run.
  destruct (spawn "npm" tailwindArgs p (st_disk s)) as [r d]. cbn [fst snd].
  assert (Hfail : r <> Closed (Some 0) ->
            exists rest : list Event,
              st_trace s ++ [Spawned "npm" tailwindArgs p r]
              = st_trace s ++ Spawned "npm" tailwindArgs p r :: rest
              /\ forallb (touches p) rest = true
              /\ (r <> Closed (Some 0) -> rest = [])) by (by exists []).
  destruct r as [[[| c | c] |] | message]; cbn [fst snd st_trace]; try (by apply Hfail).
  destruct (only_patch_files p ts t
              {| st_disk := d;
                 st_trace := st_trace s ++ [Spawned "npm" tailwindArgs p (Closed (Some 0))] |})
    as (rest & -> & Hok).
  exists rest. cbn [st_trace]. by rewrite <- List.app_assoc.
Qed.

Lemma guarded_installTailwind p ts t : yields guarded (installTailwind p ts t).
Proof.
  intros s. destruct (installTailwind_trace p ts t s) as (rest & Htr & Hok & Hfail).
  eexists. split; [exact Htr |].
  intros pre e post Heq Hm.
  destruct pre as [| x pre]; simpl in Heq; injection Heq as <- Heq; [done |].
  assert (Hin : In e rest) by (rewrite Heq; apply in_or_app; right; by left).
  exists p. split.
  - left. unfold tailwind_added. f_equal.
    destruct (spawn "npm" tailwindArgs p (st_disk s)).1 as [[[| c | c] |] | message];
      try done; by rewrite Hfail in Hin.
  - by apply (In_forallb (touches p) rest e Hok).
Qed.

Lemma guarded_createProject w pd o : yields guarded (createProject w pd o).
Proof.
  unfold createProject.
  destruct (negb (arr_includes validTemplates (template o)));
    [calm guarded no_mutation guarded_calm |].
  apply yields_bind; [typeclasses eauto | | ].
  { apply (yields_only guarded no_mutation); [apply guarded_calm |].
    by apply only_resolveTarget. }
  intros [[n p] |]; [| calm guarded no_mutation guarded_calm].
  unfold build.
  do 4 (apply yields_bind;
        [typeclasses eauto | calm guarded no_mutation guarded_calm | intros _]).
  apply yields_rethrow; [intros e evs; apply guarded_mark |]. unfold materialize.
  do 2 (apply yields_bind;
        [typeclasses eauto | calm guarded no_mutation guarded_calm | intros _]).
  apply yields_bind; [typeclasses eauto | | intros _].
  { destruct (tailwind o); [| calm guarded no_mutation guarded_calm].
    apply yields_bind;
      [typeclasses eauto | calm guarded no_mutation guarded_calm | intros _].
    apply yields_bind;
      [typeclasses eauto | apply guarded_installTailwind
      | intros _; calm guarded no_mutation guarded_calm]. }
  calm guarded no_mutation guarded_calm.
Qed.

(** *** The order of the stages *)

Lemma keys_app (a b : list Event) : keys (a ++ b) = keys a ++ keys b.
Proof. apply omap_app. Qed.

Lemma no_spawn_keys (evs : list Event) :
  forallb no_spawn evs = true -> keys evs = [] /\ spawns evs = [].
Proof.
  induction evs as [| e evs IH]; [done |]. simpl.
  intros [He Hevs]%andb_prop. destruct (IH Hevs) as [IH1 IH2].
  unfold keys, spawns in *. destruct e; simpl in *; try done.
Qed.

Lemma stderr_keys (evs : list Event) :
  forallb is_stderr evs = true -> keys evs = [] /\ spawns evs = [].
Proof.
  intros H. apply no_spawn_keys. apply (forallb_weaken is_stderr); [| done]. by intros [].
Qed.

Lemma runs_quiet {A} (m : M A) : only no_spawn m -> runs [] m.
Proof.
  intros Hm s. destruct (Hm s) as (evs & Htr & Hok).
  destruct (no_spawn_keys evs Hok) as [Hk Hs].
  exists evs. rewrite Hk, Hs. done.
Qed.

Lemma runs_bind (p1 p2 : list (string * list string * string)) {A B}
    (m : M A) (k : A -> M B) :
  runs p1 m -> (forall a, runs p2 (k a)) -> runs (p1 ++ p2) (bind m k).
Proof.
  intros Hm Hk s. unfold bind. destruct (Hm s) as (e1 & H1 & Hp1 & Hl1 & Hr1).
  destruct (m s) as [[a | e] s1]; cbn [fst snd outcome] in *.
  - destruct (Hk a s1) as (e2 & H2 & Hp2 & Hl2 & Hr2).
    destruct (Hr1 eq_refl) as [Hk1 Hok1].
    exists (e1 ++ e2). split; [by rewrite H2, H1, <- List.app_assoc |].
    rewrite keys_app, spawns_app, Hk1. split; [by apply prefix_app |]. split.
    + destruct (spawns e2) as [| x l] eqn:E.
      * by rewrite app_nil_r.
      * rewrite removelast_app by done. by rewrite forallb_app, Hok1, Hl2.
    + intros Hret. destruct (Hr2 Hret) as [-> Hok2]. by rewrite forallb_app, Hok1, Hok2.
  - exists e1. split; [done |]. split; [by apply prefix_app_r |]. done.
Qed.

Lemma runs_rethrow (plan0 : list (string * list string * string)) {A}
    (m : M A) (text : string) :
  runs plan0 m ->
  runs plan0 (try_catch m (fun error => spinner SpinFail text ;; throw error)).
Proof.
  intros Hm s. unfold try_catch. destruct (Hm s) as (e1 & H1 & Hp1 & Hl1 & Hr1).
  destruct (m s) as [[a | e] s1]; cbn [fst snd outcome] in *.
  - by exists e1.
  - exists (e1 ++ [Spinner SpinFail text]).
    split; [unfold bind, spinner, emit, throw; cbn [fst snd st_trace];
            by rewrite H1, <- List.app_assoc |].
    rewrite keys_app, spawns_app. simpl. rewrite !app_nil_r. done.
Qed.

Lemma runs_runCommand command args dir :
  runs [(command, args, dir)] (runCommand command args dir).
Proof.
  intros s. rewrite runCommand_run. cbn [fst snd st_trace outcome].
  eexists. split; [reflexivity |]. split; [done |]. split; [done |].
  destruct (spawn command args dir (st_disk s)).1 as [[[| c | c] |] | message]; done.
Qed.

Lemma runs_createViteProject w p v n :
  runs [("npx", viteArgs w p v n, path_dirname p)] (createViteProject w p v n).
Proof.
  intros s. rewrite createViteProject_run. cbn [fst snd st_trace outcome].
  eexists. split; [reflexivity |]. split; [done |]. split; [done |].
  destruct (spawn "npx" _ _ (st_disk s)).1 as [[[| c | c] |] | message]; done.
Qed.

Ltac quiet := apply runs_quiet; repeat stage_step.

Lemma runs_build w pd o n p : runs (plan_for w o n p) (build w pd o n p).
Proof.
  unfold build, plan_for.
  do 4 (apply (runs_bind []); [quiet | intros _]).
  apply runs_rethrow. unfold materialize.
  apply (runs_bind [("npx", viteArgs w p (variant o) n, path_dirname p)]
           ((if tailwind o then [("npm", tailwindArgs, p)] else [])
            ++ [("npm", ["install"], p)]));
    [apply runs_createViteProject | intros _].
  apply (runs_bind []); [quiet | intros _].
  apply (runs_bind (if tailwind o then [("npm", tailwindArgs, p)] else [])
           [("npm", ["install"], p)]).
  { destruct (tailwind o); [| quiet].
    apply (runs_bind []); [quiet | intros _].
    apply (runs_bind [("npm", tailwindArgs, p)] []); [| intros _; quiet].
    rewrite installTailwind_split.
    apply (runs_bind [("npm", tailwindArgs, p)] []); [apply runs_runCommand | intros _].
    apply runs_quiet. unfold patch_files, overwrite_sources, writeFile_value.
    repeat stage_step. }
  intros _. apply (runs_bind []); [quiet | intros _].
  apply (runs_bind [("npm", ["install"], p)] []); [apply runs_runCommand | intros _].
  quiet.
Qed.

Lemma resolveTarget_target w pd s n p s' :
  resolveTarget w pd s = (Ret (Some (n, p)), s') -> (n, p) = planned_target w pd.
Proof.
  unfold resolveTarget, planned_target. destruct (targetsCwd pd).
  - cbv zeta. unfold bind at 1, readdir.
    destruct (st_disk s !! cwd w) as [[data |] |]; try discriminate.
    destruct (0 <? _)%nat.
    + unfold prompt_confirm, bind, emit, ret, console_log.
      destruct (answer w) as [[] |]; intros [=]; by subst.
    + unfold ret. intros [=]; by subst.
  - cbv zeta. destruct (negb _).
    + intros H.
      apply bind_ret_inv in H as (? & ? & _ & H).
      apply bind_ret_inv in H as (? & ? & _ & H).
      apply bind_ret_inv in H as (? & ? & _ & H). discriminate.
    + unfold bind at 1, pathExists. destruct (bool_decide _).
      * unfold bind, console_error, emit, ret. discriminate.
      * unfold ret. intros [=]; by subst.
Qed.

Lemma plan_planned w pd o n p :
  (n, p) = planned_target w pd -> plan w pd o = plan_for w o n p.
Proof. intros H. unfold plan. by rewrite <- H. Qed.

Lemma idle_not_done (evs : list Event) :
  forallb idle evs = true -> In done_mark evs -> False.
Proof.
  intros H Hin. apply (In_forallb idle evs _ H) in Hin. done.
Qed.

(** The spawns of [createProject] follow the plan. *)
Lemma runs_createProject w pd o s :
  exists evs,
    st_trace (createProject w pd o s).2 = st_trace s ++ evs
    /\ keys evs `prefix_of` plan w pd o
    /\ forallb spawn_ok (removelast (spawns evs)) = true
    /\ (In done_mark evs ->
        keys evs = plan w pd o /\ forallb spawn_ok (spawns evs) = true).
Proof.
  destruct (arr_includes validTemplates (template o)) eqn:Ht.
  2: { rewrite createProject_invalid_template by done.
       exists [template_error o]. split; [done |]. split; [apply prefix_nil |].
       split; [done |]. intros [H | []]. discriminate. }
  pose proof (createProject_throws_before_done w pd o s) as Hdone.
  rewrite createProject_valid_template in Hdone |- * by done.
  destruct (only_resolveTarget idle w pd ltac:(done) ltac:(done) ltac:(done) s)
    as (evs1 & Htr1 & Hidle).
  destruct (no_spawn_keys evs1) as [Hk1 Hs1];
    [apply (forallb_weaken idle); [by intros e [? ?]%andb_prop | done] |].
  destruct (resolveTarget w pd s) as [[[[n p] |] | e] s1] eqn:Hres; cbn [fst snd] in *.
  - rewrite (plan_planned w pd o n p (resolveTarget_target _ _ _ _ _ _ Hres)).
    destruct (runs_build w pd o n p s1) as (evs2 & Htr2 & Hp & Hl & Hr).
    exists (evs1 ++ evs2). split; [by rewrite Htr2, Htr1, <- List.app_assoc |].
    rewrite keys_app, spawns_app, Hk1, Hs1. cbn [app].
    split; [done |]. split; [done |].
    intros Hin. apply Hr.
    destruct (build w pd o n p s1) as [[[] | e] s2]; [done |].
    exfalso. destruct Hdone as (evs & Htr & Hnot). cbn [fst snd] in *.
    rewrite Htr2, Htr1, <- List.app_assoc in Htr. apply app_inv_head in Htr. subst evs.
    exact (In_rejected not_done _ done_mark Hnot eq_refl Hin).
  - exists evs1. rewrite Hk1, Hs1. split; [done |]. split; [apply prefix_nil |].
    split; [done |]. intros Hin. by destruct (idle_not_done evs1 Hidle Hin).
  - exists evs1. rewrite Hk1, Hs1. split; [done |]. split; [apply prefix_nil |].
    split; [done |]. intros Hin. by destruct (idle_not_done evs1 Hidle Hin).
Qed.

(** The trace of the action: the events of [createProject], then error
    lines only. *)
Lemma action_events w pd o :
  exists tail,
    trace_of (action w pd o) = st_trace (createProject w pd o (start w)).2 ++ tail
    /\ forallb is_stderr tail = true
    /\ (outcome (createProject w pd o (start w)).1 = None ->
        exit_status (action w pd o) = 0)
    /\ (forall e, outcome (createProject w pd o (start w)).1 = Some e ->
                  exit_status (action w pd o) = 1 /\ reported (action w pd o) = Some e).
Proof.
  unfold action, trace_of. fold (start w).
  destruct (createProject w pd o (start w)) as [[a | e] s]; cbn.
  - exists []. rewrite app_nil_r. repeat split; done.
  - eexists. split; [reflexivity |]. split; [done |]. split; [done |].
    by intros e' [= ->].
Qed.

Lemma in_keys command args dir r (evs : list Event) :
  In (Spawned command args dir r) evs -> (command, args, dir) ∈ keys evs.
Proof.
  intros H. apply list_elem_of_In in H. unfold keys. apply list_elem_of_omap.
  by exists (Spawned command args dir r).
Qed.

(** X3. The spawns of a run are the commands of the plan, in order, up to
    the point where the run stops: the generator, then the Tailwind
    packages when the flag is set, then the bulk install; and every spawn
    but the last one closed with 0. *)
Theorem stages_run_in_order w pd o :
  keys (trace_of (action w pd o)) `prefix_of` plan w pd o
  /\ forallb spawn_ok (removelast (spawns (trace_of (action w pd o)))) = true.
Proof.
  destruct (action_events w pd o) as (tail & -> & Htail & _).
  destruct (runs_createProject w pd o (start w)) as (evs & -> & Hp & Hl & _).
  destruct (stderr_keys tail Htail) as [Hk Hs].
  cbn [start st_trace app]. by rewrite keys_app, spawns_app, Hk, Hs, !app_nil_r.
Qed.

(** X4. A run that reaches the mark of the last stage has spawned every
    command of the plan, and each one closed with 0. *)
Theorem completed_run_ran_every_stage w pd o :
  In done_mark (trace_of (action w pd o)) ->
  keys (trace_of (action w pd o)) = plan w pd o
  /\ forallb spawn_ok (spawns (trace_of (action w pd o))) = true.
Proof.
  destruct (action_events w pd o) as (tail & -> & Htail & _).
  destruct (runs_createProject w pd o (start w)) as (evs & -> & _ & _ & Hr).
  destruct (stderr_keys tail Htail) as [Hk Hs].
  cbn [start st_trace app]. rewrite keys_app, spawns_app, Hk, Hs, !app_nil_r.
  intros Hin. apply Hr. apply in_app_or in Hin as [Hin | Hin]; [done |].
  apply (In_forallb is_stderr tail _ Htail) in Hin. done.
Qed.

(** X5. The generator is called as [npx create-vite@latest <target>
    --template <react|react-ts> --yes] in the directory above the project
    path. When the current directory is the target, the target handed over
    is the dot and the working directory of the generator is the parent of
    the current directory. *)
Theorem generator_invocation w pd o args dir r :
  In (Spawned "npx" args dir r) (trace_of (action w pd o)) ->
  args = [ "create-vite@latest";
           if String.eqb (planned_target w pd).2 (cwd w) then "."
           else (planned_target w pd).1;
           "--template";
           if typescript o then "react-ts" else "react";
           "--yes" ]
  /\ dir = path_dirname (planned_target w pd).2
  /\ (targetsCwd pd = true ->
      args = [ "create-vite@latest"; "."; "--template";
               if typescript o then "react-ts" else "react"; "--yes" ]
      /\ dir = path_dirname (cwd w)).
Proof.
  intros Hin. apply in_keys in Hin.
  destruct (action_events w pd o) as (tail & Htr & Htail & _).
  destruct (runs_createProject w pd o (start w)) as (evs & Hevs & Hp & _).
  destruct (stderr_keys tail Htail) as [Hk _].
  rewrite Htr, Hevs in Hin. cbn [start st_trace app] in Hin.
  rewrite keys_app, Hk, app_nil_r in Hin.
  destruct Hp as (rest & Hplan).
  assert (Hmem : ("npx", args, dir) ∈ plan w pd o)
    by (rewrite Hplan; apply elem_of_app; by left).
  unfold plan in Hmem. destruct (planned_target w pd) as [n p] eqn:Ht. cbn [fst snd].
  assert (Hgen : args = viteArgs w p (variant o) n /\ dir = path_dirname p).
  { rewrite !elem_of_app, !list_elem_of_singleton in Hmem.
    destruct Hmem as [[= -> ->] | [Hmem | [=]]]; [done |].
    destruct (tailwind o); [| by apply elem_of_nil in Hmem].
    by apply list_elem_of_singleton in Hmem as [=]. }
  destruct Hgen as [-> ->]. split; [done |]. split; [done |].
  intros Hcwd. unfold planned_target in Ht. rewrite Hcwd in Ht.
  injection Ht as <- <-. unfold viteArgs. by rewrite String.eqb_refl.
Qed.

(** X6. A spawn that fails ends the run: what follows in the trace holds no
    spawn and no write or removal, the process exits with status 1, and the
    reported error is the one that the tool builds for that spawn. *)
Theorem failed_spawn_ends_run w pd o pre e post :
  trace_of (action w pd o) = pre ++ e :: post ->
  failed_spawn e = true ->
  exit_status (action w pd o) = 1
  /\ reported (action w pd o) = Some (spawn_error e)
  /\ spawns post = []
  /\ mutations post = [].
Proof.
  intros Htr Hf.
  destruct (action_events w pd o) as (tail & Hall & Htail & _ & Hthrow).
  destruct (fails_fast_createProject w pd o (start w)) as (evs & Hevs & Hfast).
  rewrite Hall, Hevs in Htr. cbn [start st_trace app] in Htr.
  apply split_app in Htr as [(post1 & -> & ->) | (pre2 & -> & Heq)].
  - destruct (Hfast pre e post1 eq_refl Hf) as [Hout Hmarks].
    destruct (Hthrow _ Hout) as [-> ->]. split; [done |]. split; [done |].
    rewrite spawns_app, mutations_app.
    destruct (stderr_only_is_passive tail Htail) as [-> ->].
    rewrite !app_nil_r. split; apply filter_nil_of_forallb_negb;
      apply (forallb_weaken is_fail_mark); try done; by intros [| | [] | | | |].
  - exfalso.
    assert (Hin : In e tail) by (rewrite Heq; apply in_or_app; right; by left).
    apply (In_forallb is_stderr tail _ Htail) in Hin. by destruct e.
Qed.

(** X7. The tool writes and removes nothing but files of the Tailwind stage:
    every write or removal of a run happens with the Tailwind flag set,
    after the package manager has added the Tailwind packages to the
    project, and touches the build configuration, [src/index.css] or the
    entry component of that project, or removes its [src/App.css]. *)
Theorem writes_are_guarded w pd o pre e post :
  trace_of (action w pd o) = pre ++ e :: post ->
  is_mutation e = true ->
  tailwind o = true
  /\ In (tailwind_added (planned_target w pd).2) pre
  /\ touches (planned_target w pd).2 e = true.
Proof.
  intros Htr Hm.
  destruct (action_events w pd o) as (tail & Hall & Htail & _).
  destruct (guarded_createProject w pd o (start w)) as (evs & Hevs & Hguard).
  destruct (runs_createProject w pd o (start w)) as (evs' & Hevs' & Hp & _).
  rewrite Hevs in Hevs'. apply app_inv_head in Hevs'. subst evs'.
  rewrite Hall, Hevs in Htr. cbn [start st_trace app] in Htr.
  apply split_app in Htr as [(post1 & Heq & ->) | (pre2 & -> & Heq)].
  2: { exfalso.
       assert (Hin : In e tail) by (rewrite Heq; apply in_or_app; right; by left).
       apply (In_forallb is_stderr tail _ Htail) in Hin. by destruct e. }
  destruct (Hguard pre e post1 Heq Hm) as (p & Hin & Ht).
  assert (Hmem : ("npm", tailwindArgs, p) ∈ plan w pd o).
  { destruct Hp as (rest & ->). apply elem_of_app. left.
    apply (in_keys _ _ _ (Closed (Some 0))). rewrite Heq. apply in_or_app. by left. }
  unfold plan in Hmem. destruct (planned_target w pd) as [n q]. cbn [fst snd].
  rewrite !elem_of_app, !list_elem_of_singleton in Hmem.
  destruct Hmem as [[=] | [Hmem | [=]]].
  destruct (tailwind o); [| by apply elem_of_nil in Hmem].
  apply list_elem_of_singleton in Hmem as [= ->]. done.
Qed.

End Protocol.

(** ** Errors and edge cases *)

Section Edges.

Context {P : Platform}.

Lemma startsWith_refl (x : string) : startsWith x x = true.
Proof. induction x as [| a x IH]; [done |]. simpl. by rewrite Ascii.eqb_refl. Qed.

(** X8. [runCommand] rejects whenever the process does not close with code
    0, leaving the disk as the process left it; when the process closed
    with another code the error names the command line and that code, and
    when it could not be spawned the error is the one of the system. *)
Theorem runCommand_rejects command args dir s :
  (spawn command args dir (st_disk s)).1 <> Closed (Some 0) ->
  runCommand command args dir s
  = (Throw (command_error command args (spawn command args dir (st_disk s)).1),
     {| st_disk := (spawn command args dir (st_disk s)).2;
        st_trace := st_trace s ++
          [Spawned command args dir (spawn command args dir (st_disk s)).1] |})
  /\ (forall code,
        (spawn command args dir (st_disk s)).1 = Closed code ->
        str_includes (command +:+ " " +:+ String.concat " " args)
          (command_error command args (Closed code)) = true
        /\ str_includes (show_code code) (command_error command args (Closed code)) = true)
  /\ (forall message,
        (spawn command args dir (st_disk s)).1 = SpawnError message ->
        command_error command args (SpawnError message) = message).
Proof.
  intros Hr. rewrite runCommand_run. split; [| split].
  - by destruct (spawn command args dir (st_disk s)).1 as [[[| c | c] |] | message].
  - intros code _. unfold command_error, command_line. split.
    + rewrite <- (append_assoc "Command " dq). apply str_includes_middle.
    + rewrite <- !append_assoc. apply str_includes_append_r, str_includes_head,
        startsWith_refl.
  - done.
Qed.

(** X9. An empty directory argument and the dot are read like a missing
    argument: the three invocations are the same run. *)
Theorem empty_argument_is_cwd w o :
  action w (Some EmptyString) o = action w None o
  /\ action w (Some ".") o = action w None o.
Proof. split; reflexivity. Qed.

(** X11. An invalid project name is explained in full: the heading, then
    every error of the validator, then every warning, in the order of the
    validator, and nothing else. *)
Theorem invalid_name_is_explained w d o :
  arr_includes validTemplates (template o) = true ->
  targetsCwd (Some d) = false ->
  validForNewPackages (validateProjectName d) = false ->
  trace_of (action w (Some d) o)
  = Stderr (chalk Red "Invalid project name:")
    :: List.map (fun err => Stderr (chalk Red ("  • " +:+ err)))
                (default [] (errors (validateProjectName d)))
    ++ List.map (fun warn => Stderr (chalk Yellow ("  • " +:+ warn)))
                (default [] (warnings (validateProjectName d))).
Proof.
  intros Ht Hd Hv.
  rewrite (action_ret w (Some d) o tt (log (start w) (name_errors (validateProjectName d)))).
  - done.
  - by rewrite createProject_valid_template, resolveTarget_invalid_name.
Qed.

(** X12. When the build configuration is missing after the packages were
    added, the Tailwind stage throws the error of [readFile] without having
    written or removed anything. *)
Theorem missing_config_stops_stage p ts t s d1 :
  spawn "npm" tailwindArgs p (st_disk s) = (Closed (Some 0), d1) ->
  d1 !! viteConfigPath p ts = None ->
  installTailwind p ts t s
  = (Throw ("ENOENT: no such file or directory, open '" +:+ viteConfigPath p ts +:+ "'"),
     {| st_disk := d1;
        st_trace := st_trace s ++ [Spawned "npm" tailwindArgs p (Closed (Some 0))] |}).
Proof.
  intros Hs Hc. rewrite installTailwind_split. unfold bind at 1.
  rewrite runCommand_run, Hs. cbn [fst snd].
  unfold patch_files, bind at 1, readFile. cbn [st_disk]. by rewrite Hc.
Qed.


End Edges.

(** ** The accepted templates and the catalog *)

Lemma accepted_cases (t : string) :
  arr_includes validTemplates t = true ->
  t = "basic" \/ t = "dashboard" \/ t = "landing" \/ t = "blog".
Proof.
  unfold arr_includes, validTemplates. cbn [existsb].
  destruct (String.eqb_spec t "basic"); [by left |].
  destruct (String.eqb_spec t "dashboard"); [by right; left |].
  destruct (String.eqb_spec t "landing"); [by right; right; left |].
  destruct (String.eqb_spec t "blog"); [by right; right; right |].
  done.
Qed.

Lemma blobs_differ (a b : string) :
  String.eqb a b = false \/ String.eqb b a = false -> JsString a <> JsString b.
Proof.
  intros [H | H] [= Heq]; apply String.eqb_neq in H; by subst.
Qed.

(** X13. Every template that [createProject] accepts has an entry of its own
    in the catalog of [generateAppTemplate]: the lookup gives that entry, a
    non-empty text, so the fallback to the basic template is never taken
    for an accepted template; and two accepted templates with the same
    entry component are the same template. *)
Theorem accepted_template_has_own_entry (t : string) :
  arr_includes validTemplates t = true ->
  (exists blob,
     templates !! t = Some blob
     /\ generateAppTemplate t = JsString blob
     /\ blob <> EmptyString)
  /\ (forall t', arr_includes validTemplates t' = true ->
                 generateAppTemplate t' = generateAppTemplate t -> t' = t).
Proof.
  intros Ht. split.
  - apply accepted_cases in Ht as [-> | [-> | [-> | ->]]];
      [exists basic_blob | exists dashboard_blob | exists landing_blob | exists blog_blob];
      (split; [by vm_compute | split; [by vm_compute |]]);
      apply String.eqb_neq; by vm_compute.
  - intros t' Ht'.
    destruct catalog_own_ids as (Hb & Hd & Hl & Hg & _).
    destruct catalog_entries_distinct as (D1 & D2 & D3 & D4 & D5 & D6).
    apply accepted_cases in Ht as [-> | [-> | [-> | ->]]];
      apply accepted_cases in Ht' as [-> | [-> | [-> | ->]]];
      rewrite ?Hb, ?Hd, ?Hl, ?Hg; intros Heq; try reflexivity;
      exfalso; revert Heq; apply blobs_differ; auto.
Qed.

(** ** The spinner *)

Section Spinner.

Context {P : Platform}.

(** [disciplined spinning evs]: the events keep to the discipline of the
    spinner, starting with a spinner that runs or not: it is started only
    when it does not run and stopped only when it runs, the console and the
    prompt are used only while it does not run, processes are spawned and
    files changed only while it runs. The result says whether it runs at
    the end. *)
Fixpoint disciplined (spinning : bool) (evs : list Event) : option bool :=
  match evs with
  | [] => Some spinning
  | Spinner SpinStart _ :: rest => if spinning then None else disciplined true rest
  | Spinner _ _ :: rest => if spinning then disciplined false rest else None
  | (Stdout _ | Stderr _ | Prompt _) :: rest =>
      if spinning then None else disciplined false rest
  | _ :: rest => if spinning then disciplined true rest else None
  end.

(** The events that leave the spinner alone and fit its state. *)
Definition fits (spinning : bool) (e : Event) : bool :=
  match e with
  | Spinner _ _ => false
  | Stdout _ | Stderr _ | Prompt _ => negb spinning
  | _ => spinning
  end.

(** [phases b b' bt m]: started with the spinner in state [b], [m] keeps
    to the discipline and leaves the spinner in state [b'] when it returns
    and in state [bt] when it throws. *)
Definition phases (b b' bt : bool) {A} (m : M A) : Prop :=
  forall s, exists evs,
    st_trace (m s).2 = st_trace s ++ evs
    /\ disciplined b evs = Some (match (m s).1 with Ret _ => b' | Throw _ => bt end).

Lemma disciplined_app b (e1 e2 : list Event) :
  disciplined b (e1 ++ e2)
  = match disciplined b e1 with
    | Some b1 => disciplined b1 e2
    | None => None
    end.
Proof.
  revert b. induction e1 as [| e e1 IH]; intros b; [done |].
  destruct e as [| | [] | | | |], b; simpl; by rewrite ?IH.
Qed.

Lemma disciplined_fits b (evs : list Event) :
  forallb (fits b) evs = true -> disciplined b evs = Some b.
Proof.
  induction evs as [| e evs IH]; [done |]. simpl. intros [He Hevs]%andb_prop.
  destruct e as [| | [] | | | |], b; simpl in *; try done; by apply IH.
Qed.

Lemma phases_only b {A} (m : M A) : only (fits b) m -> phases b b b m.
Proof.
  intros Hm s. destruct (Hm s) as (evs & Htr & Hok). exists evs.
  split; [done |]. rewrite (disciplined_fits b evs Hok). by destruct (m s).1.
Qed.

Lemma phases_returning b bt {A} (m : M A) :
  returns m -> only (fits b) m -> phases b b bt m.
Proof.
  intros Hret Hm s. destruct (Hm s) as (evs & Htr & Hok). exists evs.
  split; [done |]. rewrite (disciplined_fits b evs Hok). by destruct (Hret s) as [a ->].
Qed.

Lemma phases_emit b b' bt (e : Event) :
  disciplined b [e] = Some b' -> phases b b' bt (emit e).
Proof. intros H s. by exists [e]. Qed.

Lemma phases_ret b bt {A} (a : A) : phases b b bt (ret a).
Proof. intros s. exists []. simpl. by rewrite app_nil_r. Qed.

Lemma phases_bind b b1 b2 bt {A B} (m : M A) (k : A -> M B) :
  phases b b1 bt m -> (forall a, phases b1 b2 bt (k a)) -> phases b b2 bt (bind m k).
Proof.
  intros Hm Hk s. unfold bind. destruct (Hm s) as (e1 & H1 & D1).
  destruct (m s) as [[a | e] s1]; cbn [fst snd] in *.
  - destruct (Hk a s1) as (e2 & H2 & D2). exists (e1 ++ e2).
    split; [by rewrite H2, H1, <- List.app_assoc |]. by rewrite disciplined_app, D1.
  - by exists e1.
Qed.

Lemma phases_rethrow b b' {A} (m : M A) (text : string) :
  phases b b' true m ->
  phases b b' false (try_catch m (fun error => spinner SpinFail text ;; throw error)).
Proof.
  intros Hm s. unfold try_catch. destruct (Hm s) as (e1 & H1 & D1).
  destruct (m s) as [[a | e] s1]; cbn [fst snd] in *.
  - by exists e1.
  - exists (e1 ++ [Spinner SpinFail text]).
    split; [unfold bind, spinner, emit, throw; cbn [fst snd st_trace];
            by rewrite H1, <- List.app_assoc |].
    by rewrite disciplined_app, D1.
Qed.

Lemma reportSuccess_returns pd n p : returns (reportSuccess pd n p).
Proof.
  unfold reportSuccess.
  repeat lazymatch goal with
         | |- returns (bind _ _) => apply returns_bind; [| intros]
         | |- returns (ret _) => apply returns_ret
         | |- returns (console_log _) => apply returns_emit
         | |- returns (if ?b then _ else _) => destruct b
         end.
Qed.

Lemma phases_materialize w pd o n p : phases true false true (materialize w pd o n p).
Proof.
  unfold materialize. cbv zeta.
  apply (phases_bind true true false); [apply phases_only; repeat stage_step | intros _].
  apply (phases_bind true false false); [by apply phases_emit | intros _].
  apply (phases_bind false false false).
  { destruct (tailwind o); [| apply phases_ret].
    apply (phases_bind false true false); [by apply phases_emit | intros _].
    apply (phases_bind true true false); [apply phases_only; repeat stage_step | intros _].
    by apply phases_emit. }
  intros _.
  apply (phases_bind false true false); [by apply phases_emit | intros _].
  apply (phases_bind true true false); [apply phases_only; repeat stage_step | intros _].
  apply (phases_bind true false false); [by apply phases_emit | intros _].
  apply phases_returning; [apply reportSuccess_returns | repeat stage_step].
Qed.

Lemma phases_createProject w pd o : phases false false false (createProject w pd o).
Proof.
  unfold createProject.
  destruct (negb (arr_includes validTemplates (template o))); [by apply phases_emit |].
  apply (phases_bind false false false);
    [apply phases_only; by apply only_resolveTarget |].
  intros [[n p] |]; [| apply phases_ret].
  unfold build.
  do 3 (apply (phases_bind false false false); [by apply phases_emit | intros _]).
  apply (phases_bind false true false); [by apply phases_emit | intros _].
  apply phases_rethrow, phases_materialize.
Qed.

(** X14. Every run keeps to the discipline of the spinner: it is started
    only when it does not run and marked as succeeded or failed only when
    it runs; the tool prints and asks only while no spinner runs, and it
    spawns processes and changes files only while one runs; and when the
    run ends, whatever its outcome, no spinner is left running. *)
Theorem spinner_discipline w pd o :
  disciplined false (trace_of (action w pd o)) = Some false.
Proof.
  destruct (action_events w pd o) as (tail & -> & Htail & _).
  destruct (phases_createProject w pd o (start w)) as (evs & -> & Hd).
  cbn [start st_trace app]. rewrite disciplined_app, Hd.
  assert (Hend : (match (createProject w pd o (start w)).1 with
                  | Ret _ => false
                  | Throw _ => false
                  end) = false) by (by destruct (createProject w pd o (start w)).1).
  rewrite Hend. apply disciplined_fits.
  apply (forallb_weaken is_stderr); [by intros [] | done].
Qed.

(** X15. An unknown template is rejected before anything else is looked
    at: whatever the directory argument, the disk and the answer to the
    prompt, the run prints one error line, which quotes the template and
    lists the four templates joined by a comma and a space, and reports no
    error to the top level. *)
Theorem unknown_template_is_rejected_first w pd o :
  arr_includes validTemplates (template o) = false ->
  trace_of (action w pd o)
  = [ Stderr (chalk Red ("Invalid template " +:+ dq +:+ template o +:+ dq
                         +:+ ". Available templates: basic, dashboard, landing, blog")) ]
  /\ reported (action w pd o) = None.
Proof.
  intros Ht.
  rewrite (action_ret w pd o tt (log (start w) [template_error o]));
    [done | by apply createProject_invalid_template].
Qed.

(** X16. A named target that exists, as a file or as a directory, is
    refused with one error line that quotes the argument as it was given,
    not the resolved path. *)
Theorem taken_target_is_refused w d o :
  arr_includes validTemplates (template o) = true ->
  targetsCwd (Some d) = false ->
  validForNewPackages (validateProjectName d) = true ->
  is_Some (initial_disk w !! path_resolve (cwd w) d) ->
  trace_of (action w (Some d) o)
  = [ Stderr (chalk Red ("Directory " +:+ dq +:+ d +:+ dq +:+ " already exists.")) ]
  /\ reported (action w (Some d) o) = None.
Proof.
  intros Ht Hd Hv Hx.
  rewrite (action_ret w (Some d) o tt (log (start w) [taken_error d])); [done |].
  by rewrite createProject_valid_template, resolveTarget_taken.
Qed.

End Spinner.

(** ** The patch, anchor by anchor *)

Section PatchByAnchor.

Context {P : Platform}.

(** Whatever the text of the build configuration, the patch raises no
    error: the stage writes the patched text back and goes on. *)
Lemma installTailwind_patches p ts t s d1 c :
  spawn "npm" tailwindArgs p (st_disk s) = (Closed (Some 0), d1) ->
  d1 !! viteConfigPath p ts = Some (File c) ->
  d1 !! path_dirname (viteConfigPath p ts) = Some Dir ->
  installTailwind p ts t s
  = overwrite_sources p ts t
      {| st_disk := <[viteConfigPath p ts := File (patchViteConfig ts c)]> d1;
         st_trace := st_trace s ++
           [ Spawned "npm" tailwindArgs p (Closed (Some 0));
             Wrote (viteConfigPath p ts) (patchViteConfig ts c) ] |}.
Proof.
  intros Hs Hc Hdir. rewrite installTailwind_split. unfold bind at 1.
  rewrite runCommand_run, Hs. cbn [fst snd].
  unfold patch_files, bind at 1, readFile. cbn [st_disk]. rewrite Hc.
  unfold bind at 1, writeFile at 1. cbn [st_disk st_trace]. rewrite Hc, Hdir.
  by rewrite <- List.app_assoc.
Qed.

(** A text that holds one of the anchors comes out of the patch longer. *)
Lemma patch_grows (ts : bool) (c : string) :
  str_includes viteImport c = true \/ str_includes pluginsLiteral c = true ->
  (String.length c < String.length (patchViteConfig ts c))%nat.
Proof.
  intros Hany.
  assert (Heq : patchViteConfig ts c
                = replace pluginsLiteral pluginsPatched
                    (replace viteImport viteImportPatched c)) by (by destruct ts).
  rewrite Heq. clear Heq.
  destruct anchor_lengths as (L1 & L2 & L3).
  assert (Hline : (0 < String.length tailwindImportLine)%nat) by (vm_compute; lia).
  assert (Hadd : (0 < String.length pluginsAddition)%nat) by (vm_compute; lia).
  destruct (str_includes viteImport c) eqn:Hi.
  - pose proof (replace_length viteImport viteImportPatched c Hi) as H1.
    pose proof (replace_length_ge pluginsLiteral pluginsPatched
                  (replace viteImport viteImportPatched c) L3) as H2.
    lia.
  - destruct Hany as [Hany | Hp]; [discriminate Hany |].
    rewrite (replace_absent viteImport viteImportPatched c Hi).
    pose proof (replace_length pluginsLiteral pluginsPatched c Hp) as H1. lia.
Qed.

(** C3 (amended). A substitution whose anchor is absent from the text of
    the build configuration is skipped without an error, and the other one
    is applied all the same: without the import line the patch is the
    plugin substitution alone, without the plugin literal it is the import
    substitution alone. The patched text equals the text read exactly when
    both anchors are absent. Whatever the text, the patch raises no error:
    the stage writes the patched text back and goes on, and with both
    anchors absent that write leaves the disk as the package manager left
    it. *)
Theorem patch_skips_absent_anchor (ts : bool) (c : string) :
  (str_includes viteImport c = false ->
     replace viteImport viteImportPatched c = c
     /\ patchViteConfig ts c = replace pluginsLiteral pluginsPatched c)
  /\ (str_includes pluginsLiteral c = false ->
       replace pluginsLiteral pluginsPatched c = c
       /\ patchViteConfig ts c = replace viteImport viteImportPatched c)
  /\ (patchViteConfig ts c = c
      <-> str_includes viteImport c = false /\ str_includes pluginsLiteral c = false)
  /\ (forall p t s d1,
        spawn "npm" tailwindArgs p (st_disk s) = (Closed (Some 0), d1) ->
        d1 !! viteConfigPath p ts = Some (File c) ->
        d1 !! path_dirname (viteConfigPath p ts) = Some Dir ->
        installTailwind p ts t s
        = overwrite_sources p ts t
            {| st_disk := <[viteConfigPath p ts := File (patchViteConfig ts c)]> d1;
               st_trace := st_trace s ++
                 [ Spawned "npm" tailwindArgs p (Closed (Some 0));
                   Wrote (viteConfigPath p ts) (patchViteConfig ts c) ] |}
        /\ (str_includes viteImport c = false ->
            str_includes pluginsLiteral c = false ->
            <[viteConfigPath p ts := File (patchViteConfig ts c)]> d1 = d1)).
Proof.
  assert (Himport : str_includes viteImport c = false ->
                    patchViteConfig ts c = replace pluginsLiteral pluginsPatched c).
  { intros H. unfold patchViteConfig. destruct ts; by rewrite (replace_absent _ _ _ H). }
  assert (Hplugins : str_includes pluginsLiteral c = false ->
                     patchViteConfig ts c = replace viteImport viteImportPatched c).
  { intros H. unfold patchViteConfig.
    destruct ts; apply replace_absent; by apply import_patch_keeps_plugins_absent. }
  assert (Hboth : str_includes viteImport c = false ->
                  str_includes pluginsLiteral c = false -> patchViteConfig ts c = c).
  { intros Hi Hp. rewrite Himport by done. by apply replace_absent. }
  split; [| split; [| split]].
  - intros H. split; [by apply replace_absent | by apply Himport].
  - intros H. split; [by apply replace_absent | by apply Hplugins].
  - split.
    + intros Heq.
      destruct (str_includes viteImport c) eqn:Hi, (str_includes pluginsLiteral c) eqn:Hp;
        try done;
        (assert (Hlt : (String.length c < String.length (patchViteConfig ts c))%nat)
           by (apply patch_grows; rewrite ?Hi, ?Hp; auto));
        rewrite Heq in Hlt; lia.
    + intros [Hi Hp]. by apply Hboth.
  - intros p t s d1 Hs Hc Hdir. split; [by apply installTailwind_patches |].
    intros Hi Hp. rewrite (Hboth Hi Hp). by apply insert_id.
Qed.

End PatchByAnchor.

(** ** The catalog, key by key *)



(** ** The disk after the Tailwind stage *)

Section StageDisk.

Context {P : Platform}.

(** The text of the writes applied to a disk, and the events of the
    writes. *)
Definition apply_writes (ws : list (string * string)) (d : disk) : disk :=
  fold_left (fun d w => <[w.1 := File w.2]> d) ws d.

Definition wrote (w : string * string) : Event := Wrote w.1 w.2.

(** X17. The Tailwind stage leaves the rest of the disk alone: when it
    returns, and [src/App.css] was no directory on the disk that the
    package manager left, every path but the build configuration,
    [src/index.css], the entry component and [src/App.css] holds what the
    package manager left there. *)
Theorem tailwind_stage_frame p ts t s s' q :
  installTailwind p ts t s = (Ret tt, s') ->
  (spawn "npm" tailwindArgs p (st_disk s)).2 !! appCssPath p <> Some Dir ->
  q <> viteConfigPath p ts ->
  q <> cssPath p ->
  q <> appPath p ts ->
  q <> appCssPath p ->
  st_disk s' !! q = (spawn "npm" tailwindArgs p (st_disk s)).2 !! q.
Proof.
  intros H _ H1 H2 H3 H4.
  apply installTailwind_ret in H as (d1 & c & blob & removal & -> & _ & _ & -> & _).
  cbn [snd]. rewrite lookup_delete_ne by done. by rewrite !lookup_insert_ne.
Qed.

Lemma kept_writes p ts s s' e e0 r d1 (ws : list (string * string)) :
  (Throw e0 : Result unit,
   {| st_disk := apply_writes ws d1;
      st_trace := st_trace s ++ Spawned "npm" tailwindArgs p r :: List.map wrote ws |})
  = (Throw e, s') ->
  List.map fst ws `prefix_of` [viteConfigPath p ts; cssPath p; appPath p ts] ->
  (length ws = 3%nat -> remove_fault (appCssPath p) (apply_writes ws d1) = Some e0) ->
  exists ws : list (string * string),
    st_trace s' = st_trace s ++ Spawned "npm" tailwindArgs p r :: List.map wrote ws
    /\ st_disk s' = apply_writes ws d1
    /\ List.map fst ws `prefix_of` [viteConfigPath p ts; cssPath p; appPath p ts]
    /\ (length ws = 3%nat -> remove_fault (appCssPath p) (st_disk s') = Some e).
Proof. intros [= <- <-] Hpre Hlen. by exists ws. Qed.

(** X18. A Tailwind stage that fails is not rolled back: the files written
    before the failure keep their new text. When [src/App.css] was no
    directory on the disk that the package manager left, the trace of a
    stage that throws holds the call of the package manager and then the
    writes of the build configuration, of [src/index.css] and of the entry
    component, in this order, up to the step that failed, and no removal;
    the disk is the one that the package manager left with exactly these
    writes applied; and when all three were written, the error is the
    refusal of the system to remove [src/App.css]. *)
Theorem failed_stage_keeps_its_writes p ts t s e s' :
  installTailwind p ts t s = (Throw e, s') ->
  (spawn "npm" tailwindArgs p (st_disk s)).2 !! appCssPath p <> Some Dir ->
  exists ws : list (string * string),
    st_trace s'
    = st_trace s ++ Spawned "npm" tailwindArgs p (spawn "npm" tailwindArgs p (st_disk s)).1
                    :: List.map wrote ws
    /\ st_disk s' = apply_writes ws (spawn "npm" tailwindArgs p (st_disk s)).2
    /\ List.map fst ws `prefix_of` [viteConfigPath p ts; cssPath p; appPath p ts]
    /\ (length ws = 3%nat -> remove_fault (appCssPath p) (st_disk s') = Some e).
Proof.
  intros H _. rewrite installTailwind_split in H. unfold bind at 1 in H.
  rewrite runCommand_run in H.
  destruct (spawn "npm" tailwindArgs p (st_disk s)) as [r d1]. cbn [fst snd] in *.
  assert (Hnone : forall e0 : string,
            (Throw e0 : Result unit,
             {| st_disk := d1; st_trace := st_trace s ++ [Spawned "npm" tailwindArgs p r] |})
            = (Throw e, s') ->
            exists ws : list (string * string),
              st_trace s' = st_trace s ++ Spawned "npm" tailwindArgs p r :: List.map wrote ws
              /\ st_disk s' = apply_writes ws d1
              /\ List.map fst ws `prefix_of` [viteConfigPath p ts; cssPath p; appPath p ts]
              /\ (length ws = 3%nat -> remove_fault (appCssPath p) (st_disk s') = Some e)).
  { intros e0 H0. apply (kept_writes p ts s s' e e0 r d1 [] H0);
      [apply prefix_nil | discriminate]. }
  destruct r as [[[| c | c] |] | message]; try (by apply (Hnone _ H)).
  unfold patch_files, bind at 1, readFile in H. cbn [st_disk] in H.
  destruct (d1 !! viteConfigPath p ts) as [[c |] |] eqn:Hc; try (by apply (Hnone _ H)).
  unfold bind at 1, writeFile at 1 in H. cbn [st_disk st_trace] in H. rewrite Hc in H.
  destruct (d1 !! path_dirname (viteConfigPath p ts)) as [[? |] |];
    try (by apply (Hnone _ H)).
  clear Hnone.
  set (w1 := (viteConfigPath p ts, patchViteConfig ts c)).
  set (w2 := (cssPath p, tailwindImports)).
  unfold overwrite_sources, bind at 1, writeFile at 1 in H. cbn [st_disk st_trace] in H.
  rewrite <- List.app_assoc in H. cbn [app] in H.
  set (d2 := <[viteConfigPath p ts := File (patchViteConfig ts c)]> d1) in *.
  assert (Hone : forall e0 : string,
            (Throw e0 : Result unit,
             {| st_disk := d2;
                st_trace := st_trace s ++
                  [ Spawned "npm" tailwindArgs p (Closed (Some 0));
                    Wrote (viteConfigPath p ts) (patchViteConfig ts c) ] |})
            = (Throw e, s') ->
            exists ws : list (string * string),
              st_trace s' = st_trace s ++ Spawned "npm" tailwindArgs p (Closed (Some 0))
                                          :: List.map wrote ws
              /\ st_disk s' = apply_writes ws d1
              /\ List.map fst ws `prefix_of` [viteConfigPath p ts; cssPath p; appPath p ts]
              /\ (length ws = 3%nat -> remove_fault (appCssPath p) (st_disk s') = Some e)).
  { intros e0 H0. apply (kept_writes p ts s s' e e0 _ d1 [w1] H0);
      [by exists [cssPath p; appPath p ts] | discriminate]. }
  destruct (d2 !! cssPath p) as [[? |] |], (d2 !! path_dirname (cssPath p)) as [[? |] |];
    try (by apply (Hone _ H)); clear Hone.
  all: cbn [st_disk st_trace] in H; rewrite <- List.app_assoc in H; cbn [app] in H;
    set (d3 := <[cssPath p := File tailwindImports]> d2) in *;
    assert (Htwo : forall e0 : string,
              (Throw e0 : Result unit,
               {| st_disk := d3;
                  st_trace := st_trace s ++
                    [ Spawned "npm" tailwindArgs p (Closed (Some 0));
                      Wrote (viteConfigPath p ts) (patchViteConfig ts c);
                      Wrote (cssPath p) tailwindImports ] |})
              = (Throw e, s') ->
              exists ws : list (string * string),
                st_trace s' = st_trace s ++ Spawned "npm" tailwindArgs p (Closed (Some 0))
                                            :: List.map wrote ws
                /\ st_disk s' = apply_writes ws d1
                /\ List.map fst ws
                   `prefix_of` [viteConfigPath p ts; cssPath p; appPath p ts]
                /\ (length ws = 3%nat ->
                    remove_fault (appCssPath p) (st_disk s') = Some e))
      by (intros e0 H0; apply (kept_writes p ts s s' e e0 _ d1 [w1; w2] H0);
          [by exists [appPath p ts] | discriminate]);
    unfold bind at 1, writeFile_value in H;
    destruct (generateAppTemplate t) as [blob | |]; try (by apply (Htwo _ H));
    unfold writeFile at 1 in H; cbn [st_disk st_trace] in H;
    destruct (d3 !! appPath p ts) as [[? |] |],
             (d3 !! path_dirname (appPath p ts)) as [[? |] |];
    try (by apply (Htwo _ H)); clear Htwo;
    cbn [st_disk st_trace] in H; rewrite <- List.app_assoc in H; cbn [app] in H;
    unfold bind, pathExists, remove, ret in H; cbn [st_disk st_trace] in H;
    destruct (bool_decide _); try discriminate H;
    destruct (remove_fault _ _) as [message |] eqn:Hfault; try discriminate H;
    (apply (kept_writes p ts s s' e message _ d1 [w1; w2; (appPath p ts, blob)] H);
     [by exists [] | intros _; exact Hfault]).
Qed.

End StageDisk.

(** ** Runs on the concrete host, continued *)

Module Scenarios.

Import Demo.

(** The POSIX host with a package manager that exits with code 1. *)
Definition failing_npm : Platform :=
  {| chalk := fun _ text => text;
     validateProjectName := validate;
     path_basename := basename;
     path_dirname := dirname;
     path_resolve := resolve;
     path_join := join;
     spawn := fun command args dir d =>
       if String.eqb command "npm" then (Closed (Some 1), d)
       else run 0 command args dir d;
     remove_fault := fun _ _ => None |}.

(** A complete run, and one that stops at the Tailwind packages. *)
Definition complete_run : Run :=
  action (P := host 0) (world None bare) (Some "my-app") dashboard_js.

Definition failing_run : Run :=
  action (P := failing_npm) (world None bare) (Some "my-app") dashboard_js.

(** The state after the generator ran for the current directory: it was
    started with the dot in [/home], so its skeleton is in [/home]. *)
Definition scaffolded_parent : State :=
  {| st_disk := scaffold ["create-vite@latest"; "."; "--template"; "react"; "--yes"]
                         "/home" bare;
     st_trace := [] |}.

Lemma patch_adds_texts_witness :
  str_includes viteImportPatched (patchViteConfig false default_config) = true
  /\ str_includes pluginsPatched (patchViteConfig false default_config) = true
  /\ String.length (patchViteConfig false default_config)
     = (String.length default_config + String.length tailwindImportLine
        + String.length pluginsAddition)%nat.
Proof.
  split; [| split].
  - apply (proj1 (patch_adds_texts false default_config)). reflexivity.
  - apply (proj1 (proj2 (patch_adds_texts false default_config))). reflexivity.
  - apply (proj2 (proj2 (patch_adds_texts false default_config))); reflexivity.
Defined.

Lemma patch_not_idempotent_witness :
  (String.length (patchViteConfig false default_config)
   + String.length tailwindImportLine
   <= String.length (patchViteConfig false (patchViteConfig false default_config)))%nat
  /\ patchViteConfig false (patchViteConfig false default_config)
     <> patchViteConfig false default_config.
Proof.
  apply (patch_not_idempotent false default_config). reflexivity.
Defined.

Lemma completed_run_ran_every_stage_witness :
  keys (trace_of complete_run)
  = [ ("npx", generator_args, "/home/dev");
      ("npm", ["install"; "tailwindcss"; "@tailwindcss/vite"], "/home/dev/my-app");
      ("npm", ["install"], "/home/dev/my-app") ]
  /\ forallb spawn_ok (spawns (trace_of complete_run)) = true.
Proof.
  apply (completed_run_ran_every_stage (P := host 0) (world None bare) (Some "my-app")
           dashboard_js).
  vm_compute. repeat (first [left; reflexivity | right]).
Defined.

Lemma generator_invocation_witness :
  ["create-vite@latest"; "."; "--template"; "react-ts"; "--yes"]
  = [ "create-vite@latest";
      if String.eqb (planned_target (P := host 0) (world (Some true) home) (Some ".")).2
                    (cwd (world (Some true) home))
      then "." else (planned_target (P := host 0) (world (Some true) home) (Some ".")).1;
      "--template"; if typescript plain_ts then "react-ts" else "react"; "--yes" ]
  /\ "/home"
     = path_dirname (Platform := host 0)
         (planned_target (P := host 0) (world (Some true) home) (Some ".")).2
  /\ (targetsCwd (Some ".") = true ->
      ["create-vite@latest"; "."; "--template"; "react-ts"; "--yes"]
      = [ "create-vite@latest"; "."; "--template";
          if typescript plain_ts then "react-ts" else "react"; "--yes" ]
      /\ "/home" = path_dirname (Platform := host 0) (cwd (world (Some true) home))).
Proof.
  apply (generator_invocation (P := host 0) (world (Some true) home) (Some ".") plain_ts
           ["create-vite@latest"; "."; "--template"; "react-ts"; "--yes"] "/home"
           (Closed (Some 0))).
  vm_compute. repeat (first [left; reflexivity | right]).
Defined.

Lemma failed_spawn_ends_run_witness :
  exit_status failing_run = 1
  /\ reported failing_run
     = Some (spawn_error
               (Spawned "npm" ["install"; "tailwindcss"; "@tailwindcss/vite"]
                        "/home/dev/my-app" (Closed (Some 1))))
  /\ spawns (skipn 8 (trace_of failing_run)) = []
  /\ mutations (skipn 8 (trace_of failing_run)) = [].
Proof.
  apply (failed_spawn_ends_run (P := failing_npm) (world None bare) (Some "my-app")
           dashboard_js (firstn 7 (trace_of failing_run))
           (Spawned "npm" ["install"; "tailwindcss"; "@tailwindcss/vite"]
                    "/home/dev/my-app" (Closed (Some 1)))
           (skipn 8 (trace_of failing_run))).
  - vm_compute. reflexivity.
  - reflexivity.
Defined.

Lemma writes_are_guarded_witness :
  tailwind dashboard_js = true
  /\ In (tailwind_added
           (planned_target (P := host 0) (world None bare) (Some "my-app")).2)
        (firstn 11 (trace_of complete_run))
  /\ touches (P := host 0)
       (planned_target (P := host 0) (world None bare) (Some "my-app")).2
       (Removed "/home/dev/my-app/src/App.css") = true.
Proof.
  apply (writes_are_guarded (P := host 0) (world None bare) (Some "my-app") dashboard_js
           (firstn 11 (trace_of complete_run))
           (Removed "/home/dev/my-app/src/App.css")
           (skipn 12 (trace_of complete_run))).
  - vm_compute. reflexivity.
  - reflexivity.
Defined.

Lemma runCommand_rejects_witness :
  runCommand (P := failing_npm) "npm" ["install"] "/home/dev/my-app" (scaffolded false)
  = (Throw ("Command " +:+ dq +:+ "npm install" +:+ dq +:+ " failed with exit code 1"),
     {| st_disk := st_disk (scaffolded false);
        st_trace := [Spawned "npm" ["install"] "/home/dev/my-app" (Closed (Some 1))] |})
  /\ str_includes "npm install"
       ("Command " +:+ dq +:+ "npm install" +:+ dq +:+ " failed with exit code 1") = true
  /\ str_includes "1"
       ("Command " +:+ dq +:+ "npm install" +:+ dq +:+ " failed with exit code 1") = true.
Proof.
  destruct (runCommand_rejects (P := failing_npm) "npm" ["install"] "/home/dev/my-app"
              (scaffolded false)) as (Hthrow & Hclosed & _); [discriminate |].
  split; [exact Hthrow |]. apply (Hclosed (Some 1)). reflexivity.
Defined.

Lemma invalid_name_is_explained_witness :
  trace_of (action (P := host 0) (world None home) (Some ".cache") dashboard_js)
  = [ Stderr "Invalid project name:"; Stderr "  • name cannot start with a period" ].
Proof.
  apply (invalid_name_is_explained (P := host 0) (world None home) ".cache" dashboard_js);
    reflexivity.
Defined.

Lemma missing_config_stops_stage_witness :
  installTailwind (P := host 0) "/home/dev" false "dashboard" scaffolded_parent
  = (Throw "ENOENT: no such file or directory, open '/home/dev/vite.config.js'",
     {| st_disk := st_disk scaffolded_parent;
        st_trace := [Spawned "npm" ["install"; "tailwindcss"; "@tailwindcss/vite"]
                             "/home/dev" (Closed (Some 0))] |}).
Proof.
  apply (missing_config_stops_stage (P := host 0) "/home/dev" false "dashboard"
           scaffolded_parent (st_disk scaffolded_parent)).
  - reflexivity.
  - vm_compute. reflexivity.
Defined.

Lemma accepted_template_has_own_entry_witness :
  (exists blob,
     templates !! "landing" = Some blob
     /\ generateAppTemplate "landing" = JsString blob
     /\ blob <> EmptyString)
  /\ (forall t', arr_includes validTemplates t' = true ->
                 generateAppTemplate t' = generateAppTemplate "landing" -> t' = "landing").
Proof.
  apply (accepted_template_has_own_entry "landing"). reflexivity.
Defined.

Lemma unknown_template_is_rejected_first_witness :
  trace_of (action (P := host 0) (world None home) (Some ".cache") fancy)
  = [ Stderr ("Invalid template " +:+ dq +:+ "fancy" +:+ dq
              +:+ ". Available templates: basic, dashboard, landing, blog") ]
  /\ reported (action (P := host 0) (world None home) (Some ".cache") fancy) = None.
Proof.
  apply (unknown_template_is_rejected_first (P := host 0) (world None home)
           (Some ".cache") fancy).
  reflexivity.
Defined.

Lemma taken_target_is_refused_witness :
  trace_of (action (P := host 0) (world None home) (Some "notes.txt") dashboard_js)
  = [ Stderr ("Directory " +:+ dq +:+ "notes.txt" +:+ dq +:+ " already exists.") ]
  /\ reported (action (P := host 0) (world None home) (Some "notes.txt") dashboard_js)
     = None.
Proof.
  apply (taken_target_is_refused (P := host 0) (world None home) "notes.txt"
           dashboard_js).
  - reflexivity.
  - reflexivity.
  - reflexivity.
  - vm_compute. eauto.
Defined.

(** The POSIX host on which the system refuses every removal. *)
Definition locked : Platform :=
  {| chalk := fun _ text => text;
     validateProjectName := validate;
     path_basename := basename;
     path_dirname := dirname;
     path_resolve := resolve;
     path_join := join;
     spawn := run 0;
     remove_fault := fun p _ =>
       Some ("EPERM: operation not permitted, unlink '" +:+ p +:+ "'") |}.

(** The skeleton of the generator with another build configuration. *)
Definition scaffolded_with (c : string) : State :=
  {| st_disk := <["/home/dev/my-app/vite.config.js" := File c]> (st_disk (scaffolded false));
     st_trace := [] |}.

(** C3, as stated, fails when one anchor is absent and the other one is
    present. The import line is absent from [only_plugins] and the plugin
    literal from [only_import]; in both cases the stage returns and the
    build configuration it has written back is not the text it read. *)
Lemma absent_anchor_changes_file :
  (str_includes viteImport only_plugins = false
   /\ st_disk (scaffolded_with only_plugins) !! "/home/dev/my-app/vite.config.js"
      = Some (File only_plugins)
   /\ (installTailwind (P := host 0) "/home/dev/my-app" false "basic"
         (scaffolded_with only_plugins)).1 = Ret tt
   /\ st_disk (installTailwind (P := host 0) "/home/dev/my-app" false "basic"
                 (scaffolded_with only_plugins)).2 !! "/home/dev/my-app/vite.config.js"
      = Some (File "export default { plugins: [react(), tailwindcss()] }")
   /\ "export default { plugins: [react(), tailwindcss()] }" <> only_plugins)
  /\ (str_includes pluginsLiteral only_import = false
      /\ st_disk (scaffolded_with only_import) !! "/home/dev/my-app/vite.config.js"
         = Some (File only_import)
      /\ (installTailwind (P := host 0) "/home/dev/my-app" false "basic"
            (scaffolded_with only_import)).1 = Ret tt
      /\ st_disk (installTailwind (P := host 0) "/home/dev/my-app" false "basic"
                    (scaffolded_with only_import)).2 !! "/home/dev/my-app/vite.config.js"
         = Some (File "import { defineConfig } from 'vite'
import tailwindcss from '@tailwindcss/vite'
export default defineConfig({})")
      /\ "import { defineConfig } from 'vite'
import tailwindcss from '@tailwindcss/vite'
export default defineConfig({})" <> only_import).
Proof.
  split.
  - split; [by vm_compute |]. split; [by vm_compute |]. split; [by vm_compute |].
    split; [by vm_compute | discriminate].
  - split; [by vm_compute |]. split; [by vm_compute |]. split; [by vm_compute |].
    split; [by vm_compute | discriminate].
Qed.

Lemma patch_skips_absent_anchor_witness :
  (replace viteImport viteImportPatched only_plugins = only_plugins
   /\ patchViteConfig false only_plugins = replace pluginsLiteral pluginsPatched only_plugins)
  /\ (replace pluginsLiteral pluginsPatched only_import = only_import
      /\ patchViteConfig false only_import = replace viteImport viteImportPatched only_import)
  /\ patchViteConfig false no_anchor = no_anchor.
Proof.
  split; [| split].
  - apply (proj1 (patch_skips_absent_anchor (P := host 0) false only_plugins)).
    reflexivity.
  - apply (proj1 (proj2 (patch_skips_absent_anchor (P := host 0) false only_import))).
    reflexivity.
  - apply (proj2 (proj1 (proj2 (proj2 (patch_skips_absent_anchor (P := host 0) false
                                         no_anchor))))).
    split; reflexivity.
Defined.


Lemma tailwind_stage_frame_witness :
  st_disk (patched false) !! "/home/dev/.git"
  = (spawn (Platform := host 0) "npm" tailwindArgs "/home/dev/my-app"
       (st_disk (scaffolded false))).2 !! "/home/dev/.git".
Proof.
  apply (tailwind_stage_frame (P := host 0) "/home/dev/my-app" false "dashboard"
           (scaffolded false) (patched false) "/home/dev/.git").
  - vm_compute. reflexivity.
  - vm_compute. discriminate.
  - discriminate.
  - discriminate.
  - discriminate.
  - discriminate.
Defined.

Lemma failed_stage_keeps_its_writes_witness :
  exists ws : list (string * string),
    st_trace (installTailwind (P := locked) "/home/dev/my-app" false "dashboard"
                (scaffolded false)).2
    = st_trace (scaffolded false)
      ++ Spawned "npm" tailwindArgs "/home/dev/my-app"
           (spawn (Platform := locked) "npm" tailwindArgs "/home/dev/my-app"
              (st_disk (scaffolded false))).1
         :: List.map wrote ws
    /\ st_disk (installTailwind (P := locked) "/home/dev/my-app" false "dashboard"
                  (scaffolded false)).2
       = apply_writes ws
           (spawn (Platform := locked) "npm" tailwindArgs "/home/dev/my-app"
              (st_disk (scaffolded false))).2
    /\ List.map fst ws
       `prefix_of` [ viteConfigPath (P := locked) "/home/dev/my-app" false;
                     cssPath (P := locked) "/home/dev/my-app";
                     appPath (P := locked) "/home/dev/my-app" false ]
    /\ (length ws = 3%nat ->
        remove_fault (Platform := locked) (appCssPath (P := locked) "/home/dev/my-app")
          (st_disk (installTailwind (P := locked) "/home/dev/my-app" false "dashboard"
                      (scaffolded false)).2)
        = Some "EPERM: operation not permitted, unlink '/home/dev/my-app/src/App.css'").
Proof.
  apply (failed_stage_keeps_its_writes (P := locked) "/home/dev/my-app" false "dashboard"
           (scaffolded false)
           "EPERM: operation not permitted, unlink '/home/dev/my-app/src/App.css'").
  - vm_compute. reflexivity.
  - vm_compute. discriminate.
Defined.

End Scenarios.
